(** * Version tracking and update detection of the AI development workstation

    A shallow embedding of [scripts/utils.py] and [scripts/update-tools.py]:
    the Python functions are Rocq functions of the same name, written in a
    small state-and-exception monad where the source threads [self] and may
    raise.  The outside world (HTTP servers, the [brew] executable, the
    clock, the [packaging] library, the README file) is a parameter.

    The file has three parts: the embedding, module by module; the
    vocabulary in which the properties are stated, with a small world for
    the examples; the properties and their proofs. *)

From Stdlib Require Import ZArith Ascii String List Bool Lia DecimalString.
From stdpp Require Import base option list gmap strings sorting.

Local Open Scope Z_scope.
Set Warnings "-register-all".

(** ** Python values and exceptions *)

Module Py.

(** The exception classes the two scripts can meet.  [RequestException]
    carries the subclass raised by [requests]. *)
Inductive requests_fault :=
| ConnectionError
| Timeout
| TooManyRedirects
| HTTPError (status : Z).

Inductive exn :=
| RequestException (f : requests_fault)
| JSONDecodeError
| TimeoutExpired
| CalledProcessError
| OSError
| KeyError (key : string)
| TypeError
| AttributeError
| InvalidVersion.

(** Outcome of a Python call: a value, a raised exception, or
    [Unmodelled] when the call leaves the typed fragment embedded here (a
    JSON value of another type where the code expects [Optional[str]], a
    backslash in an [re.sub] replacement template).  No handler catches
    [Unmodelled], and no theorem below concludes anything from it. *)
Inductive result (A : Type) :=
| Ok (a : A)
| Raise (e : exn)
| Unmodelled.
Arguments Ok {A} a.
Arguments Raise {A} e.
Arguments Unmodelled {A}.

(** JSON documents as [json.load] and [response.json()] deliver them.
    Objects keep their keys in document order (Python dicts iterate in
    insertion order); numbers are integers. *)
Inductive json :=
| JNull
| JBool (b : bool)
| JNum (z : Z)
| JStr (s : string)
| JArr (l : list json)
| JObj (kvs : list (string * json)).

(** Truth value testing ([if data], [a and b], [a or b]). *)
Definition truthy (j : json) : bool :=
  match j with
  | JNull => false
  | JBool b => b
  | JNum z => negb (z =? 0)
  | JStr s => negb (String.eqb s "")
  | JArr l => match l with [] => false | _ => true end
  | JObj kvs => match kvs with [] => false | _ => true end
  end.

(** Truth value of an [Optional[str]]: [None] and [""] are false. *)
Definition truthy_str (o : option string) : bool :=
  match o with
  | Some s => negb (String.eqb s "")
  | None => false
  end.

(** Lookup of a key in the key/value pairs of an object. *)
Fixpoint assoc (k : string) (kvs : list (string * json)) : option json :=
  match kvs with
  | [] => None
  | (k', v) :: rest => if String.eqb k k' then Some v else assoc k rest
  end.

(** [sub in s] on strings. *)
Fixpoint is_prefix (p s : string) : bool :=
  match p, s with
  | EmptyString, _ => true
  | String a p', String b s' => Ascii.eqb a b && is_prefix p' s'
  | String _ _, EmptyString => false
  end.

Fixpoint is_substring (p s : string) : bool :=
  is_prefix p s ||
  match s with
  | EmptyString => false
  | String _ s' => is_substring p s'
  end.

Definition is_str (k : string) (j : json) : bool :=
  match j with
  | JStr s => String.eqb s k
  | _ => false
  end.

(** [k in data] for a string [k]: key membership on a dict, element
    membership on a list, substring test on a string, [TypeError] on the
    values that are not containers. *)
Definition contains (k : string) (data : json) : result bool :=
  match data with
  | JObj kvs => Ok (bool_decide (is_Some (assoc k kvs)))
  | JArr l => Ok (existsb (is_str k) l)
  | JStr s => Ok (is_substring k s)
  | JNull | JBool _ | JNum _ => Raise TypeError
  end.

(** [data[k]] for a string [k]. *)
Definition getitem (k : string) (data : json) : result json :=
  match data with
  | JObj kvs =>
      match assoc k kvs with
      | Some v => Ok v
      | None => Raise (KeyError k)
      end
  | _ => Raise TypeError
  end.

(** [data.get(k, default)]: only dicts have the method. *)
Definition get (k : string) (default_value : json) (data : json) : result json :=
  match data with
  | JObj kvs => Ok (default default_value (assoc k kvs))
  | _ => Raise AttributeError
  end.

(** A value used where the code expects [Optional[str]]. *)
Definition as_optional_str (j : json) : result (option string) :=
  match j with
  | JNull => Ok None
  | JStr s => Ok (Some s)
  | _ => Unmodelled
  end.

(** [str(j)] as an f-string inserts it. *)
Definition format (j : json) : result string :=
  match j with
  | JStr s => Ok s
  | JNum z => Ok (NilZero.string_of_int (Z.to_int z))
  | JNull => Ok "None"
  | JBool true => Ok "True"
  | JBool false => Ok "False"
  | JArr _ | JObj _ => Unmodelled
  end.

(** [for x in data]: a list yields its elements, a dict its keys, a string
    its characters. *)
Fixpoint chars (s : string) : list json :=
  match s with
  | EmptyString => []
  | String c s' => JStr (String c EmptyString) :: chars s'
  end.

Definition iter (data : json) : result (list json) :=
  match data with
  | JArr l => Ok l
  | JObj kvs => Ok (map (λ kv, JStr (fst kv)) kvs)
  | JStr s => Ok (chars s)
  | JNull | JBool _ | JNum _ => Raise TypeError
  end.

(** [data > n] for an integer literal [n]; [bool] is a subclass of [int]. *)
Definition gt_int (data : json) (n : Z) : result bool :=
  match data with
  | JNum z => Ok (n <? z)
  | JBool b => Ok (n <? (if b then 1 else 0))
  | _ => Raise TypeError
  end.

(** [a or b]. *)
Definition or_else (a b : json) : json := if truthy a then a else b.

(** String methods: [sep.join(l)], [s.lstrip(c)], [s[:n]].  A string is
    the sequence of its bytes in UTF-8, which is the sequence of its
    characters for ASCII text. *)
Fixpoint join (sep : string) (l : list string) : string :=
  match l with
  | [] => ""
  | [x] => x
  | x :: rest => x +:+ sep +:+ join sep rest
  end.

Fixpoint lstrip (c : ascii) (s : string) : string :=
  match s with
  | EmptyString => ""
  | String a s' => if Ascii.eqb a c then lstrip c s' else s
  end.

Fixpoint take (n : nat) (s : string) : string :=
  match n, s with
  | S k, String a s' => String a (take k s')
  | _, _ => ""
  end.

(** *** The monad of the scripts: state [S] threaded through calls that
    may raise.  What was written to the state before a [raise] stays
    written. *)
Definition ST (S A : Type) : Type := S → result A * S.

Definition run_result {S A} (r : result A) : ST S A := λ s, (r, s).

Definition st_bind {S A B} (f : A → ST S B) (m : ST S A) : ST S B :=
  λ s, match m s with
       | (Ok a, s') => f a s'
       | (Raise e, s') => (Raise e, s')
       | (Unmodelled, s') => (Unmodelled, s')
       end.

Definition gets {S A} (f : S → A) : ST S A := λ s, (Ok (f s), s).
Definition modify {S} (f : S → S) : ST S unit := λ s, (Ok tt, f s).

(** [try: body / except ...: handler].  [handler e] is [None] when no
    [except] clause matches [e], which then propagates. *)
Definition try_except {S A} (body : ST S A) (handler : exn → option (ST S A))
  : ST S A :=
  λ s, match body s with
       | (Raise e, s') =>
           match handler e with
           | Some h => h s'
           | None => (Raise e, s')
           end
       | other => other
       end.

(** The same for code without state. *)
Definition res_bind {A B} (f : A → result B) (r : result A) : result B :=
  match r with
  | Ok a => f a
  | Raise e => Raise e
  | Unmodelled => Unmodelled
  end.

Definition res_try {A} (body : result A) (handler : exn → option (result A))
  : result A :=
  match body with
  | Raise e => match handler e with Some h => h | None => Raise e end
  | other => other
  end.

(** [for x in l: body x], stopping at the first exception. *)
Fixpoint for_each {S A} (l : list A) (body : A → ST S unit) : ST S unit :=
  match l with
  | [] => λ s, (Ok tt, s)
  | x :: rest => st_bind (λ _, for_each rest body) (body x)
  end.

End Py.

Import Py.

#[global] Instance result_ret : MRet result := λ A a, Ok a.
#[global] Instance result_bind : MBind result := λ A B f r, res_bind f r.
#[global] Instance ST_ret {S} : MRet (ST S) := λ A a s, (Ok a, s).
#[global] Instance ST_bind {S} : MBind (ST S) := λ A B f m, st_bind f m.

(** ** The [packaging] library

    [packaging.version] is third-party code: the scripts see it through
    [version.parse], which raises [InvalidVersion] on a string that is not
    a version, and through [>] on the parsed values. *)
Class Packaging := {
  Version : Type;
  parse : string → option Version;
  version_gt : Version → Version → bool;
}.

(** The order of [packaging] is a strict order: it is asymmetric. *)
Class PackagingOrder (P : Packaging) : Prop := {
  version_gt_asym :
    ∀ a b : Version, version_gt a b = true → version_gt b a = false;
}.

(** An instance for the examples: the plain release numbers [N(.N)*] of
    PEP 440, compared as [packaging] compares them (as integer tuples, after
    dropping trailing zeros, so that [1.0] and [1.0.0] are equal).  Every
    other string is invalid here. *)
Module Release.

Definition digit (c : ascii) : option N :=
  let n := N_of_ascii c in
  if ((48 <=? n) && (n <=? 57))%N then Some (n - 48)%N else None.

Fixpoint parse_go (s : string) (cur : option N) (acc : list N)
  : option (list N) :=
  match s with
  | EmptyString =>
      match cur with
      | Some n => Some (rev (n :: acc))
      | None => None
      end
  | String c s' =>
      if Ascii.eqb c "."
      then match cur with
           | Some n => parse_go s' None (n :: acc)
           | None => None
           end
      else match digit c with
           | Some d => parse_go s' (Some (10 * default 0 cur + d)%N) acc
           | None => None
           end
  end.

Fixpoint drop_zeros (l : list N) : list N :=
  match l with
  | [] => []
  | n :: rest => if (n =? 0)%N then drop_zeros rest else l
  end.

Definition key (l : list N) : list N := rev (drop_zeros (rev l)).

Definition parse_release (s : string) : option (list N) :=
  key <$> parse_go s None [].

(** Tuple comparison of Python: lexicographic, a proper prefix is smaller. *)
Fixpoint tuple_gt (a b : list N) : bool :=
  match a, b with
  | [], _ => false
  | _ :: _, [] => true
  | x :: a', y :: b' => (y <? x)%N || ((x =? y)%N && tuple_gt a' b')
  end.

#[global] Instance packaging : Packaging := {|
  Version := list N;
  parse := parse_release;
  version_gt := tuple_gt;
|}.

End Release.

(** ** The outside world *)

(** What [session.get(url, timeout=...)] does: a response, whose body
    [response.json()] decodes or not, or an exception of [requests]. *)
Record response := {
  status_code : Z;
  body : option json;
}.

Inductive http_outcome :=
| Responds (r : response)
| Fails (f : requests_fault).

(** What [subprocess.run(['brew', 'info', formula, '--json'], timeout=10)]
    does: the process ends with a return code and an output that
    [json.loads] decodes or not, or it exceeds the timeout
    ([TimeoutExpired]), or it cannot be started at all ([OSError], for
    instance [FileNotFoundError] where Homebrew is not installed). *)
Inductive brew_outcome :=
| Completed (returncode : Z) (stdout : option json)
| TimesOut
| CannotStart.

(** [datetime.now()] in the three formats the scripts print it:
    ['%Y-%m-%d'], ['%B %d, %Y'] and ['%Y-%m-%d %H:%M:%S'].  A run is taken
    to happen at one instant. *)
Record clock := {
  iso_date : string;
  long_date : string;
  date_time : string;
}.

(** The world of a run: what the servers and Homebrew do with a request
    (the same request meets the same outcome throughout a run) and the
    time. *)
Class World := {
  http : string → http_outcome;
  brew : string → brew_outcome;
  now : clock;
}.

(** The requests a run makes, in the order it makes them. *)
Inductive query :=
| QBrew (formula : string)
| QHttp (url : string).

(** ** [scripts/update-tools.py]: the data of [ToolVersionChecker] *)

(** An element of [updates_found]. *)
Record VersionUpdate := {
  tool : string;
  category : string;
  old_version : string;
  new_version : string;
  description : string;
}.

(** The configuration file.  [tracked_tools] maps a category to its tools
    and a tool name to its [tool_info] dict, in file order; a [tool_info]
    maps keys such as ["current_version"] or ["pypi_package"] to strings.
    [json.load] builds a fresh dict for every object, so no two entries
    share a [tool_info]. *)
Record Config := {
  tracked_tools : list (string * list (string * gmap string string));
  github_topics : list string;
  last_update_check : option string;
  saved_trending_tools : list json;
}.

(** [self] of [ToolVersionChecker], with the part of the world a run
    changes: the requests made so far and the text of [README.md] ([None]
    when the file does not exist). *)
Record Checker := {
  config : Config;
  updates_found : list VersionUpdate;
  trending_tools : list json;
  queries : list query;
  readme : option string;
}.

Abbreviation M := (ST Checker).

Definition log_query (q : query) (c : Checker) : Checker :=
  {| config := config c; updates_found := updates_found c;
     trending_tools := trending_tools c; queries := queries c ++ [q];
     readme := readme c |}.

Definition raise {A} (e : exn) : M A := run_result (Raise e).

(** The line feed of Python's ["\n"]. *)
Definition LF : string := String "010" "".

(** ** [scripts/utils.py] *)

(** [get_current_timestamp()]. *)
Definition get_current_timestamp {W : World} : string := iso_date now.

Module HTTPClient.
Section with_world.
Context {W : World}.

(** [self.session.get(url, timeout=self.timeout)]. *)
Definition session_get (url : string) : M response :=
  _ ← modify (log_query (QHttp url));
  match http url with
  | Responds r => mret r
  | Fails f => raise (RequestException f)
  end.

(** [response.raise_for_status()]. *)
Definition raise_for_status (r : response) : M unit :=
  if (400 <=? status_code r) && (status_code r <? 600)
  then raise (RequestException (HTTPError (status_code r)))
  else mret tt.

(** [response.json()]. *)
Definition response_json (r : response) : M json :=
  match body r with
  | Some j => mret j
  | None => raise JSONDecodeError
  end.

(** [HTTPClient.get(url)]: the decoded document, or [None] (which is what
    a JSON [null] decodes to as well) after a warning.  No caller passes
    [headers]; the session object and the log are left out. *)
Definition get (url : string) : M json :=
  try_except
    (response ← session_get url;
     _ ← raise_for_status response;
     response_json response)
    (λ e, match e with
          | RequestException _ => Some (mret JNull)
          | JSONDecodeError => Some (mret JNull)
          | _ => None
          end).

End with_world.
End HTTPClient.

Section homebrew.
Context {W : World}.

(** [subprocess.run(['brew', 'info', formula_name, '--json'], ...)]. *)
Definition subprocess_run (formula_name : string) : M (Z * option json) :=
  _ ← modify (log_query (QBrew formula_name));
  match brew formula_name with
  | Completed returncode stdout => mret (returncode, stdout)
  | TimesOut => raise TimeoutExpired
  | CannotStart => raise OSError
  end.

(** [json.loads(result.stdout)]. *)
Definition json_loads (stdout : option json) : M json :=
  match stdout with
  | Some j => mret j
  | None => raise JSONDecodeError
  end.

Definition is_list (j : json) : bool :=
  match j with JArr _ => true | _ => false end.

Definition len (j : json) : Z :=
  match j with
  | JArr l => Z.of_nat (length l)
  | JObj kvs => Z.of_nat (length kvs)
  | JStr s => Z.of_nat (String.length s)
  | _ => 0
  end.

(** [check_homebrew_version(formula_name)]. *)
Definition check_homebrew_version (formula_name : string) : M (option string) :=
  try_except
    (result ← subprocess_run formula_name;
     if result.1 =? 0 then
       data ← json_loads result.2;
       if truthy data && is_list data && (0 <? len data) then
         match data with
         | JArr (first :: _) =>
             versions ← run_result (Py.get "versions" (JObj []) first);
             stable ← run_result (Py.get "stable" JNull versions);
             run_result (as_optional_str stable)
         | _ => mret None
         end
       else mret None
     else mret None)
    (λ e, match e with
          | TimeoutExpired | CalledProcessError | JSONDecodeError =>
              Some (mret None)
          | _ => None
          end).

End homebrew.

Module ReportGenerator.

(** A section dict: ['title'] is read unconditionally, ['content'] and
    ['items'] when present. *)
Record section := {
  title : option string;
  content : option string;
  items : option (list string);
}.

(** The lines one iteration of the loop appends to [report]. *)
Definition section_lines (s : section) : result (list string) :=
  match title s with
  | None => Raise (KeyError "title")
  | Some t =>
      Ok (["## " +:+ t]
          ++ match content s with Some c => [c] | None => [] end
          ++ match items s with
             | Some l => map (λ item, "- " +:+ item) l
             | None => []
             end
          ++ [""])
  end.

Fixpoint sections_lines (sections : list section) : result (list string) :=
  match sections with
  | [] => Ok []
  | s :: rest =>
      l ← section_lines s;
      ls ← sections_lines rest;
      Ok (l ++ ls)
  end.

(** [ReportGenerator.generate_markdown_report(title, sections)]. *)
Definition generate_markdown_report {W : World}
    (report_title : string) (sections : list section) : result string :=
  let report :=
    ["# " +:+ report_title; "*Generated: " +:+ date_time now +:+ "*" +:+ LF] in
  ls ← sections_lines sections;
  Ok (join LF (report ++ ls)).

End ReportGenerator.

(** ** Regular expressions of [scripts/update-tools.py]

    Each pattern of the script is embedded as the function that decides
    whether it matches at the start of a text, and [re.search] and [re.sub]
    as the scans that try it from left to right. *)
Module Re.

(** [text] without the prefix [p], when it starts with it. *)
Fixpoint strip_prefix (p text : string) : option string :=
  match p, text with
  | EmptyString, _ => Some text
  | String a p', String b text' =>
      if Ascii.eqb a b then strip_prefix p' text' else None
  | String _ _, EmptyString => None
  end.

(** The longest prefix of characters other than [c], and the rest:
    a greedy [[^c]*]. *)
Fixpoint span_not (c : ascii) (text : string) : string * string :=
  match text with
  | EmptyString => ("", "")
  | String a text' =>
      if Ascii.eqb a c then ("", text)
      else let (run, rest) := span_not c text' in (String a run, rest)
  end.

(** [github\.com/([^/]+)/([^/]+)] at the start of [text].  A greedy
    [[^/]+] followed by [/] can only stop at the first [/], so there is
    nothing to backtrack into. *)
Definition match_github (text : string) : option (string * string) :=
  match strip_prefix "github.com/" text with
  | None => None
  | Some rest =>
      let (owner, rest1) := span_not "/" rest in
      match owner, rest1 with
      | String _ _, String _ rest2 =>
          let (repo, _) := span_not "/" rest2 in
          match repo with
          | String _ _ => Some (owner, repo)
          | EmptyString => None
          end
      | _, _ => None
      end
  end.

(** [re.search(r'github\.com/([^/]+)/([^/]+)', text)]: the groups of the
    leftmost match. *)
Fixpoint search_github (text : string) : option (string * string) :=
  match match_github text with
  | Some groups => Some groups
  | None =>
      match text with
      | EmptyString => None
      | String _ text' => search_github text'
      end
  end.

(** [re.sub] for a pattern that never matches the empty string.
    [matcher text] gives, for a match at the start of [text], the expanded
    replacement and the length of the match; the scan resumes after the
    match ([skip] counts the matched characters still to pass over). *)
Fixpoint sub_from (matcher : string → option (string * nat))
    (text : string) (skip : nat) : string :=
  match text with
  | EmptyString => ""
  | String a text' =>
      match skip with
      | S k => sub_from matcher text' k
      | O =>
          match matcher text with
          | Some (replacement, n) =>
              replacement +:+ sub_from matcher text' (Nat.pred n)
          | None => String a (sub_from matcher text' 0)
          end
      end
  end.

Definition sub (matcher : string → option (string * nat)) (text : string)
  : string :=
  sub_from matcher text 0.

(** Case folding of [re.IGNORECASE] on ASCII letters. *)
Definition lower (c : ascii) : ascii :=
  let n := N_of_ascii c in
  if ((65 <=? n) && (n <=? 90))%N then ascii_of_N (n + 32) else c.

(** A literal [p] at the start of [text] under [re.IGNORECASE]: the text
    it matched and the rest. *)
Fixpoint strip_prefix_ci (p text : string) : option (string * string) :=
  match p, text with
  | EmptyString, _ => Some ("", text)
  | String a p', String b text' =>
      if Ascii.eqb (lower a) (lower b) then
        match strip_prefix_ci p' text' with
        | Some (matched, rest) => Some (String b matched, rest)
        | None => None
        end
      else None
  | String _ _, EmptyString => None
  end.

(** [(\*\*TOOL\*\*\|)([^|]+)(\|)] with [re.IGNORECASE] at the start of
    [text], where [TOOL] is [re.escape(tool)], and the replacement
    [\g<1>CELL\g<3>]. *)
Definition match_version_cell (tool_name cell : string) (text : string)
  : option (string * nat) :=
  match strip_prefix_ci ("**" +:+ tool_name +:+ "**|") text with
  | None => None
  | Some (group1, rest) =>
      let (group2, rest1) := span_not "|" rest in
      match group2, rest1 with
      | String _ _, String _ _ =>
          Some (group1 +:+ cell +:+ "|",
                (String.length group1 + String.length group2 + 1)%nat)
      | _, _ => None
      end
  end.

(** The characters a lazy [.*?] with [re.DOTALL] passes before the
    lookahead [(?=\n\n---|\n\n##|\Z)] holds. *)
Fixpoint until_section_end (text : string) : nat :=
  match text with
  | EmptyString => O
  | String _ text' =>
      if is_prefix (LF +:+ LF +:+ "---") text
         || is_prefix (LF +:+ LF +:+ "##") text
      then O
      else S (until_section_end text')
  end.

(** [## Trending Tools to Investigate.*?(?=\n\n---|\n\n##|\Z)] with
    [re.DOTALL] at the start of [text]. *)
Definition match_trending (replacement : string) (text : string)
  : option (string * nat) :=
  match strip_prefix "## Trending Tools to Investigate" text with
  | None => None
  | Some rest =>
      Some (replacement,
            (String.length "## Trending Tools to Investigate"
             + until_section_end rest)%nat)
  end.

(** The en dash U+2013, as the three bytes of its UTF-8 encoding. *)
Definition EN_DASH : string := String "226" (String "128" (String "147" "")).

(** The characters a lazy [.*?] passes before [EN_DASH] follows; [.] does
    not match a line feed. *)
Fixpoint until_dash (text : string) : option nat :=
  if is_prefix EN_DASH text then Some O
  else match text with
       | EmptyString => None
       | String a text' =>
           if Ascii.eqb a "010" then None else S <$> until_dash text'
       end.

(** [Generated.*?–] at the start of [text]. *)
Definition match_generated (replacement : string) (text : string)
  : option (string * nat) :=
  match strip_prefix "Generated" text with
  | None => None
  | Some rest =>
      match until_dash rest with
      | Some n =>
          Some (replacement,
                (String.length "Generated" + n + String.length EN_DASH)%nat)
      | None => None
      end
  end.

(** A replacement template without backslash stands for itself; the
    escapes of the others are not embedded. *)
Definition plain_template (template : string) : bool :=
  negb (is_substring "\" template).

End Re.

(** ** [scripts/update-tools.py]: [ToolVersionChecker] *)

Definition add_update (u : VersionUpdate) (c : Checker) : Checker :=
  {| config := config c; updates_found := updates_found c ++ [u];
     trending_tools := trending_tools c; queries := queries c;
     readme := readme c |}.

Definition add_trending (entry : json) (c : Checker) : Checker :=
  {| config := config c; updates_found := updates_found c;
     trending_tools := trending_tools c ++ [entry]; queries := queries c;
     readme := readme c |}.

Definition set_tracked_tools
    (t : list (string * list (string * gmap string string))) (c : Checker)
  : Checker :=
  {| config := {| tracked_tools := t;
                  github_topics := github_topics (config c);
                  last_update_check := last_update_check (config c);
                  saved_trending_tools := saved_trending_tools (config c) |};
     updates_found := updates_found c; trending_tools := trending_tools c;
     queries := queries c; readme := readme c |}.

Definition set_readme (text : string) (c : Checker) : Checker :=
  {| config := config c; updates_found := updates_found c;
     trending_tools := trending_tools c; queries := queries c;
     readme := Some text |}.

(** [data and key in data]. *)
Definition truthy_and_contains (data : json) (key : string) : M bool :=
  if truthy data then run_result (contains key data) else mret false.

(** [d[key]] on a [tool_info]. *)
Definition lookup_key (key : string) (d : gmap string string) : M string :=
  match d !! key with
  | Some v => mret v
  | None => raise (KeyError key)
  end.

(** [tool_info.get(key)] when it is true, that is present and not empty. *)
Definition configured (key : string) (d : gmap string string) : option string :=
  match d !! key with
  | Some v => if String.eqb v "" then None else Some v
  | None => None
  end.

(** [for x in l], collecting what each iteration leaves in place of [x]. *)
Fixpoint map_m {A B} (f : A → M B) (l : list A) : M (list B) :=
  match l with
  | [] => mret []
  | x :: rest =>
      y ← f x;
      ys ← map_m f rest;
      mret (y :: ys)
  end.

(** ** More of [scripts/utils.py] *)

(** [s.lower()], on ASCII letters. *)
Fixpoint lower_str (s : string) : string :=
  match s with
  | EmptyString => ""
  | String a s' => String (Re.lower a) (lower_str s')
  end.

(** [extract_keywords(text, keywords)]. *)
Definition extract_keywords (text : string) (keywords : list string)
  : list string :=
  let text_lower := lower_str text in
  List.filter (λ kw, is_substring kw text_lower) keywords.

(** The Python environment of the scripts: which packages [__import__]
    finds, and whether [pip install] of a list of packages succeeds. *)
Class Host := {
  importable : string → bool;
  pip_installs : list string → bool;
}.

Module DependencyManager.
Section with_host.
Context {H : Host}.



End with_host.
End DependencyManager.

(** A process that runs [ToolVersionChecker.run]: the checker, the
    configuration that [save_config] wrote to the configuration file
    ([None] before it is written in this run) and the lines printed. *)
Record Process := {
  checker : Checker;
  config_file : option Config;
  printed : list string;
}.

(** A method of the checker, called in the process. *)
Definition in_checker {A} (m : M A) : ST Process A :=
  λ p, let (r, c) := m (checker p) in
       (r, {| checker := c; config_file := config_file p;
              printed := printed p |}).

Module ConfigManager.

(** [ConfigManager.save_config()]: [json.dump] of the configuration to the
    file; the write is taken to succeed. *)
Definition save_config : ST Process unit :=
  modify (λ p, {| checker := checker p;
                  config_file := Some (config (checker p));
                  printed := printed p |}).

End ConfigManager.

(** [print(text)]. *)
Definition print (text : string) : ST Process unit :=
  modify (λ p, {| checker := checker p; config_file := config_file p;
                  printed := printed p ++ [text] |}).

(** [str(n)] for a length. *)
Definition decimal (n : nat) : string :=
  NilZero.string_of_uint (Nat.to_uint n).

(** The arrow U+2192, as the three bytes of its UTF-8 encoding. *)
Definition ARROW : string := String "226" (String "134" (String "146" "")).

Module ToolVersionChecker.
Section with_world.
Context {W : World} {P : Packaging}.

Definition check_pypi_version (package_name : string) : M (option string) :=
  let url := "https://pypi.org/pypi/" +:+ package_name +:+ "/json" in
  data ← HTTPClient.get url;
  found ← truthy_and_contains data "info";
  if (found : bool) then
    info ← run_result (getitem "info" data);
    version ← run_result (getitem "version" info);
    run_result (as_optional_str version)
  else mret None.

Definition check_npm_version (package_name : string) : M (option string) :=
  let url := "https://registry.npmjs.org/" +:+ package_name in
  data ← HTTPClient.get url;
  found ← truthy_and_contains data "dist-tags";
  if (found : bool) then
    tags ← run_result (getitem "dist-tags" data);
    latest ← run_result (getitem "latest" tags);
    run_result (as_optional_str latest)
  else mret None.

Definition check_github_releases (repo_url : string) : M (option string) :=
  match Re.search_github repo_url with
  | None => mret None
  | Some (owner, repo) =>
      let url := "https://api.github.com/repos/" +:+ owner +:+ "/" +:+ repo
                 +:+ "/releases/latest" in
      data ← HTTPClient.get url;
      found ← truthy_and_contains data "tag_name";
      if (found : bool) then
        tag_name ← run_result (getitem "tag_name" data);
        match tag_name with
        | JStr s => mret (Some (lstrip "v" s))
        | _ => raise AttributeError
        end
      else mret None
  end.

(** [_get_latest_version(tool_info)]: a source that is not configured
    leaves nothing to return, like one whose version is empty. *)
Definition _get_latest_version (tool_info : gmap string string)
  : M (option string) :=
  version ← match configured "homebrew_formula" tool_info with
            | Some formula => check_homebrew_version formula
            | None => mret None
            end;
  if truthy_str version then mret version else
  version ← match configured "pypi_package" tool_info with
            | Some package => check_pypi_version package
            | None => mret None
            end;
  if truthy_str version then mret version else
  version ← match configured "npm_package" tool_info with
            | Some package => check_npm_version package
            | None => mret None
            end;
  if truthy_str version then mret version else
  match configured "source" tool_info with
  | Some source => check_github_releases source
  | None => mret None
  end.

(** [version.parse(s)]. *)
Definition version_parse (s : string) : result Version :=
  match parse s with
  | Some v => Ok v
  | None => Raise InvalidVersion
  end.

(** [_is_newer_version(new_version, current_version)]; [main] installs
    [packaging] before the checker is built, so the import succeeds. *)
Definition _is_newer_version (new_version current_version : string)
  : result bool :=
  res_try
    (a ← version_parse new_version;
     b ← version_parse current_version;
     Ok (version_gt a b))
    (λ _, Some (Ok (negb (String.eqb new_version current_version)))).

(** [_record_update(tool_name, category, tool_info, latest_version)]; the
    result is [tool_info] as the call leaves it. *)
Definition _record_update (tool_name category : string)
    (tool_info : gmap string string) (latest_version : string)
  : M (gmap string string) :=
  old ← lookup_key "current_version" tool_info;
  desc ← lookup_key "description" tool_info;
  _ ← modify (add_update {| tool := tool_name; category := category;
                            old_version := old;
                            new_version := latest_version;
                            description := desc |});
  mret (<["last_updated" := get_current_timestamp]>
          (<["current_version" := latest_version]> tool_info)).

(** The body of the inner loop of [check_tool_updates], for one item of
    [tools.items()]. *)
Definition check_tool (category : string)
    (item : string * gmap string string) : M (string * gmap string string) :=
  let (tool_name, tool_info) := item in
  latest_version ← _get_latest_version tool_info;
  match latest_version with
  | Some latest =>
      if negb (String.eqb latest "") then
        current ← lookup_key "current_version" tool_info;
        newer ← run_result (_is_newer_version latest current);
        if (newer : bool) then
          tool_info' ← _record_update tool_name category tool_info latest;
          mret (tool_name, tool_info')
        else mret item
      else mret item
  | None => mret item
  end.

(** The body of the outer loop, for one item of [tracked_tools.items()]. *)
Definition check_category
    (item : string * list (string * gmap string string))
  : M (string * list (string * gmap string string)) :=
  let (category, tools) := item in
  tools' ← map_m (check_tool category) tools;
  mret (category, tools').

(** [check_tool_updates()].  The source updates each [tool_info] where it
    sits in the configuration; here the loops hand the entries back and the
    configuration is stored once they end.  When a tool raises, the
    exception leaves [run] and the process exits without saving. *)
Definition check_tool_updates : M unit :=
  tracked ← gets (λ c, tracked_tools (config c));
  tracked' ← map_m check_category tracked;
  modify (set_tracked_tools tracked').

(** The dict appended to [trending_tools] for [repo]. *)
Definition trending_entry (topic : string) (repo : json) : result json :=
  name ← getitem "name" repo;
  url ← getitem "html_url" repo;
  desc ← getitem "description" repo;
  stars ← getitem "stargazers_count" repo;
  language ← getitem "language" repo;
  created_at ← getitem "created_at" repo;
  Ok (JObj [("name", name); ("url", url);
            ("description", or_else desc (JStr "No description available"));
            ("stars", stars); ("language", language);
            ("topic", JStr topic); ("created_at", created_at)]).

(** The body of [for repo in data['items']]. *)
Definition scan_repo (topic : string) (repo : json) : M unit :=
  stars ← run_result (getitem "stargazers_count" repo);
  popular ← run_result (gt_int stars 50);
  if (popular : bool) then
    entry ← run_result (trending_entry topic repo);
    modify (add_trending entry)
  else mret tt.

Definition search_url (topic : string) : string :=
  let created_since := iso_date now in
  let query := "topic:" +:+ topic +:+ " created:>=" +:+ created_since in
  "https://api.github.com/search/repositories?q=" +:+ query
  +:+ "&sort=stars&order=desc&per_page=5".

(** The body of [for topic in topics], with its [except Exception]. *)
Definition search_topic (topic : string) : M unit :=
  try_except
    (data ← HTTPClient.get (search_url topic);
     found ← truthy_and_contains data "items";
     if (found : bool) then
       items ← run_result (getitem "items" data);
       repos ← run_result (iter items);
       for_each repos (scan_repo topic)
     else mret tt)
    (λ _, Some (mret tt)).

(** [search_trending_tools()]. *)
Definition search_trending_tools : M unit :=
  topics ← gets (λ c, github_topics (config c));
  for_each topics search_topic.

(** One iteration of the loop over [updates_found] in [update_readme]:
    the new text of the document. *)
Definition rewrite_version_cell (update : VersionUpdate) (text : string)
  : result string :=
  if String.eqb (category update) "ai_frameworks" then
    let cell := new_version update +:+ " (Updated " +:+ get_current_timestamp
                +:+ ")" in
    if Re.plain_template cell
    then Ok (Re.sub (Re.match_version_cell (tool update) cell) text)
    else Unmodelled
  else Ok text.

Fixpoint rewrite_version_cells (updates : list VersionUpdate) (text : string)
  : result string :=
  match updates with
  | [] => Ok text
  | update :: rest =>
      text' ← rewrite_version_cell update text;
      rewrite_version_cells rest text'
  end.

(** A row of the table of [_generate_trending_section]. *)
Definition trending_row (entry : json) : result string :=
  d ← getitem "description" entry;
  desc ← match d with
         | JStr s =>
             Ok (take 100 s
                 +:+ (if (100 <? String.length s)%nat then "..." else ""))
         | _ => Unmodelled
         end;
  name ← getitem "name" entry;
  name ← format name;
  stars ← getitem "stars" entry;
  stars ← format stars;
  language ← getitem "language" entry;
  language ← format (or_else language (JStr "N/A"));
  url ← getitem "url" entry;
  url ← format url;
  Ok ("|**" +:+ name +:+ "**|" +:+ stars +:+ "|" +:+ language +:+ "|" +:+ desc
      +:+ "|[GitHub](" +:+ url +:+ ")|" +:+ LF).

Fixpoint trending_rows (entries : list json) : result string :=
  match entries with
  | [] => Ok ""
  | entry :: rest =>
      row ← trending_row entry;
      rows ← trending_rows rest;
      Ok (row +:+ rows)
  end.

(** [_generate_trending_section()]. *)
Definition _generate_trending_section (trending : list json) : result string :=
  rows ← trending_rows (firstn 10 trending);
  Ok ("## Trending Tools to Investigate" +:+ LF +:+ LF
      +:+ "| Tool | Stars | Language | Use Case | Repository |" +:+ LF
      +:+ "|------|-------|----------|----------|------------|" +:+ LF
      +:+ rows).

(** [_add_trending_section(content)]. *)
Definition _add_trending_section (trending : list json) (text : string)
  : result string :=
  trending_section ← _generate_trending_section trending;
  if negb (is_substring "## Trending Tools to Investigate" text) then
    Ok (text +:+ LF +:+ LF +:+ "---" +:+ LF +:+ LF +:+ trending_section)
  else if Re.plain_template trending_section
  then Ok (Re.sub (Re.match_trending trending_section) text)
  else Unmodelled.

(** The last substitution of [update_readme], of the [Generated] marker. *)
Definition rewrite_generated (text : string) : result string :=
  let replacement := "Generated " +:+ long_date now +:+ " " +:+ Re.EN_DASH in
  if Re.plain_template replacement
  then Ok (Re.sub (Re.match_generated replacement) text)
  else Unmodelled.

(** [update_readme()]. *)
Definition update_readme : M unit :=
  c ← gets id;
  match readme c with
  | None => mret tt
  | Some text =>
      text ← run_result (rewrite_version_cells (updates_found c) text);
      text ← match trending_tools c with
             | [] => mret text
             | _ :: _ => run_result (_add_trending_section (trending_tools c) text)
             end;
      text ← run_result (rewrite_generated text);
      modify (set_readme text)
  end.

(** An item of the first section of [generate_summary]. *)
Definition update_item (u : VersionUpdate) : string :=
  "**" +:+ tool u +:+ "**: " +:+ old_version u +:+ " " +:+ ARROW +:+ " "
  +:+ new_version u.

(** An item of its second section. *)
Definition trending_item (t : json) : result string :=
  name ← getitem "name" t;
  name ← format name;
  stars ← getitem "stars" t;
  stars ← format stars;
  d ← getitem "description" t;
  match d with
  | JStr s =>
      Ok ("**" +:+ name +:+ "** (" +:+ stars +:+ " stars): " +:+ take 100 s
          +:+ (if (100 <? String.length s)%nat then "..." else ""))
  | _ => Unmodelled
  end.

Fixpoint trending_items (l : list json) : result (list string) :=
  match l with
  | [] => Ok []
  | t :: rest =>
      item ← trending_item t;
      items ← trending_items rest;
      Ok (item :: items)
  end.

(** The [sections] list that [generate_summary] builds. *)
Definition summary_sections (c : Checker)
  : result (list ReportGenerator.section) :=
  let updates :=
    match updates_found c with
    | [] => []
    | _ :: _ =>
        [{| ReportGenerator.title :=
              Some ("Tool Updates Found ("
                    +:+ decimal (length (updates_found c)) +:+ ")");
            ReportGenerator.content := None;
            ReportGenerator.items := Some (map update_item (updates_found c))
         |}]
    end in
  match trending_tools c with
  | [] => Ok updates
  | _ :: _ =>
      items ← trending_items (firstn 5 (trending_tools c));
      Ok (updates
          ++ [{| ReportGenerator.title :=
                   Some ("Trending Tools Found ("
                         +:+ decimal (length (trending_tools c)) +:+ ")");
                 ReportGenerator.content := None;
                 ReportGenerator.items := Some items |}])
  end.

(** [generate_summary()]. *)
Definition generate_summary (c : Checker) : result string :=
  match updates_found c, trending_tools c with
  | [], [] => Ok "No updates found."
  | _, _ =>
      sections ← summary_sections c;
      ReportGenerator.generate_markdown_report "Update Summary" sections
  end.

(** The two assignments of [run] to the configuration:
    [config['last_update_check']] and [config['trending_tools']]. *)
Definition stamp_config (c : Checker) : Checker :=
  {| config := {| tracked_tools := tracked_tools (config c);
                  github_topics := github_topics (config c);
                  last_update_check := Some get_current_timestamp;
                  saved_trending_tools := trending_tools c |};
     updates_found := updates_found c; trending_tools := trending_tools c;
     queries := queries c; readme := readme c |}.

(** [run()]. *)
Definition run : ST Process bool :=
  _ ← in_checker check_tool_updates;
  _ ← in_checker search_trending_tools;
  _ ← in_checker (modify stamp_config);
  _ ← ConfigManager.save_config;
  _ ← in_checker update_readme;
  summary ← in_checker (λ c, (generate_summary c, c));
  _ ← print summary;
  c ← gets checker;
  mret ((0 <? length (updates_found c))%nat
        || (0 <? length (trending_tools c))%nat).

End with_world.
End ToolVersionChecker.

(** ** [scripts/forum-monitor.py]: [ForumMonitor] *)

Module ForumMonitor.

Definition ai_keywords : list string :=
  ["agent"; "ai"; "llm"; "gpt"; "claude"; "automation"; "assistant";
   "langchain"; "autogen"; "crewai"; "semantic"; "kernel"; "function";
   "tool"; "api"; "integration"; "workflow"; "orchestration"; "mcp"].

Definition high_value_keywords : list string :=
  ["agent"; "assistant"; "automation"; "llm"; "mcp"].

(** [any(keyword in text for keyword in keywords)]. *)
Definition any_in (keywords : list string) (text : string) : bool :=
  existsb (λ keyword, is_substring keyword text) keywords.

(** [_calculate_relevance(title)]. *)
Definition _calculate_relevance (title : string) : string :=
  let title_lower := lower_str title in
  if any_in high_value_keywords title_lower then "high"
  else if any_in ai_keywords title_lower then "medium"
  else "low".





Section with_world.
Context {W : World}.




End with_world.

(** [counts[key] = counts.get(key, 0) + 1] on a dict, whose items are in
    the order in which the keys were first inserted. *)
Fixpoint bump (key : string) (counts : list (string * nat))
  : list (string * nat) :=
  match counts with
  | [] => [(key, 1%nat)]
  | (k, n) :: rest =>
      if String.eqb k key then (k, S n) :: rest else (k, n) :: bump key rest
  end.

(** A JSON value where the code needs a string: a key of a dict of counts,
    an element of a set of sources. *)
Definition as_str (j : json) : result string :=
  match j with
  | JStr s => Ok s
  | _ => Unmodelled
  end.

Fixpoint as_strs (l : list json) : result (list string) :=
  match l with
  | [] => Ok []
  | j :: rest =>
      s ← as_str j;
      ss ← as_strs rest;
      Ok (s :: ss)
  end.

(** The keywords [for keyword in discussion['keywords']] goes through. *)
Definition keywords_of (discussion : json) : result (list string) :=
  keywords ← getitem "keywords" discussion;
  keywords ← iter keywords;
  as_strs keywords.

(** [config['tracked_tools']['ai_frameworks'].keys()]. *)
Fixpoint ai_frameworks
    (tracked : list (string * list (string * gmap string string)))
  : result (list string) :=
  match tracked with
  | [] => Raise (KeyError "ai_frameworks")
  | (category, tools) :: rest =>
      if String.eqb category "ai_frameworks" then Ok (tools.*1)
      else ai_frameworks rest
  end.

(** The body of [for discussion in discussions]. *)
Definition count_discussion (config : Config) (discussion : json)
    (counts : list (string * nat) * list (string * nat))
  : result (list (string * nat) * list (string * nat)) :=
  let (keyword_counts, tool_mentions) := counts in
  keywords ← keywords_of discussion;
  let keyword_counts :=
    foldl (λ counts keyword, bump keyword counts) keyword_counts keywords in
  title ← getitem "title" discussion;
  match title with
  | JStr t =>
      let title_lower := lower_str t in
      tool_names ← ai_frameworks (tracked_tools config);
      Ok (keyword_counts,
          foldl (λ counts tool_name,
                   if is_substring (lower_str tool_name) title_lower
                   then bump tool_name counts else counts)
            tool_mentions tool_names)
  | _ => Raise AttributeError
  end.

Fixpoint count_discussions (config : Config) (discussions : list json)
    (counts : list (string * nat) * list (string * nat))
  : result (list (string * nat) * list (string * nat)) :=
  match discussions with
  | [] => Ok counts
  | discussion :: rest =>
      counts ← count_discussion config discussion counts;
      count_discussions config rest counts
  end.

(** [sorted(items, key=lambda x: x[1], reverse=True)]: the sort is stable,
    so items with the same count keep their order. *)
Fixpoint insert_item (x : string * nat) (sorted : list (string * nat))
  : list (string * nat) :=
  match sorted with
  | [] => [x]
  | y :: rest =>
      if (x.2 <? y.2)%nat then y :: insert_item x rest else x :: y :: rest
  end.

Definition sorted_by_count (items : list (string * nat))
  : list (string * nat) :=
  foldr insert_item [] items.

(** [len([d for d in discussions if d['relevance'] == 'high'])]. *)
Fixpoint count_high (discussions : list json) : result nat :=
  match discussions with
  | [] => Ok O
  | d :: rest =>
      relevance ← getitem "relevance" d;
      n ← count_high rest;
      Ok (if is_str "high" relevance then S n else n)
  end.

(** [d['source'] for d in discussions]. *)
Fixpoint sources_of (discussions : list json) : result (list string) :=
  match discussions with
  | [] => Ok []
  | d :: rest =>
      source ← getitem "source" d;
      source ← as_str source;
      sources ← sources_of rest;
      Ok (source :: sources)
  end.

(** The dict [analyze_discussions] returns. *)
Record Analysis := {
  trending_keywords : list (string * nat);
  trending_tools : list (string * nat);
  total_discussions : nat;
  high_relevance_count : nat;
  sources_monitored : nat;
}.

(** [analyze_discussions(discussions)]. *)
Definition analyze_discussions (config : Config) (discussions : list json)
  : result Analysis :=
  counts ← count_discussions config discussions ([], []);
  let trending_keywords := firstn 10 (sorted_by_count counts.1) in
  let trending_tools := firstn 5 (sorted_by_count counts.2) in
  high ← count_high discussions;
  sources ← sources_of discussions;
  Ok {| trending_keywords := trending_keywords;
        trending_tools := trending_tools;
        total_discussions := length discussions;
        high_relevance_count := high;
        sources_monitored := length (remove_dups sources) |}.

End ForumMonitor.

(** * Vocabulary of the claims *)

Import ToolVersionChecker.

(** ** Runs *)

(** A checker that has done nothing yet. *)
Definition blank : Checker :=
  {| config := {| tracked_tools := []; github_topics := [];
                  last_update_check := None; saved_trending_tools := [] |};
     updates_found := []; trending_tools := []; queries := [];
     readme := None |}.

Definition log_queries (qs : list query) (c : Checker) : Checker :=
  {| config := config c; updates_found := updates_found c;
     trending_tools := trending_tools c; queries := queries c ++ qs;
     readme := readme c |}.

(** The effect of a stretch of a run: updates recorded and requests
    made. *)
Definition add_updates (us : list VersionUpdate) (c : Checker) : Checker :=
  {| config := config c; updates_found := updates_found c ++ us;
     trending_tools := trending_tools c; queries := queries c;
     readme := readme c |}.

Definition record_run (us : list VersionUpdate) (qs : list query)
    (c : Checker) : Checker :=
  add_updates us (log_queries qs c).

Definition add_trendings (entries : list json) (c : Checker) : Checker :=
  {| config := config c; updates_found := updates_found c;
     trending_tools := trending_tools c ++ entries; queries := queries c;
     readme := readme c |}.

(** ** Sources *)

(** The four resolver sources. *)
Inductive source :=
| Homebrew (formula : string)
| PyPI (package : string)
| Npm (package : string)
| GitHubReleases (repo_url : string).

(** The sources configured for a tool, in the priority order Homebrew,
    PyPI, npm, GitHub releases. *)
Definition sources (tool_info : gmap string string) : list source :=
  option_list (Homebrew <$> configured "homebrew_formula" tool_info)
  ++ option_list (PyPI <$> configured "pypi_package" tool_info)
  ++ option_list (Npm <$> configured "npm_package" tool_info)
  ++ option_list (GitHubReleases <$> configured "source" tool_info).

Section sources.
Context {W : World}.

(** The resolver of a source, what it answers and the requests it makes
    (neither depends on the checker it runs in, see [resolve_run]). *)
Definition resolve (s : source) : M (option string) :=
  match s with
  | Homebrew formula => check_homebrew_version formula
  | PyPI package => check_pypi_version package
  | Npm package => check_npm_version package
  | GitHubReleases repo_url => check_github_releases repo_url
  end.

Definition answer (s : source) : result (option string) := (resolve s blank).1.

Definition requests (s : source) : list query := queries (resolve s blank).2.

(** A source yields an empty result: [None] or the empty string. *)
Definition empty_answer (s : source) : Prop :=
  ∃ v, answer s = Ok v ∧ truthy_str v = false.

(** What [HTTPClient.get] returns for a URL. *)
Definition fetched (url : string) : json :=
  match http url with
  | Responds r =>
      if (400 <=? status_code r) && (status_code r <? 600) then JNull
      else default JNull (body r)
  | Fails _ => JNull
  end.

(** One step of [_get_latest_version]: ask a source when it is configured,
    return its version when it is not empty, go on otherwise. *)
Definition try_source (o : option source) (next : M (option string))
  : M (option string) :=
  version ← match o with Some s => resolve s | None => mret None end;
  if truthy_str version then mret version else next.

Definition last_source (o : option source) : M (option string) :=
  match o with Some s => resolve s | None => mret None end.

Fixpoint chain (steps : list (option source)) (final : option source)
  : M (option string) :=
  match steps with
  | [] => last_source final
  | o :: rest => try_source o (chain rest final)
  end.

(** The lookup over a list of sources: the first answer that is not
    empty. *)
Fixpoint scan (srcs : list source) : M (option string) :=
  match srcs with
  | [] => mret None
  | s :: rest =>
      version ← resolve s;
      if truthy_str version then mret version else scan rest
  end.

(** Two outcomes that differ at most in which empty value they return. *)
Definition similar (r r' : result (option string)) : Prop :=
  r = r'
  ∨ ∃ v v', r = Ok v ∧ r' = Ok v'
            ∧ truthy_str v = false ∧ truthy_str v' = false.

(** What [_get_latest_version] returns for a tool and the requests it
    makes (neither depends on the checker, see [get_latest_version_run]). *)
Definition latest (tool_info : gmap string string) : result (option string) :=
  (_get_latest_version tool_info blank).1.

Definition asked (tool_info : gmap string string) : list query :=
  queries (_get_latest_version tool_info blank).2.

End sources.

(** ** GitHub addresses and release tags *)

(** The characters of a text. *)
Fixpoint occurs (c : ascii) (s : string) : bool :=
  match s with
  | EmptyString => false
  | String a s' => Ascii.eqb a c || occurs c s'
  end.

Fixpoint repeat_char (c : ascii) (n : nat) : string :=
  match n with
  | O => ""
  | S k => String c (repeat_char c k)
  end.

(** [url] contains [github.com/OWNER/REPO], where [OWNER] and [REPO] are
    not empty and have no slash. *)
Definition github_path (url owner repo : string) : Prop :=
  ∃ pre post,
    url = pre +:+ "github.com/" +:+ owner +:+ "/" +:+ repo +:+ post
    ∧ owner ≠ "" ∧ repo ≠ "" ∧ occurs "/" owner = false
    ∧ occurs "/" repo = false.

Definition has_github_path (url : string) : Prop :=
  ∃ owner repo, github_path url owner repo.

(** The address [check_github_releases] asks for the latest release. *)
Definition releases_url (owner repo : string) : string :=
  "https://api.github.com/repos/" +:+ owner +:+ "/" +:+ repo
  +:+ "/releases/latest".

(** ** Reports *)

(** The document that consists of the title line and the line of the
    generation timestamp. *)
Definition title_and_timestamp {W : World} (report_title : string) : string :=
  "# " +:+ report_title +:+ LF
  +:+ "*Generated: " +:+ date_time now +:+ "*" +:+ LF.

(** A section carries items. *)
Definition carries_items (s : ReportGenerator.section) : bool :=
  match ReportGenerator.items s with
  | Some (_ :: _) => true
  | _ => false
  end.

(** ** Repositories of the topic search *)

(** The value of a field of a repository of the search response. *)
Definition field (key : string) (repo : json) : json :=
  match repo with
  | JObj kvs => default JNull (assoc key kvs)
  | _ => JNull
  end.

Definition has_field (key : string) (repo : json) : bool :=
  match repo with
  | JObj kvs => bool_decide (is_Some (assoc key kvs))
  | _ => false
  end.

(** The star count of a repository. *)
Definition stars (repo : json) : option Z :=
  match field "stargazers_count" repo with
  | JNum z => Some z
  | _ => None
  end.

(** A repository candidate as the search API returns it: an object with
    the six fields the scanner reads and an integer star count. *)
Definition candidate (repo : json) : bool :=
  has_field "name" repo && has_field "html_url" repo
  && has_field "description" repo && has_field "stargazers_count" repo
  && has_field "language" repo && has_field "created_at" repo
  && bool_decide (is_Some (stars repo)).

(** Strictly more than 50 stars. *)
Definition popular (repo : json) : bool :=
  match stars repo with
  | Some z => 50 <? z
  | None => false
  end.

(** The entry the scanner keeps for a candidate. *)
Definition entry_of (topic : string) (repo : json) : json :=
  JObj [("name", field "name" repo); ("url", field "html_url" repo);
        ("description",
         or_else (field "description" repo) (JStr "No description available"));
        ("stars", field "stargazers_count" repo);
        ("language", field "language" repo);
        ("topic", JStr topic); ("created_at", field "created_at" repo)].

(** ** Tracked tools and their updates *)

(** What the specification says of the newer-check: the order of
    [packaging] when both strings parse, string inequality otherwise. *)
Definition newer_by_spec {P : Packaging} (candidate stored : string) : bool :=
  match parse candidate, parse stored with
  | Some a, Some b => version_gt a b
  | _, _ => bool_decide (candidate ≠ stored)
  end.

(** [tracked_tools] holds [tool_info] for the tool [name] of [category]. *)
Definition tracks (tracked : list (string * list (string * gmap string string)))
    (category name : string) (tool_info : gmap string string) : Prop :=
  ∃ tools, (category, tools) ∈ tracked ∧ (name, tool_info) ∈ tools.

(** The keys of a dict are unique. *)
Definition unique_keys
    (tracked : list (string * list (string * gmap string string))) : Prop :=
  NoDup tracked.*1 ∧ Forall (λ item, NoDup item.2.*1) tracked.


Section detection.
Context {W : World} {P : Packaging}.

(** The update one pass of the loop records for a tool, if any. *)
Definition detect (category name : string) (tool_info : gmap string string)
  : result (option VersionUpdate) :=
  match latest tool_info with
  | Ok (Some l) =>
      if String.eqb l "" then Ok None else
      match tool_info !! "current_version" with
      | None => Raise (KeyError "current_version")
      | Some stored =>
          if newer_by_spec l stored then
            match tool_info !! "description" with
            | None => Raise (KeyError "description")
            | Some d =>
                Ok (Some {| tool := name; category := category;
                            old_version := stored; new_version := l;
                            description := d |})
            end
          else Ok None
      end
  | Ok None => Ok None
  | Raise e => Raise e
  | Unmodelled => Unmodelled
  end.

Definition detected (category : string) (item : string * gmap string string)
  : option VersionUpdate :=
  match detect category item.1 item.2 with
  | Ok o => o
  | _ => None
  end.

(** The [tool_info] a pass of the loop leaves. *)
Definition apply_update (o : option VersionUpdate)
    (tool_info : gmap string string) : gmap string string :=
  match o with
  | Some u =>
      <["last_updated" := get_current_timestamp]>
        (<["current_version" := new_version u]> tool_info)
  | None => tool_info
  end.

Definition checked_tool (category : string)
    (item : string * gmap string string) : string * gmap string string :=
  (item.1, apply_update (detected category item) item.2).

Definition checked_category
    (item : string * list (string * gmap string string))
  : string * list (string * gmap string string) :=
  (item.1, checked_tool item.1 <$> item.2).

(** Checking a tool raises nothing: its sources answer, and it has the
    two keys [_record_update] reads. *)
Definition ready (tool_info : gmap string string) : Prop :=
  (∃ v, latest tool_info = Ok v)
  ∧ is_Some (tool_info !! "current_version")
  ∧ is_Some (tool_info !! "description").

(** The updates a run records, and the requests it makes. *)
Definition run_updates
    (tracked : list (string * list (string * gmap string string)))
  : list VersionUpdate :=
  flat_map (λ item, flat_map (λ entry, option_list (detected item.1 entry))
                      item.2) tracked.

Definition run_queries
    (tracked : list (string * list (string * gmap string string)))
  : list query :=
  flat_map (λ item, flat_map (λ entry, asked entry.2) item.2) tracked.

End detection.

(** ** The document *)

(** A text without its first character. *)
Definition behead (text : string) : string :=
  match text with
  | EmptyString => ""
  | String _ text' => text'
  end.





(** The two rewrites of [update_readme] that come after the version cells:
    the trending section, when there are trending tools, and the
    [Generated] marker. *)
Definition later_rewrites {W : World} (trending : list json) (text : string)
  : result string :=
  text' ← match trending with
          | [] => Ok text
          | _ :: _ => _add_trending_section trending text
          end;
  rewrite_generated text'.

(** ** Vocabulary of the further properties *)

(** A stretch of the update check leaves all of the checker but the
    requests made and the updates found, to which it adds. *)
Definition extends (c c' : Checker) : Prop :=
  config c' = config c ∧ trending_tools c' = trending_tools c
  ∧ readme c' = readme c
  ∧ (∃ us, updates_found c' = updates_found c ++ us)
  ∧ (∃ qs, queries c' = queries c ++ qs).

(** Two [tool_info] dicts that differ at most in the version and its
    date. *)
Definition same_but_version (tool_info tool_info' : gmap string string) : Prop :=
  ∀ key, key ≠ "current_version" → key ≠ "last_updated" →
         tool_info' !! key = tool_info !! key.

Definition same_tools (tools tools' : list (string * gmap string string))
  : Prop :=
  Forall2 (λ t t', t'.1 = t.1 ∧ same_but_version t.2 t'.2) tools tools'.

(** A repository that makes the scan of its topic stop: it lacks the star
    count, or it has more than 50 stars and lacks another of the fields
    read. *)
Definition malformed (repo : json) : bool :=
  negb (has_field "stargazers_count" repo)
  || (popular repo && negb (candidate repo)).

(** Lines, each ended by a line feed. *)
Fixpoint unlines (l : list string) : string :=
  match l with
  | [] => ""
  | x :: rest => x +:+ LF +:+ unlines rest
  end.

(** The text of a section: its heading, its content if any and its items
    as a bulleted list, each on a line. *)
Definition section_text (s : ReportGenerator.section) : string :=
  unlines (["## " +:+ default "" (ReportGenerator.title s)]
           ++ option_list (ReportGenerator.content s)
           ++ map (λ item, "- " +:+ item)
                (default [] (ReportGenerator.items s))).



(** The keywords of all the discussions, in order. *)
Fixpoint all_keywords (discussions : list json) : result (list string) :=
  match discussions with
  | [] => Ok []
  | d :: rest =>
      keywords ← ForumMonitor.keywords_of d;
      more ← all_keywords rest;
      Ok (keywords ++ more)
  end.

(** How often [k] occurs in a list. *)
Definition occurrences (k : string) (l : list string) : nat :=
  length (filter (λ x, x = k) l).

(** A dict of counts holds, for the strings counted, how often each
    occurs. *)
Definition tallies (counts : list (string * nat)) (l : list string) : Prop :=
  NoDup counts.*1
  ∧ ∀ k n, (k, n) ∈ counts ↔ n = occurrences k l ∧ (0 < n)%nat.

(** Counts in descending order. *)
Definition descending (items : list (string * nat)) : Prop :=
  StronglySorted (λ x y, (y.2 ≤ x.2)%nat) items.

Definition is_text (j : json) : bool :=
  match j with
  | JStr _ => true
  | _ => false
  end.

Definition text_or_null (j : json) : bool :=
  match j with
  | JStr _ | JNull => true
  | _ => false
  end.

(** A candidate with the types of the search API: name and address are
    strings, description and language are strings or [null]. *)
Definition typed_candidate (repo : json) : bool :=
  candidate repo && is_text (field "name" repo)
  && is_text (field "html_url" repo)
  && text_or_null (field "description" repo)
  && text_or_null (field "language" repo).

(** An entry of [trending_tools] with a description to show. *)
Definition described (entry : json) : Prop :=
  ∃ s, field "description" entry = JStr s ∧ s ≠ "".

Ltac st_unfold :=
  unfold try_except, mbind, ST_bind, st_bind, modify, gets, mret, ST_ret,
    raise, run_result in *.

(** ** A world for the examples

    Homebrew knows the formula [toolx] at 1.1.0, PyPI the package [toolx]
    at 2.0.0, npm the package [toolx] at 4.2.0, GitHub the release v9.9.9
    of [acme/toolx]; the topic search for [ai-agents] finds four
    repositories with 10, 60, 51 and 49 stars; every other request times
    out or, for Homebrew, exits with status 1. *)
Module Example.

Definition today : clock :=
  {| iso_date := "2026-01-15"; long_date := "January 15, 2026";
     date_time := "2026-01-15 09:30:00" |}.

Definition ok (j : json) : http_outcome :=
  Responds {| status_code := 200; body := Some j |}.

Definition repo (name : string) (stars : Z) : json :=
  JObj [("name", JStr name);
        ("html_url", JStr ("https://github.com/acme/" +:+ name));
        ("description", JNull);
        ("stargazers_count", JNum stars);
        ("language", JStr "Python");
        ("created_at", JStr "2026-01-15T08:00:00Z")].

Definition candidates : list json :=
  [repo "a" 10; repo "b" 60; repo "c" 51; repo "d" 49].

Definition search_ai_agents : string :=
  "https://api.github.com/search/repositories?q=topic:ai-agents"
  +:+ " created:>=2026-01-15&sort=stars&order=desc&per_page=5".

Definition web (url : string) : http_outcome :=
  if String.eqb url "https://pypi.org/pypi/toolx/json" then
    ok (JObj [("info", JObj [("version", JStr "2.0.0")])])
  else if String.eqb url "https://registry.npmjs.org/toolx" then
    ok (JObj [("dist-tags", JObj [("latest", JStr "4.2.0")])])
  else if String.eqb url
            "https://api.github.com/repos/acme/toolx/releases/latest" then
    ok (JObj [("tag_name", JStr "v9.9.9")])
  else if String.eqb url search_ai_agents then
    ok (JObj [("total_count", JNum 4); ("items", JArr candidates)])
  else Fails Timeout.

Definition homebrew (formula : string) : brew_outcome :=
  if String.eqb formula "toolx" then
    Completed 0
      (Some (JArr [JObj [("name", JStr "toolx");
                         ("versions", JObj [("stable", JStr "1.1.0")])]]))
  else Completed 1 None.

#[global] Instance world : World :=
  {| http := web; brew := homebrew; now := today |}.

(** The same world on a machine without Homebrew. *)
Definition world_without_brew : World :=
  {| http := web; brew := λ _, CannotStart; now := today |}.

(** A tool tracked through PyPI (under a name PyPI does not answer for),
    npm and GitHub. *)
Definition toolx_registries : gmap string string :=
  <["pypi_package" := "toolx-py"]>
    (<["npm_package" := "toolx"]>
       (<["source" := "https://github.com/acme/toolx"]>
          (<["current_version" := "4.1.0"]>
             (<["description" := "A tool"]> ∅)))).

(** A tool tracked through PyPI alone, under that name. *)
Definition toolx_unknown : gmap string string :=
  <["pypi_package" := "toolx-py"]>
    (<["current_version" := "0.3.0"]> (<["description" := "A tool"]> ∅)).

(** A tool tracked through Homebrew and PyPI. *)
Definition toolx_brew : gmap string string :=
  <["homebrew_formula" := "toolx"]>
    (<["pypi_package" := "toolx"]>
       (<["current_version" := "1.0.0"]>
          (<["description" := "A tool"]> ∅))).

Definition checker
    (tracked : list (string * list (string * gmap string string)))
    (text : option string) : Checker :=
  {| config := {| tracked_tools := tracked; github_topics := ["ai-agents"];
                  last_update_check := None; saved_trending_tools := [] |};
     updates_found := []; trending_tools := []; queries := [];
     readme := text |}.

(** A section of a report with a title and an empty list of items. *)
Definition notes : ReportGenerator.section :=
  {| ReportGenerator.title := Some "Notes";
     ReportGenerator.content := None;
     ReportGenerator.items := Some [] |}.

(** A run that tracks [toolx_brew] as the tool [ToolX]. *)
Definition run_toolx : Checker :=
  checker [("ai_frameworks", [("ToolX", toolx_brew)])]
    (Some "|**ToolX**|1.0.0|").

(** A run that recorded an update of [ToolX] in the category [cat]. *)
Definition run_recorded (cat : string) : Checker :=
  {| config := {| tracked_tools := []; github_topics := [];
                  last_update_check := None; saved_trending_tools := [] |};
     updates_found := [{| tool := "ToolX"; category := cat;
                          old_version := "1.0.0"; new_version := "1.1.0";
                          description := "A tool" |}];
     trending_tools := []; queries := [];
     readme := Some ("| Tool | Version |" +:+ LF +:+ "|**ToolX**|1.0.0|" +:+ LF
                     +:+ "|**Other**|3.0|" +:+ LF) |}.

(** A tool tracked through PyPI alone whose entry has no description. *)
Definition toolx_undescribed : gmap string string :=
  <["pypi_package" := "toolx"]> (<["current_version" := "1.0.0"]> ∅).

(** A post of a Reddit listing. *)
Definition post (title permalink : string) : json :=
  JObj [("kind", JStr "t3");
        ("data", JObj [("title", JStr title); ("permalink", JStr permalink);
                       ("score", JNum 12)])].

(** A world of answers the scripts do not expect.  PyPI and npm know the
    package [bare] without a version, GitHub the repository [acme/draft]
    with a release whose tag is [null]; the topic search for [ai-agents]
    finds a popular repository, one without star count and another popular
    one; the listing of [r/OpenAI] has two posts, an entry that is no post
    and a third post; Homebrew prints a list of names for the formula
    [names]; every other request times out or, for Homebrew, exits with
    status 1. *)
Definition odd_web (url : string) : http_outcome :=
  if String.eqb url "https://pypi.org/pypi/bare/json" then
    ok (JObj [("info", JObj [("name", JStr "bare")])])
  else if String.eqb url "https://registry.npmjs.org/bare" then
    ok (JObj [("dist-tags", JObj [("next", JStr "2.0.0-rc1")])])
  else if String.eqb url
            "https://api.github.com/repos/acme/draft/releases/latest" then
    ok (JObj [("tag_name", JNull)])
  else if String.eqb url search_ai_agents then
    ok (JObj [("items",
               JArr [repo "b" 60; JObj [("name", JStr "x")]; repo "e" 900])])
  else if String.eqb url "https://www.reddit.com/r/OpenAI/hot.json?limit=10"
  then
    ok (JObj [("data",
               JObj [("children",
                      JArr [post "New Agent SDK" "/r/OpenAI/1";
                            post "Weekly thread" "/r/OpenAI/2";
                            JObj [("kind", JStr "more")];
                            post "LLM tips" "/r/OpenAI/3"])])])
  else Fails Timeout.

Definition odd_homebrew (formula : string) : brew_outcome :=
  if String.eqb formula "names" then Completed 0 (Some (JArr [JStr "toolx"]))
  else Completed 1 None.

Definition odd_world : World :=
  {| http := odd_web; brew := odd_homebrew; now := today |}.

(** A process that holds a checker and has written and printed nothing. *)
Definition process (c : Checker) : Process :=
  Build_Process c None [].

(** Two discussions as a monitor returns them. *)
Definition discussions : list json :=
  [JObj [("title", JStr "New Agent SDK");
         ("url", JStr "https://www.reddit.com/r/OpenAI/1");
         ("source", JStr "Reddit - r/OpenAI");
         ("relevance", JStr "high");
         ("keywords", JArr [JStr "agent"]);
         ("score", JNum 12)];
   JObj [("title", JStr "LLM agent tool for ToolX");
         ("url", JStr "https://www.reddit.com/r/LocalLLaMA/7");
         ("source", JStr "Reddit - r/LocalLLaMA");
         ("relevance", JStr "high");
         ("keywords", JArr [JStr "agent"; JStr "llm"; JStr "tool"]);
         ("score", JNum 3)]].

(** A checker whose trend scan kept six repositories. *)
Definition scanned : Checker :=
  {| config := {| tracked_tools := []; github_topics := ["ai-agents"];
                  last_update_check := None; saved_trending_tools := [] |};
     updates_found := [];
     trending_tools :=
       (λ name, entry_of "ai-agents" (repo name 60))
         <$> ["a"; "b"; "c"; "d"; "e"; "f"];
     queries := []; readme := None |}.

End Example.

(** * Properties *)

(** ** The order of the release numbers *)

Lemma tuple_gt_asym (a b : list N) :
  Release.tuple_gt a b = true → Release.tuple_gt b a = false.
Proof.
  revert b. induction a as [|x a IH]; intros [|y b]; simpl; try done.
  intros Hgt. apply orb_true_iff in Hgt as [Hlt|Heq].
  - apply N.ltb_lt in Hlt.
    replace (x <? y)%N with false by (symmetry; apply N.ltb_ge; lia).
    replace (y =? x)%N with false by (symmetry; apply N.eqb_neq; lia).
    done.
  - apply andb_true_iff in Heq as [Heq Hgt]. apply N.eqb_eq in Heq as ->.
    rewrite N.ltb_irrefl, (IH _ Hgt). simpl. apply andb_false_r.
Qed.

#[global] Instance release_order : PackagingOrder Release.packaging.
Proof. split. intros a b. apply tuple_gt_asym. Qed.

Lemma version_gt_irrefl {P : Packaging} {PO : PackagingOrder P}
    (a : Version) :
  version_gt a a = false.
Proof.
  destruct (version_gt a a) eqn:E; [|done].
  by rewrite (version_gt_asym _ _ E) in E.
Qed.

(** ** The newer-check *)

Lemma eqb_decide (a b : string) : negb (String.eqb a b) = bool_decide (a ≠ b).
Proof.
  destruct (String.eqb_spec a b); simpl.
  - by rewrite bool_decide_eq_false_2; [|intros ?].
  - by rewrite bool_decide_eq_true_2.
Qed.

Lemma is_newer_version_eq {P : Packaging} (candidate stored : string) :
  _is_newer_version candidate stored = Ok (newer_by_spec candidate stored).
Proof.
  unfold _is_newer_version, newer_by_spec, version_parse.
  destruct (parse candidate) as [a|], (parse stored) as [b|]; simpl;
    by rewrite ?eqb_decide.
Qed.

(** C3: for every candidate and stored version string, the newer-check
    returns the version order of [packaging] (candidate strictly greater
    than stored) when both strings parse as versions, and string inequality
    otherwise. *)
Theorem is_newer_version_follows_spec {P : Packaging}
    (candidate stored : string) :
  _is_newer_version candidate stored
  = Ok (match parse candidate, parse stored with
        | Some a, Some b => version_gt a b
        | _, _ => bool_decide (candidate ≠ stored)
        end).
Proof. apply is_newer_version_eq. Qed.

(** C6: comparing a version string against itself never yields "newer",
    whether the string parses as a version or not. *)
Theorem is_newer_version_irreflexive {P : Packaging} {PO : PackagingOrder P}
    (v : string) :
  _is_newer_version v v = Ok false.
Proof.
  rewrite is_newer_version_eq. unfold newer_by_spec.
  destruct (parse v) as [a|].
  - by rewrite version_gt_irrefl.
  - by rewrite bool_decide_eq_false_2; [|intros ?].
Qed.

Lemma is_newer_version_irreflexive_witness :
  _is_newer_version (P := Release.packaging) "1.2.0" "1.2.0" = Ok false
  ∧ _is_newer_version (P := Release.packaging) "nightly" "nightly" = Ok false.
Proof.
  split.
  - exact (is_newer_version_irreflexive (PO := release_order) "1.2.0").
  - exact (is_newer_version_irreflexive (PO := release_order) "nightly").
Defined.

(** ** The resolvers *)

Lemma log_queries_nil (c : Checker) : log_queries [] c = c.
Proof. destruct c. unfold log_queries; simpl. by rewrite app_nil_r. Qed.

Lemma log_queries_app (qs qs' : list query) (c : Checker) :
  log_queries qs' (log_queries qs c) = log_queries (qs ++ qs') c.
Proof. unfold log_queries; simpl. by rewrite app_assoc. Qed.

Section resolvers.
Context {W : World} {P : Packaging}.

(** [HTTPClient.get] makes its request and returns, whatever the server
    does. *)
Lemma get_run (url : string) (c : Checker) :
  HTTPClient.get url c = (Ok (fetched url), log_queries [QHttp url] c).
Proof.
  unfold HTTPClient.get, HTTPClient.session_get, HTTPClient.raise_for_status,
    HTTPClient.response_json, fetched.
  st_unfold.
  destruct (http url) as [[status b]|f]; simpl; [|done].
  destruct ((400 <=? status) && (status <? 600)); simpl; [done|].
  by destruct b.
Qed.

Lemma check_homebrew_version_run (formula : string) (c : Checker) :
  check_homebrew_version formula c
  = ((check_homebrew_version formula blank).1, log_queries [QBrew formula] c).
Proof.
  unfold check_homebrew_version, subprocess_run, json_loads. st_unfold.
  repeat (case_match; simplify_eq/=; try done).
Qed.

Lemma check_pypi_version_run (package : string) (c : Checker) :
  check_pypi_version package c
  = ((check_pypi_version package blank).1,
     log_queries [QHttp ("https://pypi.org/pypi/" +:+ package +:+ "/json")] c).
Proof.
  unfold check_pypi_version, truthy_and_contains. st_unfold. rewrite !get_run.
  repeat (case_match; simplify_eq/=; try done).
Qed.

Lemma check_npm_version_run (package : string) (c : Checker) :
  check_npm_version package c
  = ((check_npm_version package blank).1,
     log_queries [QHttp ("https://registry.npmjs.org/" +:+ package)] c).
Proof.
  unfold check_npm_version, truthy_and_contains. st_unfold. rewrite !get_run.
  repeat (case_match; simplify_eq/=; try done).
Qed.

Lemma check_github_releases_run (repo_url : string) :
  ∃ qs, ∀ c, check_github_releases repo_url c
             = ((check_github_releases repo_url blank).1, log_queries qs c).
Proof.
  unfold check_github_releases, truthy_and_contains. st_unfold.
  destruct (Re.search_github repo_url) as [[owner repo]|].
  - eexists. intros c. rewrite !get_run.
    repeat (case_match; simplify_eq/=; try done).
  - exists []. intros c. simpl. by rewrite log_queries_nil.
Qed.

(** A resolver answers and asks the same in every checker. *)
Lemma resolve_run (s : source) (c : Checker) :
  resolve s c = (answer s, log_queries (requests s) c).
Proof.
  unfold answer, requests. destruct s as [f|p|p|u]; simpl.
  - by rewrite (check_homebrew_version_run f c),
      (check_homebrew_version_run f blank).
  - by rewrite (check_pypi_version_run p c), (check_pypi_version_run p blank).
  - by rewrite (check_npm_version_run p c), (check_npm_version_run p blank).
  - destruct (check_github_releases_run u) as [qs Hqs].
    by rewrite (Hqs c), (Hqs blank).
Qed.

(** ** The lookup of the latest version *)

Lemma get_latest_version_chain (tool_info : gmap string string) :
  _get_latest_version tool_info
  = chain [Homebrew <$> configured "homebrew_formula" tool_info;
           PyPI <$> configured "pypi_package" tool_info;
           Npm <$> configured "npm_package" tool_info]
          (GitHubReleases <$> configured "source" tool_info).
Proof.
  unfold _get_latest_version, chain, try_source, last_source.
  by destruct (configured "homebrew_formula" tool_info),
    (configured "pypi_package" tool_info),
    (configured "npm_package" tool_info), (configured "source" tool_info).
Qed.

Lemma chain_scan (steps : list (option source)) (final : option source)
    (c : Checker) :
  (chain steps final c).2
  = (scan (omap id steps ++ option_list final) c).2
  ∧ similar (chain steps final c).1
            (scan (omap id steps ++ option_list final) c).1.
Proof.
  revert c. induction steps as [|[s|] steps IH]; intros c; simpl.
  - destruct final as [s|]; simpl; [|by split; [|left]].
    st_unfold. rewrite resolve_run.
    destruct (answer s) as [v| |]; simpl; try (by split; [|left]).
    destruct (truthy_str v) eqn:Hv; simpl; (split; [done|]); [by left|].
    right. by exists v, None.
  - unfold try_source. st_unfold. rewrite resolve_run.
    destruct (answer s) as [v| |]; simpl; try (by split; [|left]).
    destruct (truthy_str v); simpl; [by split; [|left]|]. apply IH.
  - apply IH.
Qed.

Lemma scan_first_non_empty (before : list source) (s : source)
    (after : list source) (v : option string) (c : Checker) :
  Forall empty_answer before → answer s = Ok v → truthy_str v = true →
  scan (before ++ s :: after) c
  = (Ok v, log_queries (flat_map requests (before ++ [s])) c).
Proof.
  intros Hbefore Hs Hv. revert c.
  induction Hbefore as [|b before (w & Hb & Hw) _ IH]; intros c; simpl;
    st_unfold; rewrite resolve_run.
  - by rewrite Hs, Hv, app_nil_r.
  - rewrite Hb, Hw, IH. by rewrite log_queries_app.
Qed.

Lemma scan_all_empty (srcs : list source) (c : Checker) :
  Forall empty_answer srcs →
  scan srcs c = (Ok None, log_queries (flat_map requests srcs) c).
Proof.
  intros Hall. revert c.
  induction Hall as [|s srcs (w & Hs & Hw) _ IH]; intros c; simpl.
  - by rewrite log_queries_nil.
  - st_unfold. rewrite resolve_run, Hs, Hw, IH. by rewrite log_queries_app.
Qed.

Lemma get_latest_version_scan (tool_info : gmap string string) (c : Checker) :
  (_get_latest_version tool_info c).2 = (scan (sources tool_info) c).2
  ∧ similar (_get_latest_version tool_info c).1 (scan (sources tool_info) c).1.
Proof.
  rewrite get_latest_version_chain.
  pose proof (chain_scan
    [Homebrew <$> configured "homebrew_formula" tool_info;
     PyPI <$> configured "pypi_package" tool_info;
     Npm <$> configured "npm_package" tool_info]
    (GitHubReleases <$> configured "source" tool_info) c) as Hc.
  replace (sources tool_info) with
    (omap id [Homebrew <$> configured "homebrew_formula" tool_info;
              PyPI <$> configured "pypi_package" tool_info;
              Npm <$> configured "npm_package" tool_info]
     ++ option_list (GitHubReleases <$> configured "source" tool_info)); [done|].
  unfold sources.
  by destruct (configured "homebrew_formula" tool_info),
    (configured "pypi_package" tool_info),
    (configured "npm_package" tool_info), (configured "source" tool_info).
Qed.

(** C4: the lookup asks the configured sources in the order Homebrew,
    PyPI, npm, GitHub releases; it returns the first result that is not
    empty, having asked that source and those before it and no later one;
    and it returns an empty result, having asked every configured source,
    when each of them yields an empty result. *)
Theorem get_latest_version_first_non_empty
    (tool_info : gmap string string) (c : Checker) :
  (∀ before s after v,
     sources tool_info = before ++ s :: after →
     Forall empty_answer before → answer s = Ok v → truthy_str v = true →
     _get_latest_version tool_info c
     = (Ok v, log_queries (flat_map requests (before ++ [s])) c))
  ∧ (Forall empty_answer (sources tool_info) →
     ∃ v, truthy_str v = false
          ∧ _get_latest_version tool_info c
            = (Ok v, log_queries (flat_map requests (sources tool_info)) c)).
Proof.
  destruct (get_latest_version_scan tool_info c) as [Hst Hres].
  destruct (_get_latest_version tool_info c) as [r c'] eqn:Hrun.
  simpl in Hst, Hres. split.
  - intros before s after v Hsrc Hbefore Hs Hv.
    rewrite Hsrc, (scan_first_non_empty _ _ _ v) in Hst, Hres by done.
    simpl in Hst, Hres. subst c'. f_equal.
    destruct Hres as [->|(w & w' & -> & Hw' & _ & Hfalse)]; [done|].
    simplify_eq. congruence.
  - intros Hall. rewrite scan_all_empty in Hst, Hres by done.
    simpl in Hst, Hres. subst c'.
    destruct Hres as [->|(w & w' & -> & _ & Hw & _)]; [by exists None|].
    by exists w.
Qed.

End resolvers.

Lemma pypi_unknown_empty :
  empty_answer (W := Example.world) (PyPI "toolx-py").
Proof. exists None. split; by vm_compute. Qed.

Lemma get_latest_version_first_non_empty_witness :
  _get_latest_version (W := Example.world) Example.toolx_registries blank
  = (Ok (Some "4.2.0"),
     log_queries [QHttp "https://pypi.org/pypi/toolx-py/json";
                  QHttp "https://registry.npmjs.org/toolx"] blank)
  ∧ ∃ v, truthy_str v = false
         ∧ _get_latest_version (W := Example.world) Example.toolx_unknown blank
           = (Ok v,
              log_queries [QHttp "https://pypi.org/pypi/toolx-py/json"] blank).
Proof.
  split.
  - etrans.
    + apply (proj1 (get_latest_version_first_non_empty
                      Example.toolx_registries blank)
               [PyPI "toolx-py"] (Npm "toolx")
               [GitHubReleases "https://github.com/acme/toolx"]
               (Some "4.2.0")).
      * by vm_compute.
      * constructor; [apply pypi_unknown_empty|constructor].
      * by vm_compute.
      * reflexivity.
    + by vm_compute.
  - destruct (proj2 (get_latest_version_first_non_empty
                       Example.toolx_unknown blank)) as (v & Hv & Hrun).
    + assert (sources Example.toolx_unknown = [PyPI "toolx-py"]) as ->
        by by vm_compute.
      constructor; [apply pypi_unknown_empty|constructor].
    + exists v. split; [done|]. rewrite Hrun. by vm_compute.
Defined.

(** ** Strings *)

Lemma append_cons (a : ascii) (s t : string) :
  String a s +:+ t = String a (s +:+ t).
Proof. reflexivity. Qed.

Lemma append_nil_l (s : string) : "" +:+ s = s.
Proof. reflexivity. Qed.

Lemma append_assoc (s t u : string) : (s +:+ t) +:+ u = s +:+ t +:+ u.
Proof. induction s as [|a s IH]; [done|]. by rewrite !append_cons, IH. Qed.

Lemma append_nil_r (s : string) : s +:+ "" = s.
Proof. induction s as [|a s IH]; [done|]. by rewrite append_cons, IH. Qed.

Lemma length_append (s t : string) :
  String.length (s +:+ t) = (String.length s + String.length t)%nat.
Proof.
  induction s as [|a s IH]; [done|]. rewrite append_cons. simpl.
  by rewrite IH.
Qed.

Lemma strip_prefix_Some (p text rest : string) :
  Re.strip_prefix p text = Some rest → text = p +:+ rest.
Proof.
  revert text. induction p as [|a p IH]; intros [|b text]; simpl; try done.
  - by intros [= <-].
  - by intros [= <-].
  - destruct (Ascii.eqb_spec a b) as [->|]; [|done].
    intros Hp. by rewrite append_cons, <- (IH _ Hp).
Qed.

Lemma strip_prefix_app (p rest : string) :
  Re.strip_prefix p (p +:+ rest) = Some rest.
Proof.
  induction p as [|a p IH]; [by destruct rest|].
  rewrite append_cons. simpl. by rewrite Ascii.eqb_refl.
Qed.

Lemma span_not_spec (c : ascii) (text run rest : string) :
  Re.span_not c text = (run, rest) →
  text = run +:+ rest ∧ occurs c run = false
  ∧ (rest = "" ∨ ∃ rest', rest = String c rest').
Proof.
  revert run rest. induction text as [|a text IH]; intros run rest; simpl.
  - intros [= <- <-]. eauto.
  - destruct (Ascii.eqb_spec a c) as [->|Hne].
    + intros [= <- <-]. eauto.
    + destruct (Re.span_not c text) as [run' rest'] eqn:Hspan.
      intros [= <- <-]. destruct (IH _ _ eq_refl) as (-> & Hrun & Hrest).
      split; [done|]. split; [|done]. simpl.
      by destruct (Ascii.eqb_spec a c).
Qed.

Lemma span_not_app (c : ascii) (run rest : string) :
  occurs c run = false →
  Re.span_not c (run +:+ rest)
  = (run +:+ (Re.span_not c rest).1, (Re.span_not c rest).2).
Proof.
  induction run as [|a run IH]; simpl.
  - intros _. rewrite append_nil_l. by destruct (Re.span_not c rest).
  - intros [Hac Hrun]%orb_false_iff. rewrite !append_cons. simpl.
    by rewrite Hac, (IH Hrun).
Qed.

(** ** The owner and repository of a GitHub address *)

Lemma match_github_sound (text owner repo : string) :
  Re.match_github text = Some (owner, repo) →
  ∃ post, text = "github.com/" +:+ owner +:+ "/" +:+ repo +:+ post
          ∧ owner ≠ "" ∧ repo ≠ "" ∧ occurs "/" owner = false
          ∧ occurs "/" repo = false.
Proof.
  unfold Re.match_github.
  destruct (Re.strip_prefix "github.com/" text) as [rest|] eqn:Hp; [|done].
  apply strip_prefix_Some in Hp as ->.
  destruct (Re.span_not "/" rest) as [o rest1] eqn:Ho.
  apply span_not_spec in Ho as (-> & Ho & Hrest1).
  destruct o as [|a o]; [done|]. destruct rest1 as [|b rest2]; [done|].
  destruct Hrest1 as [|[rest' [= -> <-]]]; [done|].
  destruct (Re.span_not "/" rest2) as [r post] eqn:Hr.
  apply span_not_spec in Hr as (-> & Hr & _).
  destruct r as [|a' r]; [done|]. intros [= <- <-].
  by exists post.
Qed.

Lemma search_github_sound (url owner repo : string) :
  Re.search_github url = Some (owner, repo) → github_path url owner repo.
Proof.
  induction url as [|a url IH]; simpl.
  - by destruct (Re.match_github "") as [[??]|] eqn:Hm.
  - destruct (Re.match_github (String a url)) as [[o r]|] eqn:Hm.
    + intros [= -> ->].
      destruct (match_github_sound _ _ _ Hm) as (post & -> & ?).
      by exists "", post.
    + intros (pre & post & -> & ?)%IH. by exists (String a pre), post.
Qed.

Lemma match_github_complete (owner repo post : string) :
  owner ≠ "" → repo ≠ "" → occurs "/" owner = false →
  occurs "/" repo = false →
  is_Some (Re.match_github
             ("github.com/" +:+ owner +:+ "/" +:+ repo +:+ post)).
Proof.
  intros Ho Hr Hso Hsr. unfold Re.match_github.
  rewrite strip_prefix_app, (span_not_app _ _ _ Hso). simpl.
  destruct owner as [|a owner]; [done|]. rewrite append_cons, append_nil_l.
  rewrite (span_not_app _ _ _ Hsr).
  destruct repo as [|b repo]; [done|]. by rewrite append_cons.
Qed.

Lemma search_github_here (text : string) :
  is_Some (Re.match_github text) → is_Some (Re.search_github text).
Proof.
  intros [groups Hm]. destruct text; [by vm_compute in Hm|].
  cbn [Re.search_github]. by rewrite Hm.
Qed.

Lemma search_github_complete (url : string) :
  has_github_path url → is_Some (Re.search_github url).
Proof.
  intros (owner & repo & pre & post & -> & Ho & Hr & Hso & Hsr).
  induction pre as [|a pre IH].
  - rewrite append_nil_l. by apply search_github_here, match_github_complete.
  - rewrite append_cons. cbn [Re.search_github].
    by destruct (Re.match_github _).
Qed.

(** [re.search] finds a match exactly in the addresses that contain an
    owner and a repository under [github.com]. *)
Lemma search_github_None (url : string) :
  Re.search_github url = None ↔ ¬ has_github_path url.
Proof.
  split.
  - intros Hnone [groups Hsome]%search_github_complete. congruence.
  - intros Hno. destruct (Re.search_github url) as [[owner repo]|] eqn:Hs;
      [|done].
    destruct Hno. exists owner, repo. by apply search_github_sound.
Qed.

Lemma lstrip_spec (c : ascii) (s : string) :
  ∃ n, s = repeat_char c n +:+ lstrip c s
       ∧ is_prefix (String c "") (lstrip c s) = false.
Proof.
  induction s as [|a s (n & Hn & Hp)]; [by exists O|]. simpl.
  destruct (Ascii.eqb_spec a c) as [->|Hne].
  - exists (S n). simpl. by rewrite append_cons, <- Hn.
  - exists O. split; [done|]. simpl. by destruct (Ascii.eqb_spec c a).
Qed.

Section github.
Context {W : World}.

(** C10: a release lookup that succeeds returns the tag without any of its
    leading [v] characters, and a lookup for an address that contains no
    owner and repository under [github.com] returns nothing (and asks
    nothing). *)
Theorem check_github_releases_strips_v (repo_url : string) (c : Checker) :
  (∀ owner repo kvs tag,
     Re.search_github repo_url = Some (owner, repo) →
     fetched (releases_url owner repo) = JObj kvs →
     assoc "tag_name" kvs = Some (JStr tag) →
     ∃ version n,
       check_github_releases repo_url c
       = (Ok (Some version), log_queries [QHttp (releases_url owner repo)] c)
       ∧ tag = repeat_char "v" n +:+ version
       ∧ is_prefix "v" version = false)
  ∧ (¬ has_github_path repo_url →
     check_github_releases repo_url c = (Ok None, c)).
Proof.
  split.
  - intros owner repo kvs tag Hs Hf Ht.
    destruct (lstrip_spec "v" tag) as (n & Hn & Hp).
    exists (lstrip "v" tag), n. split; [|done].
    unfold check_github_releases, truthy_and_contains. rewrite Hs. st_unfold.
    fold (releases_url owner repo). rewrite get_run, Hf.
    destruct kvs as [|kv kvs]; [done|]. simpl truthy. cbv iota.
    unfold contains, getitem. rewrite Ht.
    by rewrite bool_decide_eq_true_2.
  - intros Hno%search_github_None. unfold check_github_releases.
    by rewrite Hno.
Qed.

End github.

Lemma check_github_releases_strips_v_witness :
  check_github_releases (W := Example.world)
    "https://github.com/acme/toolx" blank
  = (Ok (Some "9.9.9"),
     log_queries
       [QHttp "https://api.github.com/repos/acme/toolx/releases/latest"] blank)
  ∧ check_github_releases (W := Example.world)
      "https://gitlab.com/acme/toolx" blank
    = (Ok None, blank).
Proof.
  split.
  - destruct (proj1 (check_github_releases_strips_v (W := Example.world)
                       "https://github.com/acme/toolx" blank)
                "acme" "toolx" [("tag_name", JStr "v9.9.9")] "v9.9.9")
      as (version & n & Hrun & Htag & Hv); [vm_compute; reflexivity..|].
    rewrite Hrun.
    destruct n as [|[|n]]; vm_compute in Htag; simplify_eq;
      first [by vm_compute in Hv | reflexivity].
  - apply (proj2 (check_github_releases_strips_v (W := Example.world)
                    "https://gitlab.com/acme/toolx" blank)).
    apply search_github_None. vm_compute. reflexivity.
Defined.

(** ** The Markdown report *)

Lemma join_cons (sep x y : string) (l : list string) :
  join sep (x :: y :: l) = x +:+ sep +:+ join sep (y :: l).
Proof. reflexivity. Qed.

Section report.
Context {W : World}.

(** C8 (amended): the generator produces the document of the title line
    and the timestamp line alone exactly for an input without sections;
    a section adds its heading whether or not it carries items. *)
Theorem report_of_title_and_timestamp_only
    (report_title : string) (sections : list ReportGenerator.section) :
  ReportGenerator.generate_markdown_report report_title sections
  = Ok (title_and_timestamp report_title)
  ↔ sections = [].
Proof.
  unfold ReportGenerator.generate_markdown_report, title_and_timestamp.
  split; [|by intros ->].
  destruct sections as [|s rest]; [done|].
  cbn [ReportGenerator.sections_lines]. unfold mbind, result_bind, res_bind.
  unfold ReportGenerator.section_lines.
  destruct (ReportGenerator.title s) as [t|]; [|done].
  destruct (ReportGenerator.sections_lines rest) as [ls| |]; [|done..].
  cbn [app]. rewrite !join_cons. intros [= Hdoc]. exfalso.
  apply (f_equal String.length) in Hdoc.
  rewrite !length_append in Hdoc. simpl in Hdoc. lia.
Qed.

End report.

(** C8, as stated, fails: a section with a title and an empty list of
    items carries no items, and its heading is in the report. *)
Lemma report_without_items_counterexample :
  carries_items Example.notes = false
  ∧ ReportGenerator.generate_markdown_report (W := Example.world)
      "Update Summary" [Example.notes]
    = Ok (title_and_timestamp (W := Example.world) "Update Summary"
          +:+ LF +:+ "## Notes" +:+ LF)
  ∧ ReportGenerator.generate_markdown_report (W := Example.world)
      "Update Summary" [Example.notes]
    ≠ Ok (title_and_timestamp (W := Example.world) "Update Summary").
Proof. repeat split. vm_compute. discriminate. Qed.

(** ** The trend scanner *)

Lemma add_trendings_nil (c : Checker) : add_trendings [] c = c.
Proof. destruct c. unfold add_trendings; simpl. by rewrite app_nil_r. Qed.

Lemma add_trendings_cons (entry : json) (entries : list json) (c : Checker) :
  add_trendings entries (add_trending entry c) = add_trendings (entry :: entries) c.
Proof. unfold add_trendings, add_trending; simpl. by rewrite <- app_assoc. Qed.

Lemma has_field_getitem (key : string) (repo : json) :
  has_field key repo = true → getitem key repo = Ok (field key repo).
Proof.
  destruct repo as [| | | | |kvs]; simpl; try done.
  intros [v Hv]%bool_decide_eq_true. by rewrite Hv.
Qed.

Lemma candidate_entry (topic : string) (repo : json) :
  candidate repo = true → trending_entry topic repo = Ok (entry_of topic repo).
Proof.
  unfold candidate. rewrite !andb_true_iff.
  intros [[[[[[Hn Hu] Hd] Hs] Hl] Hc] _].
  unfold trending_entry, entry_of.
  by rewrite !has_field_getitem.
Qed.

Section trends.
Context {W : World}.

Lemma scan_repo_candidate (topic : string) (repo : json) (c : Checker) :
  candidate repo = true →
  scan_repo topic repo c
  = (Ok tt, if popular repo then add_trending (entry_of topic repo) c else c).
Proof.
  intros Hcand. pose proof (candidate_entry topic repo Hcand) as Hentry.
  revert Hcand. unfold candidate. rewrite !andb_true_iff.
  intros [[[[[[_ _] _] Hs] _] _] [z Hz]%bool_decide_eq_true].
  unfold scan_repo, popular. st_unfold.
  rewrite (has_field_getitem _ _ Hs), Hz. unfold stars in Hz.
  destruct (field "stargazers_count" repo); simplify_eq/=.
  destruct (50 <? z); [|done]. by rewrite Hentry.
Qed.

Lemma scan_candidates (topic : string) (repos : list json) (c : Checker) :
  forallb candidate repos = true →
  for_each repos (scan_repo topic) c
  = (Ok tt, add_trendings (entry_of topic <$> filter popular repos) c).
Proof.
  revert c. induction repos as [|repo repos IH]; intros c; simpl.
  - intros _. by rewrite add_trendings_nil.
  - intros [Hrepo Hrepos]%andb_true_iff. unfold st_bind.
    rewrite (scan_repo_candidate _ _ _ Hrepo), (IH _ Hrepos).
    destruct (popular repo) eqn:Hp.
    + rewrite filter_cons_True by by rewrite Hp.
      by rewrite fmap_cons, add_trendings_cons.
    + rewrite filter_cons_False; [done|]. rewrite Hp. by intros [].
Qed.


End trends.


(** ** The update check *)

Lemma record_run_nil (c : Checker) : record_run [] [] c = c.
Proof.
  destruct c. unfold record_run, add_updates, log_queries; simpl.
  by rewrite !app_nil_r.
Qed.

Lemma record_run_app (us us' : list VersionUpdate) (qs qs' : list query)
    (c : Checker) :
  record_run us' qs' (record_run us qs c) = record_run (us ++ us') (qs ++ qs') c.
Proof.
  unfold record_run, add_updates, log_queries; simpl. by rewrite !app_assoc.
Qed.

Lemma log_queries_record_run (qs : list query) (c : Checker) :
  log_queries qs c = record_run [] qs c.
Proof.
  destruct c. unfold record_run, add_updates, log_queries; simpl.
  by rewrite app_nil_r.
Qed.

(** [map_m] over iterations that each return and record. *)
Lemma map_m_run {A B} (f : A → M B) (g : A → B)
    (us : A → list VersionUpdate) (qs : A → list query) (l : list A)
    (c : Checker) :
  (∀ x c, x ∈ l → f x c = (Ok (g x), record_run (us x) (qs x) c)) →
  map_m f l c
  = (Ok (g <$> l), record_run (flat_map us l) (flat_map qs l) c).
Proof.
  revert c. induction l as [|x l IH]; intros c Hf; simpl.
  - by rewrite record_run_nil.
  - st_unfold. rewrite Hf by left.
    rewrite IH by (intros; apply Hf; by right).
    by rewrite record_run_app.
Qed.

Section update_check.
Context {W : World} {P : Packaging}.

Lemma chain_run (steps : list (option source)) (final : option source) :
  ∃ r qs, ∀ c, chain steps final c = (r, log_queries qs c).
Proof.
  induction steps as [|[s|] steps (r & qs & IH)]; simpl.
  - destruct final as [s|]; simpl.
    + exists (answer s), (requests s). intros c. apply resolve_run.
    + exists (Ok None), []. intros c. by rewrite log_queries_nil.
  - unfold try_source. st_unfold.
    destruct (answer s) as [v| |] eqn:Hs.
    + destruct (truthy_str v) eqn:Hv.
      * exists (Ok v), (requests s). intros c. by rewrite resolve_run, Hs, Hv.
      * exists r, (requests s ++ qs). intros c.
        by rewrite resolve_run, Hs, Hv, IH, log_queries_app.
    + exists (Raise e), (requests s). intros c. by rewrite resolve_run, Hs.
    + exists Unmodelled, (requests s). intros c. by rewrite resolve_run, Hs.
  - exists r, qs. intros c. apply IH.
Qed.

(** The lookup answers and asks the same in every checker. *)
Lemma get_latest_version_run (tool_info : gmap string string) (c : Checker) :
  _get_latest_version tool_info c
  = (latest tool_info, log_queries (asked tool_info) c).
Proof.
  unfold latest, asked. rewrite get_latest_version_chain.
  destruct (chain_run
    [Homebrew <$> configured "homebrew_formula" tool_info;
     PyPI <$> configured "pypi_package" tool_info;
     Npm <$> configured "npm_package" tool_info]
    (GitHubReleases <$> configured "source" tool_info)) as (r & qs & Hrun).
  by rewrite (Hrun c), (Hrun blank).
Qed.

(** One pass of the inner loop. *)
Lemma check_tool_run (cat name : string) (tool_info : gmap string string)
    (c : Checker) :
  check_tool cat (name, tool_info) c
  = match detect cat name tool_info with
    | Ok o =>
        (Ok (name, apply_update o tool_info),
         record_run (option_list o) (asked tool_info) c)
    | Raise e => (Raise e, log_queries (asked tool_info) c)
    | Unmodelled => (Unmodelled, log_queries (asked tool_info) c)
    end.
Proof.
  unfold check_tool, detect, _record_update, lookup_key. st_unfold.
  rewrite get_latest_version_run.
  destruct (latest tool_info) as [[l|]| |]; simpl;
    rewrite <- ?log_queries_record_run; try done.
  destruct (String.eqb l ""); simpl;
    rewrite <- ?log_queries_record_run; [done|].
  destruct (tool_info !! "current_version") as [stored|] eqn:Hstored;
    simpl; [|done].
  rewrite is_newer_version_eq.
  destruct (newer_by_spec l stored); simpl;
    rewrite <- ?log_queries_record_run; [|done].
  by destruct (tool_info !! "description") as [d|].
Qed.

Lemma ready_detect (cat name : string) (tool_info : gmap string string) :
  ready tool_info → ∃ o, detect cat name tool_info = Ok o.
Proof.
  intros ([v Hv] & [stored Hs] & [d Hd]). unfold detect.
  rewrite Hv, Hs, Hd. destruct v as [l|]; [|by eexists].
  destruct (String.eqb l ""); [by eexists|].
  destruct (newer_by_spec l stored); by eexists.
Qed.

Lemma check_tool_ready (cat : string) (item : string * gmap string string)
    (c : Checker) :
  ready item.2 →
  check_tool cat item c
  = (Ok (checked_tool cat item),
     record_run (option_list (detected cat item)) (asked item.2) c).
Proof.
  destruct item as [name tool_info]. intros Hready.
  destruct (ready_detect cat name tool_info Hready) as [o Ho].
  rewrite check_tool_run. unfold checked_tool, detected. simpl. by rewrite Ho.
Qed.

Lemma check_category_ready
    (item : string * list (string * gmap string string)) (c : Checker) :
  Forall (λ entry, ready entry.2) item.2 →
  check_category item c
  = (Ok (checked_category item),
     record_run (flat_map (λ entry, option_list (detected item.1 entry)) item.2)
       (flat_map (λ entry, asked entry.2) item.2) c).
Proof.
  destruct item as [cat tools]. intros Hready. unfold check_category.
  st_unfold.
  rewrite (map_m_run _ (checked_tool cat)
             (λ entry, option_list (detected cat entry))
             (λ entry, asked entry.2)); [done|].
  intros entry c' Hin. apply check_tool_ready.
  by apply (proj1 (Forall_forall _ _) Hready).
Qed.

(** A run over tools that are all ready. *)
Lemma check_tool_updates_ready (c : Checker) :
  (∀ cat name tool_info,
     tracks (tracked_tools (config c)) cat name tool_info → ready tool_info) →
  check_tool_updates c
  = (Ok tt,
     set_tracked_tools (checked_category <$> tracked_tools (config c))
       (record_run (run_updates (tracked_tools (config c)))
          (run_queries (tracked_tools (config c))) c)).
Proof.
  intros Hready. unfold check_tool_updates. st_unfold.
  rewrite (map_m_run _ checked_category
             (λ item, flat_map (λ entry, option_list (detected item.1 entry))
                        item.2)
             (λ item, flat_map (λ entry, asked entry.2) item.2)); [done|].
  intros [cat tools] c' Hin. apply check_category_ready.
  apply Forall_forall. intros [name tool_info] Hentry.
  apply (Hready cat name). by exists tools.
Qed.

End update_check.

(** ** Dicts as lists of items with unique keys *)

Lemma unique_value {A} (l : list (string * A)) (k : string) (x y : A) :
  NoDup l.*1 → (k, x) ∈ l → (k, y) ∈ l → x = y.
Proof.
  intros Hnd Hx Hy.
  apply (elem_of_list_to_map (M := gmap string) l k x Hnd) in Hx.
  apply (elem_of_list_to_map (M := gmap string) l k y Hnd) in Hy.
  congruence.
Qed.



Section detection.
Context {W : World} {P : Packaging}.

Lemma detected_Some (cat name : string) (tool_info : gmap string string)
    (u : VersionUpdate) :
  detected cat (name, tool_info) = Some u →
  ∃ l stored d,
    latest tool_info = Ok (Some l) ∧ l ≠ ""
    ∧ tool_info !! "current_version" = Some stored
    ∧ newer_by_spec l stored = true
    ∧ tool_info !! "description" = Some d
    ∧ u = {| tool := name; category := cat; old_version := stored;
             new_version := l; description := d |}.
Proof.
  unfold detected, detect. simpl.
  destruct (latest tool_info) as [[l|]| |]; try done.
  destruct (String.eqb_spec l ""); [done|].
  destruct (tool_info !! "current_version") as [stored|]; [|done].
  destruct (newer_by_spec l stored) eqn:Hnewer; [|done].
  destruct (tool_info !! "description") as [d|]; [|done].
  intros [= <-]. by exists l, stored, d.
Qed.



(** The tools a run leaves in the configuration. *)
Lemma tracks_checked
    (tracked : list (string * list (string * gmap string string)))
    (cat name : string) (tool_info' : gmap string string) :
  tracks (checked_category <$> tracked) cat name tool_info' ↔
  ∃ tool_info,
    tracks tracked cat name tool_info
    ∧ tool_info' = apply_update (detected cat (name, tool_info)) tool_info.
Proof.
  unfold tracks. split.
  - intros (tools' & Hcat & Htool).
    apply list_elem_of_fmap in Hcat as ([cat0 tools] & [= -> ->] & Hcat).
    apply list_elem_of_fmap in Htool as ([name0 info] & [= -> ->] & Htool).
    exists info. split; [by exists tools|done].
  - intros (info & (tools & Hcat & Htool) & ->).
    exists (checked_tool cat <$> tools). split.
    + apply list_elem_of_fmap. by exists (cat, tools).
    + apply list_elem_of_fmap. by exists (name, info).
Qed.

Lemma tracks_unique
    (tracked : list (string * list (string * gmap string string)))
    (cat name : string) (info1 info2 : gmap string string) :
  unique_keys tracked → tracks tracked cat name info1 →
  tracks tracked cat name info2 → info1 = info2.
Proof.
  intros [Hcats Htools] (tools1 & Hcat1 & Htool1) (tools2 & Hcat2 & Htool2).
  assert (tools1 = tools2) as <- by by eapply unique_value.
  eapply unique_value; [|done..].
  by apply (proj1 (Forall_forall _ _) Htools (cat, tools1)).
Qed.

Lemma apply_update_version (u : VersionUpdate) (tool_info : gmap string string) :
  apply_update (Some u) tool_info !! "current_version" = Some (new_version u).
Proof.
  unfold apply_update. rewrite lookup_insert_ne by done.
  by rewrite lookup_insert_eq.
Qed.

End detection.

Section invariants.
Context {W : World} {P : Packaging}.

Lemma scan_non_empty (srcs : list source) (c : Checker) (v : option string) :
  (scan srcs c).1 = Ok v → truthy_str v = true →
  ∃ before s after,
    srcs = before ++ s :: after ∧ Forall empty_answer before ∧ answer s = Ok v.
Proof.
  revert c. induction srcs as [|s srcs IH]; intros c; simpl.
  - by intros [= <-].
  - st_unfold. rewrite resolve_run.
    destruct (answer s) as [w| |] eqn:Hs; simpl; [|done..].
    destruct (truthy_str w) eqn:Hw; simpl.
    + intros [= <-] _. by exists [], s, srcs.
    + intros Hv Htruthy.
      destruct (IH _ Hv Htruthy) as (before & s' & after & -> & Hbefore & Hs').
      exists (s :: before), s', after. split; [done|]. split; [|done].
      constructor; [by exists w|done].
Qed.

(** A version that the lookup returns is the answer of the first source,
    in priority order, whose answer is not empty. *)
Lemma latest_non_empty (tool_info : gmap string string) (v : string) :
  latest tool_info = Ok (Some v) → v ≠ "" →
  ∃ before s after,
    sources tool_info = before ++ s :: after
    ∧ Forall empty_answer before ∧ answer s = Ok (Some v).
Proof.
  intros Hlatest Hv.
  assert (truthy_str (Some v) = true) as Htruthy.
  { simpl. by destruct (String.eqb_spec v ""). }
  destruct (get_latest_version_scan tool_info blank) as [_ Hsim].
  fold (latest tool_info) in Hsim. rewrite Hlatest in Hsim.
  destruct Hsim as [Heq|(w & w' & [= <-] & _ & Hfalse & _)]; [|congruence].
  by apply (scan_non_empty _ blank).
Qed.

(** C1 (amended): for every tracked tool whose stored version is updated
    during a run, the resulting [current_version] is the result of the
    first source, in the order Homebrew, PyPI, npm, GitHub releases, whose
    result is not empty; the sources after it are not consulted. *)
Theorem updated_version_is_first_non_empty (c : Checker) :
  unique_keys (tracked_tools (config c)) →
  (∀ cat name tool_info,
     tracks (tracked_tools (config c)) cat name tool_info → ready tool_info) →
  ∃ c',
    check_tool_updates c = (Ok tt, c')
    ∧ ∀ cat name tool_info tool_info',
        tracks (tracked_tools (config c)) cat name tool_info →
        tracks (tracked_tools (config c')) cat name tool_info' →
        tool_info' !! "current_version" ≠ tool_info !! "current_version" →
        ∃ before s after v,
          sources tool_info = before ++ s :: after
          ∧ Forall empty_answer before
          ∧ answer s = Ok (Some v) ∧ v ≠ ""
          ∧ tool_info' !! "current_version" = Some v
          ∧ ∀ c0, _get_latest_version tool_info c0
                  = (Ok (Some v),
                     log_queries (flat_map requests (before ++ [s])) c0).
Proof.
  intros Hkeys Hready. eexists. split; [by apply check_tool_updates_ready|].
  simpl. intros cat name info info' Hin Hin' Hchanged.
  apply tracks_checked in Hin' as (info0 & Hin0 & ->).
  assert (info0 = info) as -> by by eapply tracks_unique.
  destruct (detected cat (name, info)) as [u|] eqn:Hu; [|done].
  destruct (detected_Some _ _ _ _ Hu)
    as (l & stored & d & Hl & Hne & _ & _ & _ & ->).
  destruct (latest_non_empty _ _ Hl Hne)
    as (before & s & after & Hsrc & Hbefore & Hs).
  exists before, s, after, l. repeat split; try done.
  - by rewrite apply_update_version.
  - intros c0. destruct (get_latest_version_scan info c0) as [Hst Hres].
    rewrite Hsrc, (scan_first_non_empty _ _ _ (Some l)) in Hst, Hres;
      [|done|done|by simpl; destruct (String.eqb_spec l "")..].
    rewrite get_latest_version_run in *. simpl in *. by rewrite Hl, Hst.
Qed.


End invariants.

Lemma example_keys :
  unique_keys (tracked_tools (config Example.run_toolx)).
Proof.
  split; simpl.
  - apply NoDup_singleton.
  - constructor; [apply NoDup_singleton|constructor].
Qed.

Lemma example_ready (cat name : string) (tool_info : gmap string string) :
  tracks (tracked_tools (config Example.run_toolx)) cat name tool_info →
  ready (W := Example.world) tool_info.
Proof.
  intros (tools & Hcat & Htool). simpl in Hcat.
  apply list_elem_of_singleton in Hcat as [= -> ->].
  apply list_elem_of_singleton in Htool as [= -> ->].
  repeat split; by eexists; vm_compute.
Qed.

Lemma example_tracks :
  tracks (tracked_tools (config Example.run_toolx)) "ai_frameworks" "ToolX"
    Example.toolx_brew.
Proof.
  exists [("ToolX", Example.toolx_brew)]. split; by apply list_elem_of_singleton.
Qed.


Lemma updated_version_is_first_non_empty_witness :
  ∃ c' tool_info' s v,
    check_tool_updates (W := Example.world) (P := Release.packaging)
      Example.run_toolx = (Ok tt, c')
    ∧ tracks (tracked_tools (config c')) "ai_frameworks" "ToolX" tool_info'
    ∧ tool_info' !! "current_version" = Some v
    ∧ s ∈ sources Example.toolx_brew
    ∧ answer (W := Example.world) s = Ok (Some v).
Proof.
  destruct (updated_version_is_first_non_empty (W := Example.world)
              (P := Release.packaging) Example.run_toolx
              example_keys example_ready) as (c' & Hrun & Hfirst).
  pose proof Hrun as Hrun'. vm_compute in Hrun'. injection Hrun' as Hc'.
  assert (∃ tool_info',
            tracks (tracked_tools (config c')) "ai_frameworks" "ToolX" tool_info'
            ∧ tool_info' !! "current_version" = Some "1.1.0")
    as (info' & Htracks & Hversion).
  { rewrite <- Hc'. eexists. split.
    - eexists. split; by apply list_elem_of_singleton.
    - by vm_compute. }
  destruct (Hfirst "ai_frameworks" "ToolX" Example.toolx_brew info'
              example_tracks Htracks)
    as (before & s & after & v & Hsrc & _ & Hs & _ & Hv & _).
  { rewrite Hversion. by vm_compute. }
  exists c', info', s, v. repeat split; try done.
  rewrite Hsrc. apply elem_of_app. right. by left.
Defined.

(** C1, as stated, fails: Homebrew answers 1.1.0 for the tool and PyPI
    2.0.0; the run stores the answer of Homebrew, which is not the maximum
    of the results of the four sources. *)
Lemma updated_version_not_maximum_counterexample :
  ∃ c' tool_info',
    check_tool_updates (W := Example.world) (P := Release.packaging)
      Example.run_toolx = (Ok tt, c')
    ∧ tracks (tracked_tools (config c')) "ai_frameworks" "ToolX" tool_info'
    ∧ Example.toolx_brew !! "current_version" = Some "1.0.0"
    ∧ tool_info' !! "current_version" = Some "1.1.0"
    ∧ sources Example.toolx_brew = [Homebrew "toolx"; PyPI "toolx"]
    ∧ answer (W := Example.world) (Homebrew "toolx") = Ok (Some "1.1.0")
    ∧ answer (W := Example.world) (PyPI "toolx") = Ok (Some "2.0.0")
    ∧ _is_newer_version (P := Release.packaging) "2.0.0" "1.1.0" = Ok true.
Proof.
  eexists _, _. split; [by vm_compute|]. split.
  { eexists. split; by apply list_elem_of_singleton. }
  repeat split; by vm_compute.
Qed.

(** ** Faults of the sources *)

Section faults.
Context {W : World}.

(** A transport fault, a timeout, an error status and a body that is not
    JSON all make [HTTPClient.get] return [None]. *)
Lemma fetched_fault (url : string) :
  (∃ f, http url = Fails f)
  ∨ (∃ r, http url = Responds r
          ∧ (400 ≤ status_code r < 600 ∨ body r = None)) →
  fetched url = JNull.
Proof.
  unfold fetched. intros [[f ->]|(r & -> & [Hstatus| Hbody])]; [done| |].
  - replace (400 <=? status_code r) with true by (symmetry; lia).
    by replace (status_code r <? 600) with true by (symmetry; lia).
  - rewrite Hbody. by destruct (_ && _).
Qed.

(** The three resolvers over HTTP return nothing after such a fault. *)
Lemma check_pypi_version_fault (package : string) (c : Checker) :
  fetched ("https://pypi.org/pypi/" +:+ package +:+ "/json") = JNull →
  (check_pypi_version package c).1 = Ok None.
Proof.
  intros Hf. unfold check_pypi_version, truthy_and_contains. st_unfold.
  by rewrite get_run, Hf.
Qed.

Lemma check_npm_version_fault (package : string) (c : Checker) :
  fetched ("https://registry.npmjs.org/" +:+ package) = JNull →
  (check_npm_version package c).1 = Ok None.
Proof.
  intros Hf. unfold check_npm_version, truthy_and_contains. st_unfold.
  by rewrite get_run, Hf.
Qed.

Lemma check_github_releases_fault (repo_url owner repo : string) (c : Checker) :
  Re.search_github repo_url = Some (owner, repo) →
  fetched (releases_url owner repo) = JNull →
  (check_github_releases repo_url c).1 = Ok None.
Proof.
  intros Hs Hf. unfold check_github_releases, truthy_and_contains.
  rewrite Hs. st_unfold. fold (releases_url owner repo).
  by rewrite get_run, Hf.
Qed.

(** The Homebrew query returns nothing after a timeout, an exit status
    other than zero and an output that is not JSON. *)
Lemma check_homebrew_version_fault (formula : string) (c : Checker) :
  brew formula = TimesOut
  ∨ (∃ returncode stdout,
       brew formula = Completed returncode stdout
       ∧ (returncode ≠ 0 ∨ stdout = None)) →
  check_homebrew_version formula c = (Ok None, log_queries [QBrew formula] c).
Proof.
  unfold check_homebrew_version, subprocess_run, json_loads. st_unfold.
  intros [->|(rc & out & -> & [Hrc| ->])]; simpl; [done| |].
  - by replace (rc =? 0) with false by (symmetry; lia).
  - by destruct (rc =? 0).
Qed.

End faults.

(** C7, at the input where the code departs from it: where the [brew]
    executable cannot be started, the Homebrew query does not return an
    empty result, the [OSError] of [subprocess.run] leaves it. *)
Theorem check_homebrew_version_without_brew (formula : string) (c : Checker) :
  check_homebrew_version (W := Example.world_without_brew) formula c
  = (Raise OSError, log_queries [QBrew formula] c).
Proof. reflexivity. Qed.

(** ** The rewrite of the README *)

(** After a match the scan resumes behind it. *)
Lemma sub_from_skip (matcher : string → option (string * nat))
    (matched rest : string) :
  Re.sub_from matcher (matched +:+ rest) (String.length matched)
  = Re.sub_from matcher rest 0.
Proof.
  induction matched as [|a matched IH].
  - rewrite append_nil_l. by destruct rest.
  - rewrite append_cons. by cbn [Re.sub_from String.length].
Qed.





Lemma sub_from_match (matcher : string → option (string * nat))
    (text replacement : string) (n : nat) :
  text ≠ "" → matcher text = Some (replacement, n) →
  Re.sub_from matcher text 0
  = replacement +:+ Re.sub_from matcher (behead text) (Nat.pred n).
Proof. intros Htext Hm. destruct text; [done|]. simpl. by rewrite Hm. Qed.

Lemma behead_append (matched rest : string) :
  matched ≠ "" → behead (matched +:+ rest) = behead matched +:+ rest.
Proof. by destruct matched. Qed.

Lemma length_behead (text : string) :
  String.length (behead text) = Nat.pred (String.length text).
Proof. by destruct text. Qed.



Section readme.
Context {W : World}.





End readme.



Lemma is_prefix_strip (p text : string) :
  is_prefix p text = false → Re.strip_prefix p text = None.
Proof.
  revert text. induction p as [|a p IH]; intros [|b text]; simpl; try done.
  destruct (Ascii.eqb a b); [|done]. apply IH.
Qed.

(** Without trending tools and without the word [Generated] in the
    document, the later rewrites change nothing. *)
Lemma later_rewrites_nothing {W : World} (text : string) :
  Re.plain_template ("Generated " +:+ long_date now +:+ " " +:+ Re.EN_DASH)
  = true →
  is_substring "Generated" text = false →
  later_rewrites [] text = Ok text.
Proof.
  intros Hplain Habsent. unfold later_rewrites, rewrite_generated.
  unfold mbind, result_bind, res_bind. rewrite Hplain. f_equal.
  unfold Re.sub. induction text as [|a text IH]; [done|].
  cbn [is_substring] in Habsent.
  apply orb_false_iff in Habsent as [Hhere Hlater].
  cbn [Re.sub_from]. unfold Re.match_generated at 1.
  by rewrite (is_prefix_strip _ _ Hhere), (IH Hlater).
Qed.

(** ** Whole runs in the example world *)

(** Without Homebrew, the run stops at the first tool that names a
    formula, and records nothing. *)
Lemma check_tool_updates_without_brew :
  check_tool_updates (W := Example.world_without_brew)
    (P := Release.packaging) Example.run_toolx
  = (Raise OSError, log_queries [QBrew "toolx"] Example.run_toolx).
Proof. by vm_compute. Qed.

(** The scan over the configured topics keeps the two popular
    repositories. *)
Lemma search_trending_tools_example :
  search_trending_tools (W := Example.world) Example.run_toolx
  = (Ok tt,
     add_trendings
       [entry_of "ai-agents" (Example.repo "b" 60);
        entry_of "ai-agents" (Example.repo "c" 51)]
       (log_queries [QHttp Example.search_ai_agents] Example.run_toolx)).
Proof. by vm_compute. Qed.

(** * Further properties of the code *)

(** ** [HTTPClient.get] *)

Section http_client.
Context {W : World}.

(** [HTTPClient.get] never raises: it makes its one request and returns
    the decoded body of a response whose status is no error, and [None]
    after an exception of [requests], an error status or a body that is not
    JSON. *)
Theorem http_get_never_raises (url : string) (c : Checker) :
  ∃ data,
    HTTPClient.get url c = (Ok data, log_queries [QHttp url] c)
    ∧ (∀ r j, http url = Responds r → ¬ 400 ≤ status_code r < 600 →
              body r = Some j → data = j)
    ∧ ((∃ f, http url = Fails f)
       ∨ (∃ r, http url = Responds r
               ∧ (400 ≤ status_code r < 600 ∨ body r = None)) →
       data = JNull).
Proof.
  exists (fetched url). split; [apply get_run|]. split.
  - intros r j Hr Hstatus Hbody. unfold fetched. rewrite Hr, Hbody.
    destruct (400 <=? status_code r) eqn:H1,
      (status_code r <? 600) eqn:H2; simpl; try done. lia.
  - apply fetched_fault.
Qed.

End http_client.

Lemma http_get_never_raises_witness :
  HTTPClient.get (W := Example.world) "https://registry.npmjs.org/toolx" blank
  = (Ok (JObj [("dist-tags", JObj [("latest", JStr "4.2.0")])]),
     log_queries [QHttp "https://registry.npmjs.org/toolx"] blank)
  ∧ HTTPClient.get (W := Example.world) "https://registry.npmjs.org/none" blank
    = (Ok JNull, log_queries [QHttp "https://registry.npmjs.org/none"] blank).
Proof.
  split.
  - destruct (http_get_never_raises (W := Example.world)
                "https://registry.npmjs.org/toolx" blank)
      as (data & Hrun & Hok & _).
    rewrite Hrun. f_equal. f_equal. eapply Hok; [reflexivity| |reflexivity].
    simpl. lia.
  - destruct (http_get_never_raises (W := Example.world)
                "https://registry.npmjs.org/none" blank)
      as (data & Hrun & _ & Hfault).
    rewrite Hrun. f_equal. f_equal. apply Hfault. left. by exists Timeout.
Defined.

(** ** The resolvers on the shape of the answer *)

Section shapes.
Context {W : World}.

(** The PyPI lookup on a response that is a JSON object: nothing without
    the key [info]; the version when [info] is an object with a string
    under [version] ([None] for a [null]); a [KeyError] when [info] is an
    object without [version], which no caller catches. *)
Theorem check_pypi_version_by_shape (package : string)
    (kvs : list (string * json)) (c : Checker) :
  fetched ("https://pypi.org/pypi/" +:+ package +:+ "/json") = JObj kvs →
  (assoc "info" kvs = None → (check_pypi_version package c).1 = Ok None)
  ∧ (∀ info v, assoc "info" kvs = Some (JObj info) →
               assoc "version" info = Some (JStr v) →
               (check_pypi_version package c).1 = Ok (Some v))
  ∧ (∀ info, assoc "info" kvs = Some (JObj info) →
             assoc "version" info = Some JNull →
             (check_pypi_version package c).1 = Ok None)
  ∧ (∀ info, assoc "info" kvs = Some (JObj info) →
             assoc "version" info = None →
             (check_pypi_version package c).1 = Raise (KeyError "version")).
Proof.
  intros Hf. unfold check_pypi_version, truthy_and_contains. st_unfold.
  rewrite get_run, Hf. unfold contains, getitem.
  repeat split.
  - intros Hinfo. rewrite Hinfo. by destruct kvs.
  - intros info v Hinfo Hv. rewrite Hinfo. destruct kvs; [done|]. simpl. by rewrite Hv.
  - intros info Hinfo Hv. rewrite Hinfo. destruct kvs; [done|]. simpl. by rewrite Hv.
  - intros info Hinfo Hv. rewrite Hinfo. destruct kvs; [done|]. simpl. by rewrite Hv.
Qed.

(** The npm lookup on a response that is a JSON object, likewise with
    [dist-tags] and [latest]. *)
Theorem check_npm_version_by_shape (package : string)
    (kvs : list (string * json)) (c : Checker) :
  fetched ("https://registry.npmjs.org/" +:+ package) = JObj kvs →
  (assoc "dist-tags" kvs = None → (check_npm_version package c).1 = Ok None)
  ∧ (∀ tags v, assoc "dist-tags" kvs = Some (JObj tags) →
               assoc "latest" tags = Some (JStr v) →
               (check_npm_version package c).1 = Ok (Some v))
  ∧ (∀ tags, assoc "dist-tags" kvs = Some (JObj tags) →
             assoc "latest" tags = None →
             (check_npm_version package c).1 = Raise (KeyError "latest")).
Proof.
  intros Hf. unfold check_npm_version, truthy_and_contains. st_unfold.
  rewrite get_run, Hf. unfold contains, getitem.
  repeat split.
  - intros Htags. rewrite Htags. by destruct kvs.
  - intros tags v Htags Hv. rewrite Htags. destruct kvs; [done|]. simpl. by rewrite Hv.
  - intros tags Htags Hv. rewrite Htags. destruct kvs; [done|]. simpl. by rewrite Hv.
Qed.

(** The release lookup on a response without a usable tag: nothing without
    the key [tag_name], an [AttributeError] when the tag is [null]. *)
Theorem check_github_releases_without_tag (repo_url owner repo : string)
    (kvs : list (string * json)) (c : Checker) :
  Re.search_github repo_url = Some (owner, repo) →
  fetched (releases_url owner repo) = JObj kvs →
  (assoc "tag_name" kvs = None →
   (check_github_releases repo_url c).1 = Ok None)
  ∧ (assoc "tag_name" kvs = Some JNull →
     (check_github_releases repo_url c).1 = Raise AttributeError).
Proof.
  intros Hs Hf. unfold check_github_releases, truthy_and_contains.
  rewrite Hs. st_unfold. fold (releases_url owner repo).
  rewrite get_run, Hf. unfold contains, getitem. split.
  - intros Htag. rewrite Htag. by destruct kvs.
  - intros Htag. rewrite Htag. by destruct kvs.
Qed.

(** The Homebrew query on a run of [brew] that exits with status 0 and
    prints JSON: nothing for an empty list and for a value that is not a
    list; for a list whose first element is an object, the string under
    [versions] and [stable], and nothing when either key is missing; an
    [AttributeError] when the first element is no object. *)
Theorem check_homebrew_version_by_output (formula : string) (data : json)
    (c : Checker) :
  brew formula = Completed 0 (Some data) →
  (data = JArr [] ∨ is_list data = false →
   (check_homebrew_version formula c).1 = Ok None)
  ∧ (∀ kvs rest, data = JArr (JObj kvs :: rest) →
       (assoc "versions" kvs = None →
        (check_homebrew_version formula c).1 = Ok None)
       ∧ (∀ versions, assoc "versions" kvs = Some (JObj versions) →
            (assoc "stable" versions = None →
             (check_homebrew_version formula c).1 = Ok None)
            ∧ (∀ v, assoc "stable" versions = Some (JStr v) →
                    (check_homebrew_version formula c).1 = Ok (Some v))))
  ∧ (∀ first rest, data = JArr (first :: rest) →
       (∀ kvs, first ≠ JObj kvs) →
       (check_homebrew_version formula c).1 = Raise AttributeError).
Proof.
  intros Hbrew. unfold check_homebrew_version, subprocess_run, json_loads.
  st_unfold. rewrite Hbrew. simpl. split; [|split].
  - intros [->|Hlist]; [done|]. destruct data; try done.
    all: by destruct (truthy _).
  - intros kvs rest ->. simpl. split.
    + intros Hv. by rewrite Hv.
    + intros versions Hv. rewrite Hv. simpl. split.
      * intros Hs. by rewrite Hs.
      * intros v Hs. by rewrite Hs.
  - intros first rest -> Hfirst. simpl.
    destruct first; try done. by destruct (Hfirst kvs).
Qed.

End shapes.

Lemma check_pypi_version_by_shape_witness :
  (check_pypi_version (W := Example.odd_world) "bare" blank).1
  = Raise (KeyError "version").
Proof.
  by apply (proj2 (proj2 (proj2
              (check_pypi_version_by_shape (W := Example.odd_world) "bare"
                 [("info", JObj [("name", JStr "bare")])] blank eq_refl)))
              [("name", JStr "bare")]).
Defined.

Lemma check_npm_version_by_shape_witness :
  (check_npm_version (W := Example.odd_world) "bare" blank).1
  = Raise (KeyError "latest").
Proof.
  by apply (proj2 (proj2
              (check_npm_version_by_shape (W := Example.odd_world) "bare"
                 [("dist-tags", JObj [("next", JStr "2.0.0-rc1")])] blank
                 eq_refl))
              [("next", JStr "2.0.0-rc1")]).
Defined.

Lemma check_github_releases_without_tag_witness :
  (check_github_releases (W := Example.odd_world)
     "https://github.com/acme/draft" blank).1
  = Raise AttributeError.
Proof.
  by apply (proj2 (check_github_releases_without_tag (W := Example.odd_world)
                     "https://github.com/acme/draft" "acme" "draft"
                     [("tag_name", JNull)] blank eq_refl eq_refl)).
Defined.

Lemma check_homebrew_version_by_output_witness :
  (check_homebrew_version (W := Example.odd_world) "names" blank).1
  = Raise AttributeError.
Proof.
  by apply (proj2 (proj2
              (check_homebrew_version_by_output (W := Example.odd_world)
                 "names" (JArr [JStr "toolx"]) blank eq_refl))
              (JStr "toolx") []).
Defined.

(** ** More on the update check *)

(** [map_m] over iterations of which each one that returns relates its
    item to what it leaves by [R] and the checkers before and after it by
    the preorder [I]. *)
Lemma map_m_inv {A B} (f : A → M B) (R : A → B → Prop)
    (I : Checker → Checker → Prop) :
  (∀ c, I c c) → (∀ c1 c2 c3, I c1 c2 → I c2 c3 → I c1 c3) →
  ∀ l : list A,
  (∀ x c y c', x ∈ l → f x c = (Ok y, c') → R x y ∧ I c c') →
  ∀ c l' c', map_m f l c = (Ok l', c') → Forall2 R l l' ∧ I c c'.
Proof.
  intros Hrefl Htrans l. induction l as [|x l IH]; intros Hf c l' c'; simpl.
  - st_unfold. intros [= <- <-]. by split.
  - st_unfold. destruct (f x c) as [[y| |] c1] eqn:Hx; [|done..].
    destruct (map_m f l c1) as [[ys| |] c2] eqn:Hl; [|done..].
    intros [= <- <-].
    destruct (Hf x c y c1) as [HR HI]; [by left|done|].
    destruct (IH (λ x c y c' Hin, Hf x c y c' (proj2 (elem_of_cons _ _ _) (or_intror Hin)))
                c1 ys c2 Hl) as [HRs HIs].
    split; [by constructor|by eapply Htrans].
Qed.

Lemma extends_refl (c : Checker) : extends c c.
Proof.
  repeat split; try done; exists []; by rewrite app_nil_r.
Qed.

Lemma extends_trans (c1 c2 c3 : Checker) :
  extends c1 c2 → extends c2 c3 → extends c1 c3.
Proof.
  intros (Hc & Ht & Hr & [us Hus] & [qs Hqs])
    (Hc' & Ht' & Hr' & [us' Hus'] & [qs' Hqs']).
  repeat split; try congruence.
  - exists (us ++ us'). by rewrite Hus', Hus, app_assoc.
  - exists (qs ++ qs'). by rewrite Hqs', Hqs, app_assoc.
Qed.

Lemma extends_record_run (us : list VersionUpdate) (qs : list query)
    (c : Checker) :
  extends c (record_run us qs c).
Proof. repeat split; simpl; by eexists. Qed.

Lemma extends_log_queries (qs : list query) (c : Checker) :
  extends c (log_queries qs c).
Proof. repeat split; simpl; try by eexists. exists []. by rewrite app_nil_r. Qed.

Section update_detector.
Context {W : World} {P : Packaging}.



(** A tool for which a version is found needs the key [current_version],
    and the key [description] when that version is newer: without, the
    check raises [KeyError], which nothing catches before [main], and
    records no update. *)
Theorem check_tool_missing_key (cat name : string)
    (tool_info : gmap string string) (l : string) (c : Checker) :
  latest tool_info = Ok (Some l) → l ≠ "" →
  (tool_info !! "current_version" = None →
   check_tool cat (name, tool_info) c
   = (Raise (KeyError "current_version"), log_queries (asked tool_info) c))
  ∧ (∀ stored, tool_info !! "current_version" = Some stored →
       _is_newer_version l stored = Ok true →
       tool_info !! "description" = None →
       check_tool cat (name, tool_info) c
       = (Raise (KeyError "description"), log_queries (asked tool_info) c)).
Proof.
  intros Hl Hne. rewrite check_tool_run. unfold detect. rewrite Hl.
  destruct (String.eqb_spec l ""); [done|]. split.
  - by intros ->.
  - intros stored -> Hnewer ->. rewrite is_newer_version_eq in Hnewer.
    injection Hnewer as ->. done.
Qed.

Lemma same_but_version_apply (o : option VersionUpdate)
    (tool_info : gmap string string) :
  same_but_version tool_info (apply_update o tool_info).
Proof.
  intros key Hv Hd. destruct o as [u|]; [|done]. simpl.
  by rewrite !lookup_insert_ne.
Qed.

Lemma check_tool_frame (cat : string) (item item' : string * gmap string string)
    (c c' : Checker) :
  check_tool cat item c = (Ok item', c') →
  (item'.1 = item.1 ∧ same_but_version item.2 item'.2) ∧ extends c c'.
Proof.
  destruct item as [name tool_info]. rewrite check_tool_run.
  destruct (detect cat name tool_info) as [o| |]; [|done..].
  intros [= <- <-]. simpl. split; [split; [done|]|].
  - apply same_but_version_apply.
  - apply extends_record_run.
Qed.

Lemma check_category_frame
    (item item' : string * list (string * gmap string string))
    (c c' : Checker) :
  check_category item c = (Ok item', c') →
  (item'.1 = item.1 ∧ same_tools item.2 item'.2) ∧ extends c c'.
Proof.
  destruct item as [cat tools]. unfold check_category. st_unfold.
  destruct (map_m (check_tool cat) tools c) as [[tools'| |] c1] eqn:Hrun;
    [|done..].
  intros [= <- <-]. simpl.
  destruct (map_m_inv (check_tool cat)
              (λ t t', t'.1 = t.1 ∧ same_but_version t.2 t'.2) extends
              extends_refl extends_trans tools
              (λ x c y c' _, check_tool_frame cat x y c c') c tools' c1 Hrun)
    as [Htools Hext].
  done.
Qed.

(** A run of the update check that returns keeps the layout of the tracked
    tools: the same categories with the same tools in the same order, each
    entry changed at most under [current_version] and [last_updated]; the
    rest of the configuration, the trending tools and the document are as
    before, and the updates found so far are kept. *)
Theorem check_tool_updates_keeps_layout (c c' : Checker) :
  check_tool_updates c = (Ok tt, c') →
  Forall2 (λ cat cat', cat'.1 = cat.1 ∧ same_tools cat.2 cat'.2)
    (tracked_tools (config c)) (tracked_tools (config c'))
  ∧ github_topics (config c') = github_topics (config c)
  ∧ last_update_check (config c') = last_update_check (config c)
  ∧ saved_trending_tools (config c') = saved_trending_tools (config c)
  ∧ trending_tools c' = trending_tools c
  ∧ readme c' = readme c
  ∧ ∃ us, updates_found c' = updates_found c ++ us.
Proof.
  unfold check_tool_updates. st_unfold.
  destruct (map_m check_category (tracked_tools (config c)) c)
    as [[tracked'| |] c1] eqn:Hrun; [|done..].
  intros [= <-]. simpl.
  destruct (map_m_inv check_category
              (λ cat cat', cat'.1 = cat.1 ∧ same_tools cat.2 cat'.2) extends
              extends_refl extends_trans (tracked_tools (config c))
              (λ x c y c' _, check_category_frame x y c c') c tracked' c1 Hrun)
    as [Htracked (Hc & Ht & Hr & Hus & _)].
  rewrite Hc. done.
Qed.

Lemma configured_apply (key : string) (o : option VersionUpdate)
    (tool_info : gmap string string) :
  key ≠ "current_version" → key ≠ "last_updated" →
  configured key (apply_update o tool_info) = configured key tool_info.
Proof.
  intros Hv Hd. unfold configured.
  by rewrite (same_but_version_apply o tool_info key Hv Hd).
Qed.

Lemma get_latest_version_apply (o : option VersionUpdate)
    (tool_info : gmap string string) :
  _get_latest_version (apply_update o tool_info)
  = _get_latest_version tool_info.
Proof.
  unfold _get_latest_version. by rewrite !configured_apply.
Qed.

Lemma newer_by_spec_irrefl {PO : PackagingOrder P} (v : string) :
  newer_by_spec v v = false.
Proof.
  unfold newer_by_spec. destruct (parse v) as [a|] eqn:Ha.
  - by apply version_gt_irrefl.
  - by apply bool_decide_eq_false_2; intros [].
Qed.

(** What a pass has checked, the next pass leaves alone. *)
Lemma detected_checked {PO : PackagingOrder P} (cat : string)
    (item : string * gmap string string) :
  ready item.2 →
  ready (checked_tool cat item).2
  ∧ detected cat (checked_tool cat item) = None.
Proof.
  destruct item as [name tool_info]. intros Hready.
  pose proof Hready as ([v Hv] & [stored Hs] & [d Hd]). simpl in *.
  unfold checked_tool. simpl.
  destruct (detected cat (name, tool_info)) as [u|] eqn:Hu; simpl.
  - destruct (detected_Some _ _ _ _ Hu)
      as (l & old & d' & Hl & Hne & _ & _ & _ & ->). simpl.
    assert (latest (<["last_updated":=get_current_timestamp]>
                      (<["current_version":=l]> tool_info)) = Ok (Some l))
      as Hl'.
    { change (latest (apply_update
                (Some {| tool := name; category := cat; old_version := old;
                         new_version := l; description := d' |}) tool_info)
              = Ok (Some l)).
      unfold latest. by rewrite get_latest_version_apply. }
    split.
    + split; [by eexists|]. split.
      * rewrite lookup_insert_ne by done. rewrite lookup_insert_eq. by eexists.
      * rewrite !lookup_insert_ne by done. by eexists.
    + unfold detected, detect. simpl. rewrite Hl'.
      destruct (String.eqb l ""); [done|].
      rewrite lookup_insert_ne by done. rewrite lookup_insert_eq.
      by rewrite newer_by_spec_irrefl.
  - done.
Qed.

Lemma checked_tool_again {PO : PackagingOrder P} (cat : string)
    (item : string * gmap string string) :
  ready item.2 →
  checked_tool cat (checked_tool cat item) = checked_tool cat item.
Proof.
  intros Hready. destruct (detected_checked cat item Hready) as [_ Hnone].
  unfold checked_tool at 1. by rewrite Hnone.
Qed.

End update_detector.

Lemma flat_map_fmap {A B C} (f : B → list C) (g : A → B) (l : list A) :
  flat_map f (g <$> l) = flat_map (λ x, f (g x)) l.
Proof.
  induction l as [|x l IH]; [done|]. rewrite fmap_cons. cbn [flat_map].
  by rewrite IH.
Qed.

Lemma flat_map_ext_elem {A B} (f g : A → list B) (l : list A) :
  (∀ x, x ∈ l → f x = g x) → flat_map f l = flat_map g l.
Proof.
  induction l as [|x l IH]; intros Hfg; simpl; [done|].
  rewrite Hfg by left. rewrite IH; [done|]. intros y Hy. apply Hfg. by right.
Qed.

Lemma flat_map_nil {A B} (f : A → list B) (l : list A) :
  (∀ x, x ∈ l → f x = []) → flat_map f l = [].
Proof.
  induction l as [|x l IH]; intros Hf; simpl; [done|].
  rewrite Hf by left. apply IH. intros y Hy. apply Hf. by right.
Qed.

Lemma fmap_id_elem {A} (f : A → A) (l : list A) :
  (∀ x, x ∈ l → f x = x) → f <$> l = l.
Proof.
  induction l as [|x l IH]; intros Hf; [done|]. rewrite fmap_cons.
  rewrite Hf by left. rewrite IH; [done|]. intros y Hy. apply Hf. by right.
Qed.

Section second_run.
Context {W : World} {P : Packaging} {PO : PackagingOrder P}.

Lemma asked_checked (cat : string) (item : string * gmap string string) :
  asked (checked_tool cat item).2 = asked item.2.
Proof.
  unfold asked, checked_tool. simpl. by rewrite get_latest_version_apply.
Qed.

(** The update check reaches a fixed point in one run: run again in the
    same world, over tools whose check raises nothing, it makes the same
    requests, finds no update and leaves every entry as the first run left
    it. *)
Theorem check_tool_updates_twice (c : Checker) :
  (∀ cat name tool_info,
     tracks (tracked_tools (config c)) cat name tool_info → ready tool_info) →
  ∃ c',
    check_tool_updates c = (Ok tt, c')
    ∧ check_tool_updates c'
      = (Ok tt, log_queries (run_queries (tracked_tools (config c))) c').
Proof.
  intros Hready. eexists. split; [by apply check_tool_updates_ready|].
  set (tracked := tracked_tools (config c)).
  assert (∀ cat tools name tool_info,
            (cat, tools) ∈ tracked → (name, tool_info) ∈ tools →
            ready tool_info) as Hall.
  { intros cat tools name tool_info Hcat Htool. apply (Hready cat name).
    by exists tools. }
  rewrite check_tool_updates_ready; simpl.
  - fold tracked.
    assert (checked_category <$> (checked_category <$> tracked)
            = checked_category <$> tracked) as ->.
    { apply fmap_id_elem. intros item' Hin'.
      apply list_elem_of_fmap in Hin' as ([cat tools] & -> & Hin).
      unfold checked_category. simpl. f_equal.
      apply fmap_id_elem. intros entry' Htool'.
      apply list_elem_of_fmap in Htool' as ([name tool_info] & -> & Htool).
      apply (checked_tool_again cat (name, tool_info)).
      by apply (Hall cat tools name). }
    assert (run_updates (checked_category <$> tracked) = []) as ->.
    { unfold run_updates. rewrite flat_map_fmap. apply flat_map_nil.
      intros [cat tools] Hin. simpl. rewrite flat_map_fmap.
      apply flat_map_nil. intros [name tool_info] Htool.
      destruct (detected_checked cat (name, tool_info)) as [_ ->]; [|done].
      by apply (Hall cat tools name). }
    assert (run_queries (checked_category <$> tracked) = run_queries tracked)
      as ->.
    { unfold run_queries. rewrite flat_map_fmap. apply flat_map_ext_elem.
      intros [cat tools] Hin. simpl. rewrite flat_map_fmap.
      apply flat_map_ext_elem. intros item Htool. apply asked_checked. }
    unfold set_tracked_tools, record_run, add_updates, log_queries. simpl.
    by rewrite app_nil_r.
  - fold tracked. intros cat name tool_info'.
    intros (tool_info & (tools & Hcat & Htool) & ->)%tracks_checked.
    apply (detected_checked cat (name, tool_info)).
    by apply (Hall cat tools name).
Qed.

End second_run.

Lemma check_tool_updates_twice_witness :
  ∃ c',
    check_tool_updates (W := Example.world) (P := Release.packaging)
      Example.run_toolx = (Ok tt, c')
    ∧ check_tool_updates (W := Example.world) (P := Release.packaging) c'
      = (Ok tt, log_queries [QBrew "toolx"] c').
Proof.
  destruct (check_tool_updates_twice (W := Example.world)
              (PO := release_order) Example.run_toolx example_ready)
    as (c' & Hrun & Hagain).
  exists c'. split; [done|]. rewrite Hagain. reflexivity.
Defined.

Lemma check_tool_missing_key_witness :
  check_tool (W := Example.world) (P := Release.packaging) "ai_frameworks"
    ("ToolX", Example.toolx_undescribed) blank
  = (Raise (KeyError "description"),
     log_queries [QHttp "https://pypi.org/pypi/toolx/json"] blank).
Proof.
  etrans.
  - apply (proj2 (check_tool_missing_key (W := Example.world)
                    (P := Release.packaging) "ai_frameworks" "ToolX"
                    Example.toolx_undescribed "2.0.0" blank
                    ltac:(by vm_compute) ltac:(done)) "1.0.0");
      by vm_compute.
  - by vm_compute.
Defined.


Lemma check_tool_updates_keeps_layout_witness :
  ∃ c', check_tool_updates (W := Example.world) (P := Release.packaging)
          Example.run_toolx = (Ok tt, c')
        ∧ (tracked_tools (config c')).*1 = ["ai_frameworks"]
        ∧ readme c' = readme Example.run_toolx.
Proof.
  destruct (check_tool_updates (W := Example.world) (P := Release.packaging)
              Example.run_toolx) as [r c'] eqn:Hrun.
  assert (r = Ok tt) as -> by (by vm_compute in Hrun; simplify_eq).
  exists c'. split; [done|].
  destruct (check_tool_updates_keeps_layout _ _ Hrun)
    as (Hlayout & _ & _ & _ & _ & Hreadme & _).
  split; [|done]. simpl in Hlayout.
  inversion Hlayout as [|? ? ? ? [Hcat _] Hrest]; subst.
  inversion Hrest; subst. simpl. by rewrite Hcat.
Defined.

(** ** More on the trend scanner *)

Lemma add_trendings_app (entries entries' : list json) (c : Checker) :
  add_trendings entries' (add_trendings entries c)
  = add_trendings (entries ++ entries') c.
Proof. unfold add_trendings; simpl. by rewrite app_assoc. Qed.

Lemma add_trendings_log_queries (entries : list json) (qs : list query)
    (c : Checker) :
  log_queries qs (add_trendings entries c)
  = add_trendings entries (log_queries qs c).
Proof. done. Qed.

Lemma getitem_modelled (key : string) (data : json) :
  getitem key data ≠ Unmodelled.
Proof. destruct data as [| | | | |kvs]; try done. simpl. by case_match. Qed.

Lemma trending_entry_modelled (topic : string) (repo : json) :
  trending_entry topic repo ≠ Unmodelled.
Proof.
  unfold trending_entry, mbind, result_bind, res_bind.
  destruct (getitem "name" repo) eqn:H1; [|done|by apply getitem_modelled in H1].
  destruct (getitem "html_url" repo) eqn:H2;
    [|done|by apply getitem_modelled in H2].
  destruct (getitem "description" repo) eqn:H3;
    [|done|by apply getitem_modelled in H3].
  destruct (getitem "stargazers_count" repo) eqn:H4;
    [|done|by apply getitem_modelled in H4].
  destruct (getitem "language" repo) eqn:H5;
    [|done|by apply getitem_modelled in H5].
  by destruct (getitem "created_at" repo) eqn:H6;
    [|done|apply getitem_modelled in H6].
Qed.

Section scanner.
Context {W : World}.

(** One repository: it is kept, passed over, or ends the scan of the topic
    with an exception; nothing else changes. *)
Lemma scan_repo_run (topic : string) (repo : json) (c : Checker) :
  (∃ entry, scan_repo topic repo c = (Ok tt, add_trending entry c))
  ∨ scan_repo topic repo c = (Ok tt, c)
  ∨ ∃ e, scan_repo topic repo c = (Raise e, c).
Proof.
  unfold scan_repo. st_unfold.
  destruct (getitem "stargazers_count" repo) as [s|e|] eqn:Hs.
  - destruct (gt_int s 50) as [[|]|e|] eqn:Hgt.
    + destruct (trending_entry topic repo) as [entry|e|] eqn:He.
      * left. by exists entry.
      * right. right. by exists e.
      * by apply trending_entry_modelled in He.
    + right. by left.
    + right. right. by exists e.
    + by destruct s.
  - right. right. by exists e.
  - by apply getitem_modelled in Hs.
Qed.

Lemma for_each_scan_repo (topic : string) (repos : list json) (c : Checker) :
  ∃ entries,
    for_each repos (scan_repo topic) c = (Ok tt, add_trendings entries c)
    ∨ ∃ e, for_each repos (scan_repo topic) c
           = (Raise e, add_trendings entries c).
Proof.
  revert c. induction repos as [|repo repos IH]; intros c; simpl.
  - exists []. left. by rewrite add_trendings_nil.
  - unfold st_bind.
    destruct (scan_repo_run topic repo c) as [[entry ->]|[->|[e ->]]].
    + destruct (IH (add_trending entry c)) as [entries Hrest].
      exists (entry :: entries). by rewrite <- !add_trendings_cons.
    + apply IH.
    + exists []. right. exists e. by rewrite add_trendings_nil.
Qed.

Lemma search_topic_run (topic : string) (c : Checker) :
  ∃ entries,
    search_topic topic c
    = (Ok tt, add_trendings entries (log_queries [QHttp (search_url topic)] c)).
Proof.
  unfold search_topic, truthy_and_contains. st_unfold. rewrite get_run.
  set (c1 := log_queries _ c).
  destruct (truthy (fetched (search_url topic)));
    [|exists []; by rewrite add_trendings_nil].
  destruct (contains "items" (fetched (search_url topic))) as [[|]|e|] eqn:Hc.
  - destruct (getitem "items" (fetched (search_url topic))) as [items|e|] eqn:Hi.
    + destruct (iter items) as [repos|e|] eqn:Hit.
      * destruct (for_each_scan_repo topic repos c1) as [entries [->|[e ->]]];
          by exists entries.
      * exists []. by rewrite add_trendings_nil.
      * by destruct items.
    + exists []. by rewrite add_trendings_nil.
    + by apply getitem_modelled in Hi.
  - exists []. by rewrite add_trendings_nil.
  - exists []. by rewrite add_trendings_nil.
  - by destruct (fetched (search_url topic)).
Qed.

(** The trend scan never raises, whatever the search answers: it asks once
    for every configured topic, in order, and all it does to the checker is
    to append entries to the trending tools. *)
Theorem search_trending_tools_never_raises (c : Checker) :
  ∃ entries,
    search_trending_tools c
    = (Ok tt,
       add_trendings entries
         (log_queries ((λ topic, QHttp (search_url topic))
                         <$> github_topics (config c)) c)).
Proof.
  unfold search_trending_tools. st_unfold.
  generalize (github_topics (config c)) as topics. intros topics. revert c.
  induction topics as [|topic topics IH]; intros c; simpl.
  - exists []. by rewrite add_trendings_nil, log_queries_nil.
  - unfold st_bind. destruct (search_topic_run topic c) as [entries ->].
    destruct (IH (add_trendings entries
                    (log_queries [QHttp (search_url topic)] c)))
      as [entries' ->].
    exists (entries ++ entries').
    by rewrite add_trendings_log_queries, add_trendings_app, log_queries_app.
Qed.

Lemma scan_repo_malformed (topic : string) (repo : json) (c : Checker) :
  malformed repo = true → ∃ e, scan_repo topic repo c = (Raise e, c).
Proof.
  unfold malformed, scan_repo. st_unfold.
  intros [Hs|[Hp Hc]%andb_true_iff]%orb_true_iff.
  - destruct repo as [| | | | |kvs]; try by eexists.
    simpl in *. apply negb_true_iff, bool_decide_eq_false in Hs.
    destruct (assoc "stargazers_count" kvs) as [v|] eqn:Hv; [|by eexists].
    destruct Hs. by eexists.
  - unfold popular, stars, field in Hp.
    destruct repo as [| | | | |kvs]; try done.
    unfold getitem at 1.
    destruct (assoc "stargazers_count" kvs) as [[| |z| | |]|] eqn:Hz;
      try done.
    simpl in Hp. simpl. rewrite Hp.
    apply negb_true_iff in Hc. unfold candidate, has_field, stars, field in Hc.
    rewrite Hz in Hc. simpl in Hc.
    unfold trending_entry, getitem, mbind, result_bind, res_bind. rewrite Hz.
    destruct (assoc "name" kvs); [|by eexists].
    destruct (assoc "html_url" kvs); [|by eexists].
    destruct (assoc "description" kvs); [|by eexists].
    destruct (assoc "language" kvs); [|by eexists].
    destruct (assoc "created_at" kvs); [|by eexists].
    done.
Qed.

(** A malformed repository ends the scan of its topic without a trace: the
    entries of the candidates before it are kept, the repositories after it
    are dropped however many stars they have, and nothing is raised. *)
Theorem search_topic_stops_at_malformed (topic : string)
    (kvs : list (string * json)) (good : list json) (bad : json)
    (rest : list json) (c : Checker) :
  fetched (search_url topic) = JObj kvs →
  assoc "items" kvs = Some (JArr (good ++ bad :: rest)) →
  forallb candidate good = true → malformed bad = true →
  search_topic topic c
  = (Ok tt,
     add_trendings (entry_of topic <$> filter popular good)
       (log_queries [QHttp (search_url topic)] c)).
Proof.
  intros Hf Hitems Hgood Hbad.
  unfold search_topic, truthy_and_contains. st_unfold.
  rewrite get_run, Hf.
  destruct kvs as [|kv kvs]; [done|]. simpl truthy. cbv iota.
  unfold contains, getitem. rewrite Hitems.
  rewrite bool_decide_eq_true_2 by done. simpl.
  set (c1 := log_queries _ c).
  assert (∃ e, for_each (good ++ bad :: rest) (scan_repo topic) c1
               = (Raise e,
                  add_trendings (entry_of topic <$> filter popular good) c1))
    as [e ->]; [|done].
  clearbody c1. clear Hitems Hf. revert c1.
  induction good as [|repo good IH]; intros c1.
  - destruct (scan_repo_malformed topic bad c1 Hbad) as [e He].
    exists e. simpl. unfold st_bind. by rewrite He, add_trendings_nil.
  - simpl in Hgood. apply andb_true_iff in Hgood as [Hrepo Hgood].
    simpl. unfold st_bind. rewrite (scan_repo_candidate _ _ _ Hrepo).
    destruct (popular repo) eqn:Hp.
    + destruct (IH Hgood (add_trending (entry_of topic repo) c1)) as [e He].
      exists e. rewrite He.
      rewrite filter_cons_True by by rewrite Hp.
      by rewrite fmap_cons, add_trendings_cons.
    + destruct (IH Hgood c1) as [e He]. exists e. rewrite He.
      rewrite filter_cons_False; [done|]. rewrite Hp. by intros [].
Qed.

End scanner.

Lemma search_topic_stops_at_malformed_witness :
  search_topic (W := Example.odd_world) "ai-agents" blank
  = (Ok tt,
     add_trendings [entry_of "ai-agents" (Example.repo "b" 60)]
       (log_queries [QHttp Example.search_ai_agents] blank)).
Proof.
  exact (search_topic_stops_at_malformed (W := Example.odd_world)
           "ai-agents"
           [("items", JArr [Example.repo "b" 60; JObj [("name", JStr "x")];
                            Example.repo "e" 900])]
           [Example.repo "b" 60] (JObj [("name", JStr "x")])
           [Example.repo "e" 900] blank eq_refl eq_refl eq_refl eq_refl).
Defined.

(** ** More on the Markdown report *)

Lemma join_unlines (l rest : list string) :
  join LF (l ++ "" :: rest)
  = unlines l +:+ match rest with [] => "" | _ :: _ => LF +:+ join LF rest end.
Proof.
  induction l as [|x l IH].
  - simpl. destruct rest; [done|]. by rewrite !append_nil_l.
  - rewrite <- app_comm_cons. cbn [unlines].
    destruct (l ++ "" :: rest) as [|y l'] eqn:Hl; [by destruct l|].
    rewrite join_cons, IH. by rewrite !append_assoc.
Qed.

Lemma section_lines_titled (s : ReportGenerator.section) :
  is_Some (ReportGenerator.title s) →
  ∃ l, ReportGenerator.section_lines s = Ok (l ++ [""])
       ∧ unlines l = section_text s.
Proof.
  intros [t Ht]. unfold ReportGenerator.section_lines, section_text.
  rewrite Ht. eexists. split.
  - by rewrite !app_assoc.
  - simpl. by destruct (ReportGenerator.content s), (ReportGenerator.items s).
Qed.

Lemma sections_lines_titled (sections : list ReportGenerator.section) :
  Forall (λ s, is_Some (ReportGenerator.title s)) sections →
  ∃ ls, ReportGenerator.sections_lines sections = Ok ls
        ∧ (sections = [] → ls = [])
        ∧ (sections ≠ [] →
           ls ≠ [] ∧ join LF ls = join LF (section_text <$> sections)).
Proof.
  induction 1 as [|s sections Hs _ (ls & Hls & Hnil & Hjoin)].
  - exists []. by repeat split.
  - destruct (section_lines_titled s Hs) as (l & Hl & Htext).
    exists ((l ++ [""]) ++ ls). split; [|split; [done|]].
    + cbn [ReportGenerator.sections_lines]. by rewrite Hl, Hls.
    + intros _. split; [by destruct l|].
      rewrite <- app_assoc. cbn [app].
      rewrite join_unlines, Htext, fmap_cons.
      destruct sections as [|s' sections].
      * rewrite Hnil by done. simpl. by rewrite append_nil_r.
      * destruct Hjoin as [Hne ->]; [done|].
        destruct ls as [|x ls]; [done|]. by rewrite fmap_cons, join_cons.
Qed.

Section report_layout.
Context {W : World}.

Lemma report_of_titled_sections (report_title : string)
    (sections : list ReportGenerator.section) :
  Forall (λ s, is_Some (ReportGenerator.title s)) sections →
  sections ≠ [] →
  ReportGenerator.generate_markdown_report report_title sections
  = Ok (title_and_timestamp report_title +:+ LF
        +:+ join LF (section_text <$> sections)).
Proof.
  unfold ReportGenerator.generate_markdown_report. intros Hall Hne.
  destruct (sections_lines_titled sections Hall) as (ls & -> & _ & Hjoin).
  destruct (Hjoin Hne) as [Hls <-].
  unfold mbind, result_bind, res_bind.
  destruct ls as [|x ls]; [done|]. cbn [app].
  rewrite !join_cons. unfold title_and_timestamp.
  by rewrite !append_assoc.
Qed.

(** The layout of a report with sections: the title line and the timestamp
    line, a blank line, and the sections in order with a blank line between
    them; a section without the key [title] makes the generator raise
    [KeyError]. *)
Theorem generate_markdown_report_layout (report_title : string)
    (sections : list ReportGenerator.section) :
  (Exists (λ s, ReportGenerator.title s = None) sections →
   ReportGenerator.generate_markdown_report report_title sections
   = Raise (KeyError "title"))
  ∧ (Forall (λ s, is_Some (ReportGenerator.title s)) sections →
     sections ≠ [] →
     ReportGenerator.generate_markdown_report report_title sections
     = Ok (title_and_timestamp report_title +:+ LF
           +:+ join LF (section_text <$> sections))).
Proof.
  split; [|apply report_of_titled_sections].
  unfold ReportGenerator.generate_markdown_report. intros Hex.
  assert (ReportGenerator.sections_lines sections = Raise (KeyError "title"))
    as ->; [|done].
  induction sections as [|s sections IH]; [by inversion Hex|].
  cbn [ReportGenerator.sections_lines].
  unfold ReportGenerator.section_lines at 1.
  destruct (ReportGenerator.title s) as [t|] eqn:Ht; [|done].
  inversion Hex as [? ? Hs|? ? Hrest]; subst; [congruence|].
  by rewrite (IH Hrest).
Qed.

End report_layout.

Lemma generate_markdown_report_layout_witness :
  ReportGenerator.generate_markdown_report (W := Example.world)
    "Forum" [Example.notes; Example.notes]
  = Ok ("# Forum" +:+ LF +:+ "*Generated: 2026-01-15 09:30:00*" +:+ LF +:+ LF
        +:+ "## Notes" +:+ LF +:+ LF +:+ "## Notes" +:+ LF).
Proof.
  etrans.
  - apply (proj2 (generate_markdown_report_layout (W := Example.world)
                    "Forum" [Example.notes; Example.notes])).
    + repeat constructor; by eexists.
    + done.
  - by vm_compute.
Defined.

(** ** The summary of a run *)

Lemma trending_items_length (l : list json) (items : list string) :
  trending_items l = Ok items → length items = length l.
Proof.
  revert items. induction l as [|t l IH]; intros items; simpl.
  - by intros [= <-].
  - unfold mbind, result_bind, res_bind.
    destruct (trending_item t); [|done..].
    destruct (trending_items l) as [items'| |]; [|done..].
    intros [= <-]. simpl. by rewrite (IH items').
Qed.

Section summary.
Context {W : World}.

Lemma report_starts_with_title (report_title doc : string)
    (sections : list ReportGenerator.section) :
  ReportGenerator.generate_markdown_report report_title sections = Ok doc →
  ∃ rest, doc = "# " +:+ report_title +:+ LF +:+ rest.
Proof.
  unfold ReportGenerator.generate_markdown_report, mbind, result_bind, res_bind.
  destruct (ReportGenerator.sections_lines sections) as [ls| |]; [|done..].
  intros [= <-]. eexists. by rewrite append_assoc.
Qed.

Lemma generate_summary_nothing (c : Checker) :
  generate_summary c = Ok "No updates found."
  ↔ updates_found c = [] ∧ trending_tools c = [].
Proof.
  unfold generate_summary. split.
  - destruct (updates_found c) as [|u us], (trending_tools c) as [|t ts];
      [done|..];
      unfold mbind, result_bind, res_bind;
      (destruct (summary_sections _) as [sections| |]; [|done..]);
      intros [rest Hdoc]%report_starts_with_title;
      rewrite append_cons in Hdoc; discriminate Hdoc.
  - by intros [-> ->].
Qed.

(** The summary is the sentence [No updates found.] exactly when the run
    found no update and no trending tool. *)
Theorem generate_summary_nothing_found (c : Checker) :
  generate_summary c = Ok "No updates found."
  ↔ updates_found c = [] ∧ trending_tools c = [].
Proof. apply generate_summary_nothing. Qed.

(** Every section of the summary has a title and carries items, and there
    are sections unless nothing was found: the summary shows no empty
    section, and the report generator does not raise on it. *)
Theorem summary_sections_carry_items (c : Checker)
    (sections : list ReportGenerator.section) :
  summary_sections c = Ok sections →
  Forall (λ s, is_Some (ReportGenerator.title s) ∧ carries_items s = true)
    sections
  ∧ (sections = [] ↔ updates_found c = [] ∧ trending_tools c = []).
Proof.
  unfold summary_sections.
  destruct (updates_found c) as [|u us], (trending_tools c) as [|t ts].
  - intros [= <-]. by split.
  - unfold mbind, result_bind, res_bind.
    destruct (trending_items _) as [items| |] eqn:Hitems; [|done..].
    intros [= <-]. apply trending_items_length in Hitems.
    split; [|by split; [|intros []]].
    constructor; [|done]. split; [by eexists|].
    unfold carries_items. simpl. by destruct items.
  - intros [= <-]. split; [|by split; [|intros []]].
    constructor; [|done]. split; [by eexists|done].
  - unfold mbind, result_bind, res_bind.
    destruct (trending_items _) as [items| |] eqn:Hitems; [|done..].
    intros [= <-]. apply trending_items_length in Hitems.
    split; [|by split; [|intros []]].
    constructor; [by split; [eexists|]|].
    constructor; [|done]. split; [by eexists|].
    unfold carries_items. simpl. by destruct items.
Qed.

(** The summary of a run that found updates and no trending tool: the
    title and the timestamp, a blank line, the heading with the number of
    updates and one bullet for each update, in the order found. *)
Theorem generate_summary_of_updates (c : Checker) :
  updates_found c ≠ [] → trending_tools c = [] →
  generate_summary c
  = Ok (title_and_timestamp "Update Summary" +:+ LF
        +:+ unlines (("## Tool Updates Found ("
                      +:+ decimal (length (updates_found c)) +:+ ")")
                     :: map (λ u, "- " +:+ update_item u) (updates_found c))).
Proof.
  intros Hupdates Htrending. unfold generate_summary, summary_sections.
  rewrite Htrending. destruct (updates_found c) as [|u us] eqn:Hus; [done|].
  unfold mbind, result_bind, res_bind.
  rewrite report_of_titled_sections; [|by repeat constructor; eexists|done].
  f_equal. f_equal. f_equal. unfold section_text. simpl.
  by rewrite map_map.
Qed.

End summary.

Lemma summary_sections_carry_items_witness :
  ∃ sections,
    summary_sections (Example.run_recorded "ai_frameworks") = Ok sections
    ∧ carries_items <$> sections = [true].
Proof.
  eexists. split; [reflexivity|].
  pose proof (summary_sections_carry_items
                (Example.run_recorded "ai_frameworks") _ eq_refl) as [Hall _].
  inversion Hall as [|? ? [_ Hitems] Hrest]; subst. simpl. by rewrite Hitems.
Defined.

Lemma generate_summary_of_updates_witness :
  generate_summary (W := Example.world) (Example.run_recorded "ai_frameworks")
  = Ok ("# Update Summary" +:+ LF
        +:+ "*Generated: 2026-01-15 09:30:00*" +:+ LF +:+ LF
        +:+ "## Tool Updates Found (1)" +:+ LF
        +:+ "- **ToolX**: 1.0.0 " +:+ ARROW +:+ " 1.1.0" +:+ LF).
Proof.
  etrans.
  - by apply (generate_summary_of_updates (W := Example.world)
                (Example.run_recorded "ai_frameworks")).
  - by vm_compute.
Defined.

(** ** Whole runs *)

Section whole_run.
Context {W : World} {P : Packaging}.

Lemma update_readme_run (c : Checker) :
  (∃ r, update_readme c = (r, c) ∧ (readme c = None → r = Ok tt))
  ∨ ∃ old text, readme c = Some old
                ∧ update_readme c = (Ok tt, set_readme text c).
Proof.
  unfold update_readme. st_unfold. cbv beta iota delta [id].
  destruct (readme c) as [old|]; [|left; by eexists].
  destruct (rewrite_version_cells _ old) as [text1| |];
    [|left; by eexists..].
  destruct (trending_tools c) as [|t ts] eqn:Ht.
  - destruct (rewrite_generated text1) as [text2| |];
      [|left; by eexists..].
    right. by eexists _, _.
  - destruct (_add_trending_section _ text1) as [text2| |];
      [|left; by eexists..].
    destruct (rewrite_generated text2) as [text3| |];
      [|left; by eexists..].
    right. by eexists _, _.
Qed.

Lemma update_readme_frame (c c' : Checker) (r : result unit) :
  update_readme c = (r, c') →
  config c' = config c ∧ updates_found c' = updates_found c
  ∧ trending_tools c' = trending_tools c ∧ queries c' = queries c
  ∧ (r ≠ Ok tt → c' = c)
  ∧ (readme c = None → r = Ok tt ∧ c' = c).
Proof.
  intros Hrun.
  destruct (update_readme_run c)
    as [(r0 & Hsame & Hnone)|(old & text & Hold & Hwrite)].
  - rewrite Hsame in Hrun. injection Hrun as <- <-.
    split_and!; try done. intros Hmissing. by split; [apply Hnone|].
  - rewrite Hwrite in Hrun. injection Hrun as <- <-.
    split_and!; try done. intros Hmissing. congruence.
Qed.

(** [update_readme] changes the document and nothing else, and writes it
    only once all three rewrites are done: when one of them raises, and
    when there is no [README.md], the checker and the file are as
    before; a missing [README.md] is no error for the caller. *)
Theorem update_readme_writes_readme_only (c c' : Checker) (r : result unit) :
  update_readme c = (r, c') →
  config c' = config c ∧ updates_found c' = updates_found c
  ∧ trending_tools c' = trending_tools c ∧ queries c' = queries c
  ∧ (r ≠ Ok tt → c' = c)
  ∧ (readme c = None → r = Ok tt ∧ c' = c).
Proof. apply update_readme_frame. Qed.

Lemma map_m_extends {A B} (f : A → M B) (l : list A) (c : Checker) :
  (∀ x c, extends c (f x c).2) → extends c (map_m f l c).2.
Proof.
  intros Hf. revert c. induction l as [|x l IH]; intros c; simpl.
  - apply extends_refl.
  - st_unfold. pose proof (Hf x c) as Hx.
    destruct (f x c) as [[y| |] c1]; [|done..].
    pose proof (IH c1) as Hl.
    destruct (map_m f l c1) as [[ys| |] c2]; simpl in *;
      by eapply extends_trans.
Qed.

Lemma check_tool_extends (cat : string) (item : string * gmap string string)
    (c : Checker) :
  extends c (check_tool cat item c).2.
Proof.
  destruct item as [name tool_info]. rewrite check_tool_run.
  destruct (detect cat name tool_info); simpl;
    auto using extends_record_run, extends_log_queries.
Qed.

Lemma check_category_extends
    (item : string * list (string * gmap string string)) (c : Checker) :
  extends c (check_category item c).2.
Proof.
  destruct item as [cat tools]. unfold check_category. st_unfold.
  pose proof (map_m_extends (check_tool cat) tools c (check_tool_extends cat))
    as Hext.
  by destruct (map_m (check_tool cat) tools c) as [[tools'| |] c1].
Qed.

(** When the update check raises, it has stored nothing. *)
Lemma check_tool_updates_raises (c c' : Checker) (e : exn) :
  check_tool_updates c = (Raise e, c') → extends c c'.
Proof.
  unfold check_tool_updates. st_unfold.
  pose proof (map_m_extends check_category (tracked_tools (config c)) c
                check_category_extends) as Hext.
  destruct (map_m check_category (tracked_tools (config c)) c)
    as [[tracked'| |] c1]; [done| |done].
  by intros [= <- <-].
Qed.

(** An exception of the update check ends the run at once: the trend scan
    is not made, the configuration file and [README.md] are not written
    and nothing is printed. *)
Theorem run_stops_when_check_raises (p : Process) (e : exn) (c1 : Checker) :
  check_tool_updates (checker p) = (Raise e, c1) →
  ∃ p',
    run p = (Raise e, p')
    ∧ config_file p' = config_file p ∧ printed p' = printed p
    ∧ readme (checker p') = readme (checker p)
    ∧ trending_tools (checker p') = trending_tools (checker p).
Proof.
  intros Hcheck.
  destruct (check_tool_updates_raises _ _ _ Hcheck) as (_ & Ht & Hr & _).
  unfold run, in_checker. st_unfold. rewrite Hcheck. by eexists.
Qed.

(** A run that returns has saved the configuration it holds, with the
    date of the run and the trending tools it found, and printed the
    summary of what it holds; it returns [False] exactly when it found
    nothing, which is when it prints [No updates found.]. *)
Theorem run_saves_what_it_found (p p' : Process) (b : bool) :
  run p = (Ok b, p') →
  config_file p' = Some (config (checker p'))
  ∧ last_update_check (config (checker p')) = Some get_current_timestamp
  ∧ saved_trending_tools (config (checker p')) = trending_tools (checker p')
  ∧ (∃ summary, generate_summary (checker p') = Ok summary
                ∧ printed p' = printed p ++ [summary])
  ∧ (b = false ↔ updates_found (checker p') = []
                 ∧ trending_tools (checker p') = [])
  ∧ (b = false ↔ printed p' = printed p ++ ["No updates found."]).
Proof.
  unfold run, in_checker, ConfigManager.save_config, print. st_unfold.
  destruct (check_tool_updates (checker p)) as [[[]| |] c1]; simpl; [|done..].
  destruct (search_trending_tools c1) as [[[]| |] c2]; simpl; [|done..].
  destruct (update_readme (stamp_config c2)) as [r c3] eqn:Hreadme.
  destruct (update_readme_frame _ _ _ Hreadme)
    as (Hconfig & Hupdates & Htrending & _).
  destruct r as [[]| |]; simpl; [|done..].
  destruct (generate_summary c3) as [summary| |] eqn:Hsummary; simpl;
    [|done..].
  intros [= <- <-]. simpl. rewrite Hconfig. simpl.
  assert ((0 <? length (updates_found c3))%nat
          || (0 <? length (trending_tools c3))%nat = false
          ↔ updates_found c3 = [] ∧ trending_tools c3 = []) as Hnothing.
  { destruct (updates_found c3), (trending_tools c3); simpl; try done;
      split; try done; by intros []. }
  repeat split; try (by rewrite ?Htrending); try (by apply Hnothing).
  - by exists summary.
  - intros Hb. apply Hnothing, generate_summary_nothing in Hb.
    congruence.
  - intros Hprinted. apply Hnothing, generate_summary_nothing.
    apply app_inv_head in Hprinted. congruence.
Qed.

End whole_run.

Lemma update_readme_writes_readme_only_witness :
  update_readme (W := Example.world) (Example.checker [] None)
  = (Ok tt, Example.checker [] None).
Proof.
  destruct (update_readme (W := Example.world) (Example.checker [] None))
    as [r c'] eqn:Hrun.
  destruct (update_readme_writes_readme_only _ _ _ Hrun)
    as (_ & _ & _ & _ & _ & Hmissing).
  by destruct (Hmissing eq_refl) as [-> ->].
Defined.

Lemma run_stops_when_check_raises_witness :
  ∃ p',
    run (W := Example.world) (P := Release.packaging)
      (Example.process
         (Example.checker
            [("ai_frameworks", [("ToolX", Example.toolx_undescribed)])]
            (Some "|**ToolX**|1.0.0|")))
    = (Raise (KeyError "description"), p')
    ∧ config_file p' = None ∧ printed p' = []
    ∧ readme (checker p') = Some "|**ToolX**|1.0.0|".
Proof.
  set (c := Example.checker
              [("ai_frameworks", [("ToolX", Example.toolx_undescribed)])]
              (Some "|**ToolX**|1.0.0|")).
  destruct (check_tool_updates (W := Example.world) (P := Release.packaging) c)
    as [r c1] eqn:Hcheck.
  assert (r = Raise (KeyError "description")) as ->
    by (by vm_compute in Hcheck; simplify_eq).
  destruct (run_stops_when_check_raises (Example.process c) _ _ Hcheck)
    as (p' & Hrun & Hfile & Hprinted & Hreadme & _).
  by exists p'.
Defined.

Lemma run_saves_what_it_found_witness :
  ∃ p',
    run (W := Example.world) (P := Release.packaging)
      (Example.process Example.run_toolx) = (Ok true, p')
    ∧ config_file p' = Some (config (checker p'))
    ∧ last_update_check (config (checker p')) = Some "2026-01-15".
Proof.
  destruct (run (W := Example.world) (P := Release.packaging)
              (Example.process Example.run_toolx)) as [r p'] eqn:Hrun.
  assert (r = Ok true) as -> by (by vm_compute in Hrun; simplify_eq).
  exists p'. split; [done|].
  by destruct (run_saves_what_it_found _ _ _ Hrun) as (Hfile & Hdate & _).
Defined.

(** ** Keywords *)








(** ** The installation of missing packages *)

Section dependencies.
Context {H : Host}.


End dependencies.

(** ** The forum monitor *)

Lemma existsb_filter_nil {A} (f : A → bool) (l : list A) :
  existsb f l = false ↔ List.filter f l = [].
Proof.
  induction l as [|x l IH]; simpl; [done|].
  destruct (f x); simpl; [by split|]. apply IH.
Qed.

Lemma any_in_high_value (text : string) :
  ForumMonitor.any_in ForumMonitor.high_value_keywords text = true →
  ForumMonitor.any_in ForumMonitor.ai_keywords text = true.
Proof.
  unfold ForumMonitor.any_in. rewrite !existsb_exists.
  intros (kw & Hin & Hkw). exists kw. split; [|done].
  simpl in Hin. simpl. intuition.
Qed.

Lemma calculate_relevance_low (title : string) :
  ForumMonitor._calculate_relevance title = "low"
  ↔ ForumMonitor.any_in ForumMonitor.ai_keywords (lower_str title) = false.
Proof.
  unfold ForumMonitor._calculate_relevance.
  destruct (ForumMonitor.any_in ForumMonitor.high_value_keywords _) eqn:Hhigh.
  - rewrite (any_in_high_value _ Hhigh). by split.
  - by destruct (ForumMonitor.any_in ForumMonitor.ai_keywords _).
Qed.

(** The relevance of a title is [low] exactly when no keyword is extracted
    from it, and [high] exactly when one of the five high-value keywords
    is; every other title is of [medium] relevance. *)
Theorem calculate_relevance_by_keywords (title : string) :
  (ForumMonitor._calculate_relevance title = "low"
   ↔ extract_keywords title ForumMonitor.ai_keywords = [])
  ∧ (ForumMonitor._calculate_relevance title = "high"
     ↔ extract_keywords title ForumMonitor.high_value_keywords ≠ [])
  ∧ (ForumMonitor._calculate_relevance title = "low"
     ∨ ForumMonitor._calculate_relevance title = "medium"
     ∨ ForumMonitor._calculate_relevance title = "high").
Proof.
  split; [|split].
  - rewrite calculate_relevance_low. apply existsb_filter_nil.
  - unfold ForumMonitor._calculate_relevance, extract_keywords.
    rewrite <- existsb_filter_nil. unfold ForumMonitor.any_in.
    destruct (existsb _ ForumMonitor.high_value_keywords); [by split|].
    by destruct (existsb _ ForumMonitor.ai_keywords).
  - unfold ForumMonitor._calculate_relevance.
    destruct (ForumMonitor.any_in ForumMonitor.high_value_keywords _); auto.
    destruct (ForumMonitor.any_in ForumMonitor.ai_keywords _); auto.
Qed.

Section reddit.
Context {W : World}.








End reddit.


(** ** More on the rewrite of the README *)

Lemma is_prefix_app_take (p s r : string) (n : nat) :
  is_prefix p (s +:+ r) = true →
  (String.length p ≤ String.length s + n)%nat →
  is_prefix p (s +:+ take n r) = true.
Proof.
  revert s r n. induction p as [|a p IH]; intros s r n; [by destruct s|].
  destruct s as [|b s].
  - rewrite !append_nil_l. destruct r as [|b r]; [done|].
    destruct n as [|n]; simpl; [lia|].
    intros [Hab Hp]%andb_true_iff Hlen. rewrite Hab. simpl.
    apply (IH "" r n); [by rewrite append_nil_l|simpl; lia].
  - rewrite !append_cons. simpl.
    intros [Hab Hp]%andb_true_iff Hlen. rewrite Hab. simpl.
    apply IH; [done|lia].
Qed.

Lemma is_prefix_before (p s t : string) (c : ascii) :
  occurs c p = false → is_prefix p (s +:+ String c t) = true →
  is_prefix p s = true.
Proof.
  revert s. induction p as [|a p IH]; intros s; [by destruct s|].
  simpl. intros [Hac Hp]%orb_false_iff. destruct s as [|b s].
  - rewrite append_nil_l. simpl. intros [Hab _]%andb_true_iff. congruence.
  - rewrite append_cons. simpl. intros [Hab Hps]%andb_true_iff.
    rewrite Hab. simpl. by apply IH.
Qed.

Lemma is_substring_cons_false (p : string) (a : ascii) (s : string) :
  is_substring p (String a s) = false
  ↔ is_prefix p (String a s) = false ∧ is_substring p s = false.
Proof. cbn [is_substring]. apply orb_false_iff. Qed.

(** A text that does not contain [p] still does not when a character that
    is not in [p] and a text without [p] follow. *)
Lemma is_substring_app_false (p s t : string) (c : ascii) :
  is_substring p s = false → occurs c p = false →
  is_substring p (String c t) = false →
  is_substring p (s +:+ String c t) = false.
Proof.
  intros Hs Hc Ht. induction s as [|b s IH]; [by rewrite append_nil_l|].
  apply is_substring_cons_false in Hs as [Hhere Hlater].
  rewrite append_cons. apply is_substring_cons_false. split; [|by apply IH].
  destruct (is_prefix p (String b (s +:+ String c t))) eqn:Hp; [|done].
  rewrite <- append_cons in Hp. apply is_prefix_before in Hp; [|done].
  congruence.
Qed.

Lemma is_substring_app_r (p s t : string) :
  is_substring p (s +:+ t) = false → is_substring p t = false.
Proof.
  induction s as [|b s IH]; [by rewrite append_nil_l|].
  rewrite append_cons. intros [_ Hlater]%is_substring_cons_false.
  by apply IH.
Qed.

Lemma is_prefix_app (p t : string) : is_prefix p (p +:+ t) = true.
Proof.
  induction p as [|a p IH]; [by destruct t|].
  rewrite append_cons. simpl. by rewrite Ascii.eqb_refl.
Qed.

Lemma is_substring_app (p s t : string) :
  is_substring p (s +:+ p +:+ t) = true.
Proof.
  induction s as [|b s IH].
  - rewrite append_nil_l. destruct (p +:+ t) eqn:Hpt.
    + simpl. rewrite <- Hpt. by rewrite is_prefix_app.
    + cbn [is_substring]. rewrite <- Hpt. by rewrite is_prefix_app.
  - rewrite append_cons. cbn [is_substring]. rewrite IH. apply orb_true_r.
Qed.

Lemma strip_prefix_is_prefix (p text : string) :
  is_prefix p text = false → Re.strip_prefix p text = None.
Proof.
  revert text. induction p as [|a p IH]; intros [|b text]; simpl; try done.
  destruct (Ascii.eqb a b); [|done]. apply IH.
Qed.

(** The scan of a pattern that starts with the literal [p] keeps the text
    before the first place where [p] occurs. *)
Lemma sub_from_before (matcher : string → option (string * nat))
    (p pre rest : string) :
  (∀ text, is_prefix p text = false → matcher text = None) →
  is_substring p (pre +:+ take (String.length p - 1) rest) = false →
  Re.sub_from matcher (pre +:+ rest) 0 = pre +:+ Re.sub_from matcher rest 0.
Proof.
  intros Hmatcher. induction pre as [|a pre IH]; [by rewrite !append_nil_l|].
  rewrite !append_cons. intros [Hhere Hlater]%is_substring_cons_false.
  cbn [Re.sub_from]. rewrite Hmatcher, (IH Hlater); [done|].
  destruct (is_prefix p (String a (pre +:+ rest))) eqn:Hp; [|done].
  rewrite <- append_cons in Hp.
  apply (is_prefix_app_take _ _ _ (String.length p - 1)) in Hp;
    [|simpl; lia].
  rewrite append_cons in Hp. congruence.
Qed.

Lemma sub_from_absent (matcher : string → option (string * nat))
    (p text : string) :
  (∀ text, is_prefix p text = false → matcher text = None) →
  is_substring p text = false →
  Re.sub_from matcher text 0 = text.
Proof.
  intros Hmatcher. induction text as [|a text IH]; [done|].
  intros [Hhere Hlater]%is_substring_cons_false.
  cbn [Re.sub_from]. by rewrite Hmatcher, (IH Hlater).
Qed.

(** A match that takes the whole of the text that is left. *)
Lemma sub_from_whole (matcher : string → option (string * nat))
    (text replacement : string) :
  text ≠ "" → matcher text = Some (replacement, String.length text) →
  Re.sub_from matcher text 0 = replacement.
Proof.
  intros Htext Hm. rewrite (sub_from_match _ _ _ _ Htext Hm).
  rewrite <- length_behead.
  rewrite <- (append_nil_r (behead text)) at 1.
  by rewrite sub_from_skip, append_nil_r.
Qed.

Lemma match_trending_prefix (replacement text : string) :
  is_prefix "## Trending Tools to Investigate" text = false →
  Re.match_trending replacement text = None.
Proof.
  intros Hp. unfold Re.match_trending.
  by rewrite (strip_prefix_is_prefix _ _ Hp).
Qed.

Lemma match_generated_prefix (replacement text : string) :
  is_prefix "Generated" text = false →
  Re.match_generated replacement text = None.
Proof.
  intros Hp. unfold Re.match_generated.
  by rewrite (strip_prefix_is_prefix _ _ Hp).
Qed.

Lemma until_section_end_all (text : string) :
  is_substring (LF +:+ LF +:+ "---") text = false →
  is_substring (LF +:+ LF +:+ "##") text = false →
  Re.until_section_end text = String.length text.
Proof.
  induction text as [|a text IH]; [done|].
  intros [Hrule Hrules]%is_substring_cons_false
    [Hhead Hheads]%is_substring_cons_false.
  cbn [Re.until_section_end String.length]. rewrite Hrule, Hhead. simpl.
  by rewrite IH.
Qed.

Section trending_section.
Context {W : World}.

(** The first run appends the trending section to a document that does not
    have one; a run with the same trending tools then finds the section and
    writes it over itself, so the document stays as it is and the section
    is not repeated.  This needs a section in which no blank line is
    followed by a rule or a heading, as is the case when the descriptions
    have no blank lines. *)
Theorem add_trending_section_twice (trending : list json)
    (text section : string) :
  _generate_trending_section trending = Ok section →
  Re.plain_template section = true →
  is_substring "## Trending Tools to Investigate" text = false →
  is_substring (LF +:+ LF +:+ "---") section = false →
  is_substring (LF +:+ LF +:+ "##") section = false →
  ∃ doc,
    doc = text +:+ LF +:+ LF +:+ "---" +:+ LF +:+ LF +:+ section
    ∧ _add_trending_section trending text = Ok doc
    ∧ _add_trending_section trending doc = Ok doc.
Proof.
  intros Hsection Hplain Habsent Hrule Hhead. eexists. split; [done|].
  unfold _add_trending_section. rewrite Hsection.
  unfold mbind, result_bind, res_bind. rewrite Habsent. simpl negb. cbv iota.
  split; [done|].
  assert (∃ tail, section = "## Trending Tools to Investigate" +:+ tail)
    as [tail Htail].
  { revert Hsection. unfold _generate_trending_section.
    unfold mbind, result_bind, res_bind.
    destruct (trending_rows _) as [rows| |]; [|done..].
    intros [= <-]. by eexists. }
  set (heading := "## Trending Tools to Investigate") in *.
  assert (is_substring heading
            (text +:+ LF +:+ LF +:+ "---" +:+ LF +:+ LF +:+ section) = true)
    as ->.
  { rewrite Htail.
    replace (text +:+ LF +:+ LF +:+ "---" +:+ LF +:+ LF +:+ heading +:+ tail)
      with ((text +:+ LF +:+ LF +:+ "---" +:+ LF +:+ LF) +:+ heading +:+ tail)
      by by rewrite !append_assoc.
    apply is_substring_app. }
  simpl negb. cbv iota. rewrite Hplain. f_equal. unfold Re.sub.
  replace (text +:+ LF +:+ LF +:+ "---" +:+ LF +:+ LF +:+ section)
    with ((text +:+ LF +:+ LF +:+ "---" +:+ LF +:+ LF) +:+ section)
    by by rewrite !append_assoc.
  rewrite (sub_from_before _ heading);
    [|apply match_trending_prefix|].
  - f_equal. apply sub_from_whole.
    + rewrite Htail. by vm_compute.
    + assert (Re.match_trending section (heading +:+ tail)
              = Some (section, String.length (heading +:+ tail))) as Hm.
      { unfold Re.match_trending. fold heading.
        rewrite strip_prefix_app. do 2 f_equal.
        rewrite until_section_end_all; [by rewrite length_append| |];
          apply (is_substring_app_r _ heading); by rewrite <- Htail. }
      by rewrite <- Htail in Hm.
  - rewrite Htail. rewrite !append_assoc.
    apply is_substring_app_false; [done|by vm_compute|by vm_compute].
Qed.

End trending_section.

Lemma until_dash_None (text : string) :
  is_substring Re.EN_DASH text = false → Re.until_dash text = None.
Proof.
  induction text as [|a text IH].
  - done.
  - intros [Hhere Hlater]%is_substring_cons_false.
    cbn [Re.until_dash]. rewrite Hhere, (IH Hlater).
    by destruct (Ascii.eqb a "010").
Qed.

Lemma until_dash_Some (old post : string) :
  occurs "010" old = false →
  is_substring Re.EN_DASH (old +:+ take 2 Re.EN_DASH) = false →
  Re.until_dash (old +:+ Re.EN_DASH +:+ post) = Some (String.length old).
Proof.
  induction old as [|a old IH].
  - intros _ _. rewrite append_nil_l. by destruct post.
  - rewrite !append_cons. cbn [occurs].
    intros [Ha Hold]%orb_false_iff [Hhere Hlater]%is_substring_cons_false.
    cbn [Re.until_dash String.length]. rewrite Ha, (IH Hold Hlater).
    destruct (is_prefix Re.EN_DASH (String a (old +:+ Re.EN_DASH +:+ post)))
      eqn:Hp; [|done].
    rewrite <- append_cons in Hp.
    apply (is_prefix_app_take _ _ _ 2) in Hp; [|simpl; lia].
    replace (take 2 (Re.EN_DASH +:+ post)) with (take 2 Re.EN_DASH) in Hp
      by done.
    rewrite append_cons in Hp. congruence.
Qed.

Section generated.
Context {W : World}.

(** The marker [Generated ... –] gets the date of the run: in a document
    whose first [Generated] is followed on its line by an en dash, the
    text between the two is replaced by that date, and the rest of the
    document, if it has no further [Generated], stays. *)
Theorem rewrite_generated_stamps_date (pre old post : string) :
  Re.plain_template ("Generated " +:+ long_date now +:+ " " +:+ Re.EN_DASH)
  = true →
  is_substring "Generated" (pre +:+ "Generate") = false →
  occurs "010" old = false →
  is_substring Re.EN_DASH (old +:+ take 2 Re.EN_DASH) = false →
  is_substring "Generated" post = false →
  rewrite_generated (pre +:+ "Generated" +:+ old +:+ Re.EN_DASH +:+ post)
  = Ok (pre +:+ "Generated " +:+ long_date now +:+ " " +:+ Re.EN_DASH
        +:+ post).
Proof.
  intros Hplain Hpre Hold Hdash Hpost. unfold rewrite_generated.
  rewrite Hplain. f_equal. unfold Re.sub.
  set (replacement := "Generated " +:+ long_date now +:+ " " +:+ Re.EN_DASH).
  rewrite (sub_from_before _ "Generated");
    [|apply match_generated_prefix|done].
  f_equal.
  rewrite (sub_from_match _ _ replacement
             (String.length "Generated" + String.length old
              + String.length Re.EN_DASH)).
  - unfold replacement. rewrite !append_assoc. do 4 f_equal.
    replace ("Generated" +:+ old +:+ Re.EN_DASH +:+ post)
      with (("Generated" +:+ old +:+ Re.EN_DASH) +:+ post)
      by by rewrite !append_assoc.
    rewrite behead_append by done.
    replace (Nat.pred (String.length "Generated" + String.length old
                       + String.length Re.EN_DASH))
      with (String.length (behead ("Generated" +:+ old +:+ Re.EN_DASH))).
    + rewrite sub_from_skip.
      apply (sub_from_absent _ "Generated");
        [apply match_generated_prefix|done].
    + rewrite length_behead, !length_append. simpl. lia.
  - done.
  - unfold Re.match_generated. rewrite strip_prefix_app.
    by rewrite (until_dash_Some _ _ Hold Hdash).
Qed.

(** Without an en dash nothing is a marker: a document that has none is
    left as it is, whatever follows its [Generated]. *)
Theorem rewrite_generated_needs_en_dash (text : string) :
  Re.plain_template ("Generated " +:+ long_date now +:+ " " +:+ Re.EN_DASH)
  = true →
  is_substring Re.EN_DASH text = false →
  rewrite_generated text = Ok text.
Proof.
  intros Hplain Hdash. unfold rewrite_generated. rewrite Hplain. f_equal.
  unfold Re.sub. induction text as [|a text IH]; [done|].
  apply is_substring_cons_false in Hdash as [Hhere Hlater].
  cbn [Re.sub_from]. rewrite (IH Hlater).
  unfold Re.match_generated.
  destruct (Re.strip_prefix "Generated" (String a text)) as [rest|] eqn:Hrest;
    [|done].
  rewrite until_dash_None; [done|].
  apply strip_prefix_Some in Hrest.
  apply (is_substring_app_r _ "Generated"). rewrite <- Hrest.
  apply is_substring_cons_false. by split.
Qed.

End generated.

Lemma add_trending_section_twice_witness :
  ∃ doc,
    _add_trending_section [entry_of "ai-agents" (Example.repo "b" 60)]
      "# Workstation" = Ok doc
    ∧ _add_trending_section [entry_of "ai-agents" (Example.repo "b" 60)] doc
      = Ok doc.
Proof.
  destruct (_generate_trending_section
              [entry_of "ai-agents" (Example.repo "b" 60)])
    as [section| |] eqn:Hsection; [|by vm_compute in Hsection..].
  destruct (add_trending_section_twice _ "# Workstation" section Hsection)
    as (doc & _ & Hfirst & Hagain);
    [vm_compute in Hsection; injection Hsection as <-; by vm_compute..|].
  by exists doc.
Defined.

Lemma rewrite_generated_stamps_date_witness :
  rewrite_generated (W := Example.world)
    ("# Workstation" +:+ LF +:+ "*Generated January 1, 2026 " +:+ Re.EN_DASH
     +:+ " tools*")
  = Ok ("# Workstation" +:+ LF +:+ "*Generated January 15, 2026 "
        +:+ Re.EN_DASH +:+ " tools*").
Proof.
  etrans; [etrans|].
  - by instantiate (1 := rewrite_generated (W := Example.world)
                           (("# Workstation" +:+ LF +:+ "*") +:+ "Generated"
                            +:+ " January 1, 2026 " +:+ Re.EN_DASH
                            +:+ " tools*")).
  - by apply (rewrite_generated_stamps_date (W := Example.world)).
  - by vm_compute.
Defined.

Lemma rewrite_generated_needs_en_dash_witness :
  rewrite_generated (W := Example.world)
    "*Generated January 1, 2026 - tools*"
  = Ok "*Generated January 1, 2026 - tools*".
Proof. by apply (rewrite_generated_needs_en_dash (W := Example.world)). Defined.

(** ** The analysis of the discussions *)

Lemma occurrences_app (k : string) (l1 l2 : list string) :
  occurrences k (l1 ++ l2) = (occurrences k l1 + occurrences k l2)%nat.
Proof. unfold occurrences. by rewrite filter_app, length_app. Qed.

Lemma occurrences_singleton (k key : string) :
  occurrences k [key] = if decide (key = k) then 1%nat else 0%nat.
Proof.
  unfold occurrences. rewrite filter_cons. by destruct (decide (key = k)).
Qed.

Lemma bump_keys (key : string) (counts : list (string * nat)) :
  ∀ k, k ∈ (ForumMonitor.bump key counts).*1 ↔ k = key ∨ k ∈ counts.*1.
Proof.
  induction counts as [|[k0 n0] counts IH]; intros k; simpl.
  - rewrite list_elem_of_singleton, elem_of_nil. tauto.
  - destruct (String.eqb_spec k0 key) as [->|Hne]; simpl.
    + rewrite !elem_of_cons. tauto.
    + rewrite !elem_of_cons, IH. tauto.
Qed.

Lemma bump_NoDup (key : string) (counts : list (string * nat)) :
  NoDup counts.*1 → NoDup (ForumMonitor.bump key counts).*1.
Proof.
  induction counts as [|[k0 n0] counts IH]; simpl.
  - intros _. apply NoDup_singleton.
  - intros [Hk0 Hnd]%NoDup_cons.
    destruct (String.eqb_spec k0 key) as [->|Hne]; simpl.
    + by apply NoDup_cons.
    + apply NoDup_cons. split; [|by apply IH].
      rewrite bump_keys. by intros [->|Hin].
Qed.

Lemma bump_elem (key : string) (counts : list (string * nat)) :
  NoDup counts.*1 →
  ∀ k n, (k, n) ∈ ForumMonitor.bump key counts
         ↔ (k ≠ key ∧ (k, n) ∈ counts)
           ∨ (k = key
              ∧ ((∃ m, (key, m) ∈ counts ∧ n = S m)
                 ∨ ((key ∉ counts.*1) ∧ n = 1%nat))).
Proof.
  induction counts as [|[k0 n0] counts IH]; simpl; intros Hnd k n.
  - rewrite list_elem_of_singleton. split.
    + intros [= -> ->]. right. split; [done|]. right. split; [|done].
      apply not_elem_of_nil.
    + intros [[_ Hin]|[-> [(m & Hin & _)|[_ ->]]]]; [| |done];
        by apply elem_of_nil in Hin.
  - apply NoDup_cons in Hnd as [Hk0 Hnd].
    assert (∀ m, (k0, m) ∉ counts) as Hfresh.
    { intros m Hin. apply Hk0. apply list_elem_of_fmap. by exists (k0, m). }
    destruct (String.eqb_spec k0 key) as [->|Hne].
    + rewrite elem_of_cons. split.
      * intros [[= -> ->]|Hin].
        -- right. split; [done|]. left. exists n0. split; [by left|done].
        -- left. split; [|by right]. intros ->. by apply (Hfresh n).
      * intros [[Hk Hin]|[-> [(m & Hin & ->)|[Hout _]]]].
        -- apply elem_of_cons in Hin as [[= -> ->]|Hin]; [done|by right].
        -- apply elem_of_cons in Hin as [[= ->]|Hin]; [by left|].
           by destruct (Hfresh m).
        -- destruct Hout. by left.
    + rewrite elem_of_cons, (IH Hnd). split.
      * intros [[= -> ->]|[[Hk Hin]|[-> Hkey]]].
        -- left. split; [done|by left].
        -- left. split; [done|by right].
        -- right. split; [done|].
           destruct Hkey as [(m & Hin & ->)|[Hout ->]].
           ++ left. exists m. split; [by right|done].
           ++ right. split; [|done]. simpl.
              apply not_elem_of_cons. by split.
      * intros [[Hk Hin]|[-> Hkey]].
        -- apply elem_of_cons in Hin as [[= -> ->]|Hin]; [by left|].
           right. left. by split.
        -- right. right. split; [done|].
           destruct Hkey as [(m & Hin & ->)|[Hout ->]].
           ++ apply elem_of_cons in Hin as [[= ? ?]|Hin]; [done|].
              left. by exists m.
           ++ right. split; [|done]. simpl in Hout.
              apply not_elem_of_cons in Hout. by destruct Hout.
Qed.

Lemma tallies_bump (key : string) (counts : list (string * nat))
    (l : list string) :
  tallies counts l → tallies (ForumMonitor.bump key counts) (l ++ [key]).
Proof.
  intros [Hnd Hcounts]. split; [by apply bump_NoDup|].
  intros k n. rewrite (bump_elem _ _ Hnd), occurrences_app,
    occurrences_singleton.
  destruct (decide (key = k)) as [<-|Hne].
  - split.
    + intros [[Hk _]|[_ [(m & Hin & ->)|[Hout ->]]]]; [done| |].
      * apply Hcounts in Hin as [-> _]. split; lia.
      * split; [|lia].
        destruct (occurrences key l) as [|m] eqn:Hm; [done|].
        destruct Hout. apply list_elem_of_fmap. exists (key, S m).
        split; [done|]. apply Hcounts. split; [done|lia].
    + intros [-> _]. right. split; [done|].
      destruct (occurrences key l) as [|m] eqn:Hm.
      * right. split; [|done].
        intros ([k' m] & Hk' & Hin)%list_elem_of_fmap.
        simpl in Hk'. subst k'. apply Hcounts in Hin as [-> Hpos]. lia.
      * left. exists (S m). split; [|lia]. apply Hcounts. split; [done|lia].
  - rewrite Nat.add_0_r, <- Hcounts. split.
    + by intros [[_ Hin]|[-> _]].
    + intros Hin. left. split; [|done]. by intros ->.
Qed.

Lemma tallies_foldl (keys : list string) (counts : list (string * nat))
    (l : list string) :
  tallies counts l →
  tallies (foldl (λ counts key, ForumMonitor.bump key counts) counts keys)
    (l ++ keys).
Proof.
  revert counts l. induction keys as [|key keys IH]; intros counts l Hc; simpl.
  - by rewrite app_nil_r.
  - replace (l ++ key :: keys) with ((l ++ [key]) ++ keys)
      by by rewrite <- app_assoc.
    apply IH. by apply tallies_bump.
Qed.

Lemma tallies_nil : tallies [] [].
Proof.
  split; [constructor|]. intros k n. split; [by intros ?%elem_of_nil|].
  unfold occurrences. simpl. lia.
Qed.

Lemma count_discussions_keywords (config : Config) (discussions : list json)
    (counts counts' : list (string * nat) * list (string * nat))
    (l : list string) :
  ForumMonitor.count_discussions config discussions counts = Ok counts' →
  tallies counts.1 l →
  ∃ keywords, all_keywords discussions = Ok keywords
              ∧ tallies counts'.1 (l ++ keywords).
Proof.
  revert counts l. induction discussions as [|d rest IH]; intros counts l; simpl.
  - intros [= <-] Hc. exists []. by rewrite app_nil_r.
  - unfold mbind, result_bind, res_bind.
    unfold ForumMonitor.count_discussion at 1.
    destruct counts as [keyword_counts tool_mentions].
    unfold mbind, result_bind, res_bind.
    destruct (ForumMonitor.keywords_of d) as [keywords| |]; [|done..].
    destruct (getitem "title" d) as [[| | |t| |]| |]; try done.
    destruct (ForumMonitor.ai_frameworks _) as [names| |]; [|done..].
    intros Hrest Hc. simpl in Hc.
    destruct (IH _ (l ++ keywords) Hrest) as (more & -> & Hmore).
    { simpl. by apply tallies_foldl. }
    exists (keywords ++ more). by rewrite app_assoc.
Qed.

Lemma insert_item_perm (x : string * nat) (l : list (string * nat)) :
  ForumMonitor.insert_item x l ≡ₚ x :: l.
Proof.
  induction l as [|y l IH]; simpl; [done|].
  destruct (x.2 <? y.2)%nat; [|done]. rewrite IH. apply Permutation_swap.
Qed.

Lemma sorted_by_count_perm (l : list (string * nat)) :
  ForumMonitor.sorted_by_count l ≡ₚ l.
Proof.
  induction l as [|x l IH]; simpl; [done|].
  by rewrite insert_item_perm, IH.
Qed.

Lemma insert_item_descending (x : string * nat) (l : list (string * nat)) :
  descending l → descending (ForumMonitor.insert_item x l).
Proof.
  unfold descending. induction l as [|y l IH]; simpl.
  - intros _. by repeat constructor.
  - intros [Hl Hy]%StronglySorted_inv.
    destruct (Nat.ltb_spec x.2 y.2) as [Hlt|Hge].
    + constructor; [by apply IH|].
      rewrite insert_item_perm. constructor; [lia|done].
    + constructor; [by constructor|].
      constructor; [done|].
      eapply Forall_impl; [exact Hy|]. simpl. intros z Hz. lia.
Qed.

Lemma sorted_by_count_descending (l : list (string * nat)) :
  descending (ForumMonitor.sorted_by_count l).
Proof.
  induction l as [|x l IH]; simpl; [constructor|].
  by apply insert_item_descending.
Qed.

(** The first [n] of a list in descending order are its greatest. *)
Lemma descending_firstn (n : nat) (l : list (string * nat))
    (x : string * nat) :
  descending l → x ∈ l →
  x ∈ firstn n l ∨ (length (firstn n l) = n ∧ ∀ y, y ∈ firstn n l → (x.2 ≤ y.2)%nat).
Proof.
  intros Hl Hx. rewrite <- (take_drop n l) in Hl, Hx.
  apply elem_of_app in Hx as [Hx|Hx]; [by left|]. right. split.
  - apply length_take_le.
    destruct (decide (n ≤ length l)%nat) as [|Hgt]; [done|].
    rewrite drop_ge in Hx by lia. by apply elem_of_nil in Hx.
  - intros y Hy. by apply (StronglySorted_app_1_elem_of _ _ _ _ _ Hl).
Qed.

(** The trending keywords are the ten most frequent keywords of the
    discussions: at most ten keywords, none twice, in descending order of
    their counts; the count of each is the number of times it occurs in
    the keywords of the discussions; and a keyword that is left out occurs
    no more often than any of the ten. *)
Theorem analyze_discussions_trending_keywords (config : Config)
    (discussions : list json) (analysis : ForumMonitor.Analysis) :
  ForumMonitor.analyze_discussions config discussions = Ok analysis →
  ∃ keywords,
    all_keywords discussions = Ok keywords
    ∧ (length (ForumMonitor.trending_keywords analysis) ≤ 10)%nat
    ∧ NoDup (ForumMonitor.trending_keywords analysis).*1
    ∧ descending (ForumMonitor.trending_keywords analysis)
    ∧ (∀ k n, (k, n) ∈ ForumMonitor.trending_keywords analysis →
              n = occurrences k keywords ∧ (0 < n)%nat)
    ∧ (∀ k, k ∈ keywords →
            (k, occurrences k keywords)
              ∈ ForumMonitor.trending_keywords analysis
            ∨ (length (ForumMonitor.trending_keywords analysis) = 10%nat
               ∧ ∀ x, x ∈ ForumMonitor.trending_keywords analysis →
                      (occurrences k keywords ≤ x.2)%nat)).
Proof.
  unfold ForumMonitor.analyze_discussions, mbind, result_bind, res_bind.
  destruct (ForumMonitor.count_discussions config discussions ([], []))
    as [counts| |] eqn:Hcounts; [|done..].
  destruct (ForumMonitor.count_high discussions) as [high| |]; [|done..].
  destruct (ForumMonitor.sources_of discussions) as [sources| |]; [|done..].
  intros [= <-]. simpl.
  destruct (count_discussions_keywords _ _ _ _ [] Hcounts tallies_nil)
    as (keywords & Hkeywords & Hnd & Htally).
  rewrite app_nil_l in Htally. exists keywords. split; [done|].
  pose proof (sorted_by_count_perm counts.1) as Hperm.
  pose proof (sorted_by_count_descending counts.1) as Hdesc.
  split; [rewrite length_take; lia|]. split.
  - rewrite fmap_take.
    eapply sublist_NoDup; [|apply sublist_take]. by rewrite Hperm.
  - split.
    + unfold descending in *.
      rewrite <- (take_drop 10 (ForumMonitor.sorted_by_count counts.1)) in Hdesc.
      by apply StronglySorted_app_1_l in Hdesc.
    + split.
      * intros k n Hin. apply Htally. rewrite <- Hperm.
        by apply (subseteq_take 10).
      * intros k Hk.
        assert ((k, occurrences k keywords)
                  ∈ ForumMonitor.sorted_by_count counts.1) as Hin.
        { rewrite Hperm. apply Htally. split; [done|].
          unfold occurrences.
          destruct (filter (λ x, x = k) keywords) as [|? ?] eqn:Hf;
            [|simpl; lia].
          assert (k ∈ filter (λ x, x = k) keywords) as Hkf
            by by apply list_elem_of_filter.
          rewrite Hf in Hkf. by apply elem_of_nil in Hkf. }
        apply (descending_firstn 10 _ _ Hdesc Hin).
Qed.

Lemma length_remove_dups (l : list string) :
  (length (remove_dups l) ≤ length l)%nat.
Proof.
  induction l as [|x l IH]; simpl; [done|].
  destruct (decide_rel elem_of x l); simpl; lia.
Qed.

(** The totals of the analysis: every discussion is counted once, and the
    discussions of high relevance and the sources are no more than the
    discussions; at most five tools are listed.  Without discussions the
    analysis is empty, and does not read the tracked tools. *)
Theorem analyze_discussions_totals (config : Config)
    (discussions : list json) :
  (∀ analysis,
     ForumMonitor.analyze_discussions config discussions = Ok analysis →
     ForumMonitor.total_discussions analysis = length discussions
     ∧ (ForumMonitor.high_relevance_count analysis ≤ length discussions)%nat
     ∧ (ForumMonitor.sources_monitored analysis ≤ length discussions)%nat
     ∧ (length (ForumMonitor.trending_tools analysis) ≤ 5)%nat)
  ∧ ForumMonitor.analyze_discussions config []
    = Ok {| ForumMonitor.trending_keywords := [];
            ForumMonitor.trending_tools := [];
            ForumMonitor.total_discussions := 0;
            ForumMonitor.high_relevance_count := 0;
            ForumMonitor.sources_monitored := 0 |}.
Proof.
  split; [|done]. intros analysis.
  unfold ForumMonitor.analyze_discussions, mbind, result_bind, res_bind.
  destruct (ForumMonitor.count_discussions config discussions ([], []))
    as [counts| |]; [|done..].
  destruct (ForumMonitor.count_high discussions) as [high| |] eqn:Hhigh;
    [|done..].
  destruct (ForumMonitor.sources_of discussions) as [sources| |] eqn:Hsources;
    [|done..].
  intros [= <-]. simpl. split; [done|]. split; [|split].
  - clear Hsources. revert high Hhigh.
    induction discussions as [|d rest IH]; simpl; intros high.
    + by intros [= <-].
    + unfold mbind, result_bind, res_bind.
      destruct (getitem "relevance" d) as [relevance| |]; [|done..].
      destruct (ForumMonitor.count_high rest) as [n| |]; [|done..].
      intros [= <-]. specialize (IH n eq_refl).
      destruct (is_str "high" relevance); lia.
  - assert (length sources = length discussions) as <-.
    { clear Hhigh. revert sources Hsources.
      induction discussions as [|d rest IH]; simpl; intros sources.
      - by intros [= <-].
      - unfold mbind, result_bind, res_bind.
        destruct (getitem "source" d) as [source| |]; [|done..].
        destruct (ForumMonitor.as_str source) as [s| |]; [|done..].
        destruct (ForumMonitor.sources_of rest) as [ss| |]; [|done..].
        intros [= <-]. simpl. by rewrite (IH ss). }
    apply length_remove_dups.
  - rewrite length_take. lia.
Qed.

Lemma analyze_discussions_trending_keywords_witness :
  ∃ analysis,
    ForumMonitor.analyze_discussions (config Example.run_toolx)
      Example.discussions = Ok analysis
    ∧ ForumMonitor.trending_keywords analysis
      = [("agent", 2%nat); ("llm", 1%nat); ("tool", 1%nat)]
    ∧ descending (ForumMonitor.trending_keywords analysis).
Proof.
  destruct (ForumMonitor.analyze_discussions (config Example.run_toolx)
              Example.discussions) as [analysis| |] eqn:Hrun;
    [|by vm_compute in Hrun..].
  destruct (analyze_discussions_trending_keywords _ _ _ Hrun)
    as (keywords & _ & _ & _ & Hdesc & _).
  exists analysis. split; [done|]. split; [|done].
  vm_compute in Hrun. by injection Hrun as <-.
Defined.

(** ** From the trend scan to the documents *)

Lemma typed_candidate_candidate (repo : json) :
  typed_candidate repo = true → candidate repo = true.
Proof.
  unfold typed_candidate. rewrite !andb_true_iff. tauto.
Qed.

Lemma entry_of_described (topic : string) (repo : json) :
  typed_candidate repo = true → described (entry_of topic repo).
Proof.
  unfold typed_candidate. rewrite !andb_true_iff.
  intros [[[_ _] Hd] _]. unfold described, entry_of. simpl.
  destruct (field "description" repo) as [| | |s| |]; try done.
  - by eexists.
  - unfold or_else. simpl. destruct (String.eqb_spec s ""); simpl.
    + by eexists.
    + by exists s.
Qed.

Lemma entry_of_row (topic : string) (repo : json) :
  typed_candidate repo = true →
  ∃ row, trending_row (entry_of topic repo) = Ok row.
Proof.
  intros Htyped. pose proof (entry_of_described topic _ Htyped) as (s & Hs & _).
  revert Htyped. unfold typed_candidate, candidate.
  rewrite !andb_true_iff.
  intros [[[[[_ [z Hz]%bool_decide_eq_true] Hn] Hu] _] Hl].
  unfold trending_row, mbind, result_bind, res_bind.
  unfold entry_of in *. simpl in *. rewrite Hs.
  unfold stars in Hz.
  destruct (field "stargazers_count" repo); try done.
  destruct (field "name" repo); try done.
  destruct (field "html_url" repo); try done.
  destruct (field "language" repo) as [| | |l| |]; try done; simpl.
  - by eexists.
  - unfold or_else. simpl. destruct (String.eqb l ""); simpl; by eexists.
Qed.

Lemma entry_of_item (topic : string) (repo : json) :
  typed_candidate repo = true →
  ∃ item, trending_item (entry_of topic repo) = Ok item.
Proof.
  intros Htyped. pose proof (entry_of_described topic _ Htyped) as (s & Hs & _).
  revert Htyped. unfold typed_candidate, candidate.
  rewrite !andb_true_iff.
  intros [[[[[_ [z Hz]%bool_decide_eq_true] Hn] _] _] _].
  unfold trending_item, mbind, result_bind, res_bind.
  unfold entry_of in *. simpl in *. rewrite Hs.
  unfold stars in Hz.
  destruct (field "stargazers_count" repo); try done.
  destruct (field "name" repo); try done.
  by eexists.
Qed.

Lemma trending_rows_Ok (entries : list json) :
  Forall (λ entry, ∃ row, trending_row entry = Ok row) entries →
  ∃ rows, trending_rows entries = Ok rows.
Proof.
  induction 1 as [|entry entries [row Hrow] _ [rows Hrows]]; simpl.
  - by eexists.
  - rewrite Hrow, Hrows. by eexists.
Qed.

Lemma trending_items_Ok (entries : list json) :
  Forall (λ entry, ∃ item, trending_item entry = Ok item) entries →
  ∃ items, trending_items entries = Ok items.
Proof.
  induction 1 as [|entry entries [item Hitem] _ [items Hitems]]; simpl.
  - by eexists.
  - rewrite Hitem, Hitems. by eexists.
Qed.

Section pipeline.
Context {W : World}.

(** What the trend scan keeps of a response with the types of the search
    API can be shown: every entry has a description that is a non-empty
    string (the default text where the repository has none), so the
    section of the README and the items of the summary are generated
    without an exception. *)
Theorem scanned_entries_render (topic : string)
    (kvs : list (string * json)) (repos : list json) (c : Checker) :
  fetched (search_url topic) = JObj kvs →
  assoc "items" kvs = Some (JArr repos) →
  forallb typed_candidate repos = true →
  trending_tools c = [] →
  ∃ c' section items,
    search_topic topic c = (Ok tt, c')
    ∧ Forall described (trending_tools c')
    ∧ _generate_trending_section (trending_tools c') = Ok section
    ∧ trending_items (firstn 5 (trending_tools c')) = Ok items.
Proof.
  intros Hf Hitems Htyped Hempty.
  assert (forallb candidate repos = true) as Hcand.
  { apply forallb_forall. intros repo Hin.
    apply typed_candidate_candidate.
    by apply (proj1 (forallb_forall _ _) Htyped). }
  assert (search_topic topic c
          = (Ok tt,
             add_trendings (entry_of topic <$> filter popular repos)
               (log_queries [QHttp (search_url topic)] c))) as Hrun.
  { unfold search_topic, truthy_and_contains. st_unfold.
    rewrite get_run, Hf.
    destruct kvs as [|kv kvs]; [done|]. simpl truthy. cbv iota.
    unfold contains, getitem. rewrite Hitems.
    rewrite bool_decide_eq_true_2 by done. simpl.
    by rewrite (scan_candidates _ _ _ Hcand). }
  assert (Forall (λ repo, typed_candidate repo = true) (filter popular repos))
    as Hkept.
  { apply Forall_forall. intros repo [_ Hin]%list_elem_of_filter.
    apply (proj1 (forallb_forall _ _) Htyped). by apply list_elem_of_In. }
  destruct (trending_rows_Ok
              (firstn 10 (entry_of topic <$> filter popular repos)))
    as [rows Hrows].
  { apply Forall_take, Forall_fmap.
    eapply Forall_impl; [exact Hkept|]. apply entry_of_row. }
  destruct (trending_items_Ok
              (firstn 5 (entry_of topic <$> filter popular repos)))
    as [items Hitems'].
  { apply Forall_take, Forall_fmap.
    eapply Forall_impl; [exact Hkept|]. apply entry_of_item. }
  eexists _, _, items. split; [exact Hrun|]. simpl. rewrite Hempty. simpl.
  split; [|split; [|done]].
  - apply Forall_fmap. eapply Forall_impl; [exact Hkept|].
    apply entry_of_described.
  - unfold _generate_trending_section. by rewrite Hrows.
Qed.

End pipeline.

Lemma scanned_entries_render_witness :
  ∃ c' section,
    search_topic (W := Example.world) "ai-agents" blank = (Ok tt, c')
    ∧ field "description" <$> trending_tools c'
      = [JStr "No description available"; JStr "No description available"]
    ∧ _generate_trending_section (trending_tools c') = Ok section.
Proof.
  destruct (scanned_entries_render (W := Example.world) "ai-agents"
              [("total_count", JNum 4); ("items", JArr Example.candidates)]
              Example.candidates blank eq_refl eq_refl eq_refl eq_refl)
    as (c' & section & items & Hrun & _ & Hsection & _).
  exists c', section. split; [done|]. split; [|done].
  vm_compute in Hrun. by injection Hrun as <-.
Defined.

(** The second section of the summary counts all the trending tools in its
    heading and lists the first five of them. *)
Theorem summary_lists_five_trending (c : Checker)
    (sections : list ReportGenerator.section) :
  trending_tools c ≠ [] →
  summary_sections c = Ok sections →
  ∃ s listed,
    last sections = Some s
    ∧ ReportGenerator.title s
      = Some ("Trending Tools Found ("
              +:+ decimal (length (trending_tools c)) +:+ ")")
    ∧ ReportGenerator.items s = Some listed
    ∧ length listed = Nat.min 5 (length (trending_tools c))
    ∧ trending_items (firstn 5 (trending_tools c)) = Ok listed.
Proof.
  intros Htrending. unfold summary_sections.
  destruct (trending_tools c) as [|t ts] eqn:Ht; [done|].
  unfold mbind, result_bind, res_bind.
  destruct (trending_items (firstn 5 (t :: ts))) as [listed| |] eqn:Hlisted;
    [|done..].
  intros [= <-]. eexists _, listed. split; [by rewrite last_snoc|].
  split; [done|]. split; [done|]. split; [|done].
  apply trending_items_length in Hlisted. by rewrite Hlisted, length_take.
Qed.

Lemma summary_lists_five_trending_witness :
  ∃ sections s listed,
    summary_sections Example.scanned = Ok sections
    ∧ last sections = Some s
    ∧ ReportGenerator.title s = Some "Trending Tools Found (6)"
    ∧ ReportGenerator.items s = Some listed
    ∧ length listed = 5%nat.
Proof.
  destruct (summary_sections Example.scanned) as [sections| |] eqn:Hrun;
    [|by vm_compute in Hrun..].
  destruct (summary_lists_five_trending Example.scanned sections)
    as (s & listed & Hlast & Htitle & Hitems & Hlength & _); [done..|].
  by exists sections, s, listed.
Defined.
